(** * User model of the SaaS boilerplate API: sign-in, sign-up and team
      permission check

    Shallow embedding of [api/server/models/User.ts]: the Mongoose schema
    (lines 28-119) as records, the collections as lists in natural order,
    and the [async] static methods of [UserClass] as functions in a state
    and exception monad over the datastore and an effect trace; and of
    [api/server/auth.ts]: what the OAuth callbacks, the session hooks, the
    login handlers and the passwordless hooks do with the User model. *)

From stdpp Require Import base option list strings gmap.

(** ** JavaScript values *)

(** [!x] for a string-valued expression that may be [undefined]: falsy when
    it is [undefined] or the empty string. *)
Definition truthy (x : option string) : bool :=
  match x with
  | Some s => negb (String.eqb s "")
  | None => false
  end.

(** Errors that are thrown: [new Error(message)] of the source; the
    duplicate-key error (code 11000) with which the datastore rejects a write
    that breaks a [unique] index of the schema; the [ValidationError] with
    which Mongoose refuses, before anything is sent, a write that leaves a
    [required] path empty or gives [_id] a value that is no ObjectId, with
    the paths at fault; the [CastError] with which it refuses a query whose
    [_id] is no ObjectId; and the [TypeError] of reading a property of
    [null] or [undefined], whose message text depends on the engine and is
    not modelled. *)
Inductive Error : Type :=
  | JsError (message : string)
  | MongoError (code : N) (index : string)
  | ValidationError (paths : list string)
  | CastError (path value : string)
  | JsTypeError (property receiver : string).

Inductive result (A : Type) : Type :=
  | Ok (a : A)
  | Throw (e : Error).
Arguments Ok {A} a.
Arguments Throw {A} e.

(** ** Data model *)

(** The OAuth providers wired in [auth.ts] ([setupGoogle], [setupMicrosoft]);
    they are the two values of [type] for which the schema declares a
    [`${type}Id`] path. *)
Inductive Provider : Type := google | microsoft.

(** The text of the [type] tag, as spliced into [`oAuthAccessToken.${type}`]. *)
Definition type_name (type : Provider) : string :=
  match type with
  | google => "google"
  | microsoft => "microsoft"
  end.

(** A [Map] of strings ([type: Map, of: String]). *)
Abbreviation TokenMap := (gmap string string).

(** What the field-encryption plugin stores in place of a non-string field:
    the sealed JSON of the value. The secret is the one [ENCRYPT_SECRET] of
    the deployment, so sealing is modelled symbolically. *)
Inductive ciphertext : Type := Sealed (m : TokenMap).

Definition encrypt (m : TokenMap) : ciphertext := Sealed m.
Definition decrypt (c : ciphertext) : TokenMap := match c with Sealed m => m end.

(** A path listed in the plugin's [fields] option together with the two
    marker paths the plugin keeps beside it: for [oAuthAccessToken] these are
    [__enc_oAuthAccessToken] and [__enc_oAuthAccessToken_d]. *)
Record EncryptedField : Type := mkEncryptedField {
  plain : option TokenMap;
  __enc : option bool;
  __enc_d : option ciphertext;
}.

(** [default: undefined], no markers. *)
Definition noField : EncryptedField :=
  {| plain := None; __enc := None; __enc_d := None |}.

Record StripeCustomer : Type := mkStripeCustomer {
  customer_id : string;
  customer_object : string;
  customer_created : nat;
  customer_currency : string;
  customer_default_source : string;
  customer_description : string;
}.

Record StripeCard : Type := mkStripeCard {
  card_id : string;
  card_object : string;
  card_brand : string;
  card_funding : string;
  card_country : string;
  card_last4 : string;
  card_exp_month : nat;
  card_exp_year : nat;
}.

Record StripeInvoice : Type := mkStripeInvoice {
  invoice_id : string;
  invoice_object : string;
  invoice_amount_paid : nat;
  invoice_date : nat;
  invoice_customer : string;
  invoice_subscription : string;
  invoice_hosted_invoice_url : string;
  invoice_billing : string;
  invoice_paid : bool;
  invoice_number : string;
  invoice_teamId : string;
  invoice_teamName : string;
}.

Record StripeListOfInvoices : Type := mkStripeListOfInvoices {
  invoices_object : string;
  invoices_has_more : bool;
  invoices_data : list StripeInvoice;
}.

(** [mongoSchema] / [IUserDocument]. Paths without [required] or a default
    are optional; [email], [slug] and [createdAt] are [required]. *)
Record User : Type := mkUser {
  _id : string;
  googleId : option string;
  microsoftId : option string;
  oAuthAccessToken : EncryptedField;
  oAuthRefreshToken : EncryptedField;
  slug : string;
  createdAt : nat;
  email : string;
  defaultTeamSlug : string;
  isAdmin : bool;
  displayName : option string;
  avatarUrl : option string;
  stripeCustomer : option StripeCustomer;
  stripeCard : option StripeCard;
  hasCardInformation : bool;
  stripeListOfInvoices : option StripeListOfInvoices;
  darkTheme : option bool;
}.

Definition set_googleId (v : option string) (u : User) : User :=
  mkUser (_id u) v (microsoftId u) (oAuthAccessToken u) (oAuthRefreshToken u)
    (slug u) (createdAt u) (email u) (defaultTeamSlug u) (isAdmin u)
    (displayName u) (avatarUrl u) (stripeCustomer u) (stripeCard u)
    (hasCardInformation u) (stripeListOfInvoices u) (darkTheme u).

Definition set_microsoftId (v : option string) (u : User) : User :=
  mkUser (_id u) (googleId u) v (oAuthAccessToken u) (oAuthRefreshToken u)
    (slug u) (createdAt u) (email u) (defaultTeamSlug u) (isAdmin u)
    (displayName u) (avatarUrl u) (stripeCustomer u) (stripeCard u)
    (hasCardInformation u) (stripeListOfInvoices u) (darkTheme u).

Definition set_oAuthAccessToken (v : EncryptedField) (u : User) : User :=
  mkUser (_id u) (googleId u) (microsoftId u) v (oAuthRefreshToken u)
    (slug u) (createdAt u) (email u) (defaultTeamSlug u) (isAdmin u)
    (displayName u) (avatarUrl u) (stripeCustomer u) (stripeCard u)
    (hasCardInformation u) (stripeListOfInvoices u) (darkTheme u).

Definition set_oAuthRefreshToken (v : EncryptedField) (u : User) : User :=
  mkUser (_id u) (googleId u) (microsoftId u) (oAuthAccessToken u) v
    (slug u) (createdAt u) (email u) (defaultTeamSlug u) (isAdmin u)
    (displayName u) (avatarUrl u) (stripeCustomer u) (stripeCard u)
    (hasCardInformation u) (stripeListOfInvoices u) (darkTheme u).

(** ** The field-encryption plugin

    [mongoSchema.plugin(fieldEncryption, { fields: ['oAuthAccessToken',
    'oAuthRefreshToken'], secret })], lines 547-550. [signInOrSignUp] is only
    reached from a passport strategy, which [auth.ts] registers when the
    provider's client id is configured, so the plugin is installed whenever
    the methods below run. *)

(** Sealing of one field: skipped when the marker is set or the field has no
    value; otherwise the value moves, sealed, to the [_d] path. *)
Definition encryptField (f : EncryptedField) : EncryptedField :=
  match __enc f, plain f with
  | Some true, _ => f
  | _, None => f
  | _, Some m => {| plain := None; __enc := Some true; __enc_d := Some (encrypt m) |}
  end.

(** Unsealing of one field: only a marked field is touched. A marker with
    no sealed data beside it is never written for a [Map] field; such a field
    is left as it is. *)
Definition decryptField (f : EncryptedField) : EncryptedField :=
  match __enc f, __enc_d f with
  | Some true, Some c =>
      {| plain := Some (decrypt c); __enc := Some false; __enc_d := None |}
  | _, _ => f
  end.

Definition stripField (f : EncryptedField) : EncryptedField :=
  {| plain := plain f; __enc := None; __enc_d := None |}.

Definition onEncryptedFields (g : EncryptedField -> EncryptedField) (u : User) : User :=
  set_oAuthRefreshToken (g (oAuthRefreshToken u))
    (set_oAuthAccessToken (g (oAuthAccessToken u)) u).

Definition encryptFieldsSync : User -> User := onEncryptedFields encryptField.
Definition decryptFieldsSync : User -> User := onEncryptedFields decryptField.
Definition stripEncryptionFieldMarkers : User -> User := onEncryptedFields stripField.

(** ** Collaborating collections *)

Module Team.
(** Modelled from the spec: the schema of [models/Team] is declared
    elsewhere; a team "has a member-id list", and
    [checkPermissionAndGetTeam] selects [memberIds] from it. *)
Record Team : Type := mkTeam {
  _id : string;
  memberIds : list string;
}.
End Team.

Module Invitation.
(** Modelled from the spec: the schema of [models/Invitation] is declared
    elsewhere; an invitation is an "email to team pending link". *)
Record Invitation : Type := mkInvitation {
  email : string;
  teamId : string;
}.
End Invitation.

Module EmailTemplate.
(** Modelled from the spec: the schema of [models/EmailTemplate] is declared
    elsewhere; a stored template is looked up by [name] and rendered into a
    [subject] and a [message]. *)
Record EmailTemplate : Type := mkEmailTemplate {
  name : string;
  subject : string;
  message : string;
}.
End EmailTemplate.

(** The argument of [sendEmail]. *)
Record Mail : Type := mkMail {
  from : string;
  to : list string;
  mail_subject : string;
  mail_body : string;
}.

(** ** The world: datastore, clock and effect trace *)

(** Calls that leave the process, in the order they are made. *)
Inductive Event : Type :=
  | UserFindOne
  | UserSave (id : string)
  | InvitationCountDocuments (email : string)
  | EmailTemplateFindOne (name : string)
  | TeamFindById (id : option string)
  | SendEmail (m : Mail)
  | Subscribe (email listName : string)
  | LoggerError (label : string) (e : Error).

Record World : Type := mkWorld {
  Users : list User;
  Invitations : list Invitation.Invitation;
  EmailTemplates : list EmailTemplate.EmailTemplate;
  Teams : list Team.Team;
  clock : nat;
  trace : list Event;
}.

Definition set_Users (us : list User) (w : World) : World :=
  mkWorld us (Invitations w) (EmailTemplates w) (Teams w) (clock w) (trace w).

Definition emit (e : Event) (w : World) : World :=
  mkWorld (Users w) (Invitations w) (EmailTemplates w) (Teams w) (clock w)
    (trace w ++ [e]).

(** ** Async methods: state and exceptions *)

Definition M (A : Type) : Type := World -> result A * World.

#[global] Instance M_ret : MRet M := λ A a w, (Ok a, w).

#[global] Instance M_bind : MBind M := λ A B k m w,
  match m w with
  | (Ok a, w') => k a w'
  | (Throw e, w') => (Throw e, w')
  end.

Definition throw {A : Type} (e : Error) : M A := λ w, (Throw e, w).

(** [try { body } catch (err) { handler }] *)
Definition try_catch {A : Type} (body : M A) (handler : Error -> M A) : M A := λ w,
  match body w with
  | (Ok a, w') => (Ok a, w')
  | (Throw e, w') => handler e w'
  end.

Definition call (e : Event) : M unit := λ w, (Ok (), emit e w).

Definition logger_error (label : string) (e : Error) : M unit :=
  call (LoggerError label e).

(** [new Date()] *)
Definition new_Date : M nat := λ w, (Ok (clock w), w).

(** ** The User collection *)

(** A hydrated Mongoose document: the field values it was loaded with
    ([None] for one made by [new User], whose [isNew] is true) and its current
    field values. A path is modified when the two differ on it. *)
Record Document : Type := mkDocument {
  loaded : option User;
  this : User;
}.

(** The [unique] paths of the schema, with [_id]; a [sparse] index holds no
    entry for a document that lacks the path. *)
Definition uniqueIndexes : list (string * (User -> option string)) :=
  [ ("_id", λ u, Some (_id u));
    ("email", λ u, Some (email u));
    ("slug", λ u, Some (slug u));
    ("googleId", googleId);
    ("microsoftId", microsoftId) ].

Definition holds (key : User -> option string) (k : string) (v : User) : bool :=
  bool_decide (key v = Some k).

Definition collides (key : User -> option string) (u : User) (others : list User) : bool :=
  match key u with
  | Some k => existsb (holds key k) others
  | None => false
  end.

Definition isModified (d : Document) (key : User -> option string) : bool :=
  match loaded d with
  | None => true
  | Some l => negb (bool_decide (key l = key (this d)))
  end.

(** The documents a write of [d] is checked against: all of them for an
    insert, the other ones for an update. *)
Definition others (d : Document) (coll : list User) : list User :=
  match loaded d with
  | None => coll
  | Some _ => filter (λ v, _id v ≠ _id (this d)) coll
  end.

(** The first unique index that the write of [d] would break: an insert
    enters every index, an update only those whose key it modifies. *)
Definition duplicateKey (d : Document) (coll : list User) : option string :=
  fst <$> List.find (λ ix, isModified d ix.2 && collides ix.2 (this d) (others d coll))
            uniqueIndexes.

Definition write (d : Document) (coll : list User) : list User :=
  match loaded d with
  | None => coll ++ [this d]
  | Some _ => (λ v, if bool_decide (_id v = _id (this d)) then this d else v) <$> coll
  end.

(** The [required] paths of the schema that hold strings (lines 49-62); a
    required string refuses the empty string as it refuses [undefined].
    [createdAt], the third required path, always holds a date here. *)
Definition requiredPaths : list (string * (User -> string)) :=
  [ ("slug", slug); ("email", email) ].

(** The paths on which the validation of [d] fails: the required paths that
    the write sets, which are all of them for a new document and the
    modified ones for a loaded one, and leaves empty. The values of a stored
    record passed validation when they were written. *)
Definition invalidPaths (d : Document) : list string :=
  fst <$> List.filter
            (λ p, isModified d (λ u, Some (p.2 u)) && String.eqb (p.2 (this d)) "")
            requiredPaths.

(** [doc.save()]: the document is validated first, and a failure rejects
    with a [ValidationError] before anything is sent; then the plugin's
    [pre('save')] hook seals the fields of the document in place, and the
    document is inserted or updated; a broken unique index rejects the
    write. *)
Definition save (d : Document) : M Document := λ w,
  let d' := mkDocument (loaded d) (encryptFieldsSync (this d)) in
  let w' := emit (UserSave (_id (this d))) w in
  match invalidPaths d with
  | (_ :: _) as paths => (Throw (ValidationError paths), w)
  | [] =>
      match duplicateKey d' (Users w) with
      | Some ix => (Throw (MongoError 11000%N ix), w')
      | None =>
          (Ok (mkDocument (Some (this d')) (this d')), set_Users (write d' (Users w)) w')
      end
  end.

(** [this.findOne(filter)], not lean: the first match in natural order,
    hydrated, its fields unsealed by the plugin's [init] hook ("we need the
    tokens unencrypted here", line 339). *)
Definition findOne (filter : User -> bool) : M (option Document) := λ w,
  (Ok ((λ u, mkDocument (Some u) (decryptFieldsSync u)) <$> List.find filter (Users w)),
   emit UserFindOne w).

(** [_.pick(doc, this.publicFields())] *)
Record PublicUser : Type := mkPublicUser {
  public__id : string;
  public_id : string;
  public_displayName : option string;
  public_email : string;
  public_avatarUrl : option string;
  public_slug : string;
  public_isMicrosoftUser : option bool;
  public_isGoogleUser : option bool;
  public_defaultTeamSlug : string;
  public_hasCardInformation : bool;
  public_stripeCustomer : option StripeCustomer;
  public_stripeCard : option StripeCard;
  public_stripeListOfInvoices : option StripeListOfInvoices;
  public_darkTheme : option bool;
}.

(** The virtuals [isMicrosoftUser] and [isGoogleUser]:
    [this.googleId && this.googleId.length > 0]. *)
Definition isProviderUser (id : option string) : option bool :=
  (λ s, negb (String.eqb s "")) <$> id.

Definition publicFields (u : User) : PublicUser :=
  {| public__id := _id u;
     public_id := _id u;
     public_displayName := displayName u;
     public_email := email u;
     public_avatarUrl := avatarUrl u;
     public_slug := slug u;
     public_isMicrosoftUser := isProviderUser (microsoftId u);
     public_isGoogleUser := isProviderUser (googleId u);
     public_defaultTeamSlug := defaultTeamSlug u;
     public_hasCardInformation := hasCardInformation u;
     public_stripeCustomer := stripeCustomer u;
     public_stripeCard := stripeCard u;
     public_stripeListOfInvoices := stripeListOfInvoices u;
     public_darkTheme := darkTheme u |}.

(** [this.findOne(filter).select(this.publicFields().join(' '))
    .setOptions({ lean: true })]: no hydration, no hook. *)
Definition findOne_lean (filter : User -> bool) : M (option PublicUser) := λ w,
  (Ok (publicFields <$> List.find filter (Users w)), emit UserFindOne w).

(** [Invitation.countDocuments({ email })] *)
Definition Invitation_countDocuments (e : string) : M nat := λ w,
  (Ok (length (filter (λ i, Invitation.email i = e) (Invitations w))),
   emit (InvitationCountDocuments e) w).

(** [EmailTemplate.findOne({ name }).setOptions({ lean: true })] *)
Definition EmailTemplate_findOne (n : string) : M (option EmailTemplate.EmailTemplate) := λ w,
  (Ok (List.find (λ t, bool_decide (EmailTemplate.name t = n)) (EmailTemplates w)),
   emit (EmailTemplateFindOne n) w).

(** [Team.findById(teamId).select('memberIds').setOptions({ lean: true })] *)
Definition Team_findById (teamId : option string) : M (option Team.Team) := λ w,
  (Ok (List.find (λ t, bool_decide (Some (Team._id t) = teamId)) (Teams w)),
   emit (TeamFindById teamId) w).

(** ** Collaborators *)

Module Template.
(** What [getEmailTemplate] resolves to. *)
Record Template : Type := mkTemplate {
  subject : string;
  message : string;
}.
End Template.

(** The helpers and constants that [User.ts] imports from other modules:
    [generateSlug] ([utils/slugify]), [getEmailTemplate]
    ([models/EmailTemplate]), [sendEmail] ([aws-ses]), [subscribe]
    ([mailchimp]), [EMAIL_SUPPORT_FROM_ADDRESS] ([consts]), the [_id]
    that Mongoose gives a freshly made document, and the strings that
    Mongoose casts to an ObjectId. [generateSlug] reads the collection it is
    given; the two services may fail, [None] being success. *)
Class Services : Type := {
  generateSlug : list User -> string -> string;
  ObjectId : list User -> string;
  isObjectId : string -> bool;
  getEmailTemplate : string -> string -> EmailTemplate.EmailTemplate -> Template.Template;
  sendEmail : Mail -> option Error;
  subscribe : string -> string -> option Error;
  EMAIL_SUPPORT_FROM_ADDRESS : string;
}.

(** Modelled from the spec: what [generateSlug] ([utils/slugify], defined
    outside [User.ts]) returns. The identity resolver "generates a unique slug from
    display name", a slug being a "unique string derived from a display
    name": no stored record has the slug returned. Likewise the [_id] of a
    freshly made document is the [_id] of no stored record. *)
Class Contract (services : Services) : Prop := {
  generateSlug_unique :
    ∀ (coll : list User) (name : string) (u : User),
      u ∈ coll → slug u ≠ generateSlug coll name;
  ObjectId_fresh :
    ∀ (coll : list User) (u : User), u ∈ coll → _id u ≠ ObjectId coll;
}.

(** The [oauthToken] argument, [{ refreshToken?: string; accessToken?: string }]:
    [None] when the object has no such key, [Some None] when the key holds
    [undefined] (as in [{ accessToken, refreshToken }] of [auth.ts] when the
    provider sent no token). *)
Record OAuthToken : Type := mkOAuthToken {
  accessToken : option (option string);
  refreshToken : option (option string);
}.

(** [_.isEmpty(oauthToken)]: the object has no own enumerable key. *)
Definition isEmpty (t : OAuthToken) : bool :=
  match accessToken t, refreshToken t with
  | None, None => true
  | _, _ => false
  end.

(** [oauthToken.accessToken] as a condition: the key holds a non-empty string. *)
Definition supplied (p : option (option string)) : option string :=
  match p with
  | Some (Some s) => if String.eqb s "" then None else Some s
  | _ => None
  end.

(** [user.get(`${type}Id`)] and [user.set(`${type}Id`, v)] *)
Definition get_Id (type : Provider) (u : User) : option string :=
  match type with
  | google => googleId u
  | microsoft => microsoftId u
  end.

Definition set_Id (type : Provider) (v : option string) (u : User) : User :=
  match type with
  | google => set_googleId v u
  | microsoft => set_microsoftId v u
  end.

(** [user.set(`oAuthAccessToken.${type}`, v)] on the [Map]-typed path: the
    entry of key [type] is set, in a new map if the path was [undefined]. *)
Definition set_entry (type : Provider) (v : string) (f : EncryptedField) : EncryptedField :=
  {| plain := Some (<[type_name type := v]> (default ∅ (plain f)));
     __enc := __enc f;
     __enc_d := __enc_d f |}.

(** [user.__enc_oAuthAccessToken = false] *)
Definition unmark (f : EncryptedField) : EncryptedField :=
  {| plain := plain f; __enc := Some false; __enc_d := __enc_d f |}.

(** The query filters [{ email }] and
    [{ $or: [{ email }, { [oAuthFields.Id]: oauthId }] }]. *)
Definition byEmail (e : string) (u : User) : bool :=
  bool_decide (email u = e).

Definition byEmailOrId (type : Provider) (e : string) (oauthId : option string) (u : User) : bool :=
  byEmail e u || bool_decide (get_Id type u = oauthId).

(** Whether Mongoose casts [id] to an ObjectId, as it does with the [_id]
    of a query or of a new document before anything is sent. The [_id] of a
    stored record is an ObjectId. *)
Definition castsToObjectId `{services : Services} (id : string) (coll : list User) : bool :=
  isObjectId id || bool_decide (id ∈ _id <$> coll).

(** [list.indexOf(x) === -1], with [x] possibly [undefined]. *)
Definition indexOf (l : list string) (x : option string) : Z :=
  match list_find (λ y, Some y = x) l with
  | Some (i, _) => Z.of_nat i
  | None => (-1)%Z
  end.

Section UserClass.
Context `{services : Services}.

(** [await generateSlug(this, name)] *)
Definition generateSlug_this (name : string) : M string := λ w,
  (Ok (generateSlug (Users w) name), w).

(** [new User(fields)]: the paths given, the schema defaults for the rest,
    and a fresh [_id]. *)
Definition new_User (createdAt : nat) (email : string) (displayName avatarUrl : option string)
    (slug defaultTeamSlug : string) : M Document := λ w,
  (Ok (mkDocument None
         (mkUser (ObjectId (Users w)) None None noField noField slug createdAt email
            defaultTeamSlug false displayName avatarUrl None None false None None)),
   w).

(** [await sendEmail(mail)] *)
Definition sendEmail_await (m : Mail) : M unit := λ w,
  match sendEmail m with
  | None => (Ok (), emit (SendEmail m) w)
  | Some e => (Throw e, emit (SendEmail m) w)
  end.

(** [await subscribe({ email, listName })] *)
Definition subscribe_await (email listName : string) : M unit := λ w,
  match subscribe email listName with
  | None => (Ok (), emit (Subscribe email listName) w)
  | Some e => (Throw e, emit (Subscribe email listName) w)
  end.

(** Lines 395-424 of [signInOrSignUp] and 451-480 of [signUpByEmail], which
    differ only in the [userName] given to the template. *)
Definition welcome (email userName : string) : M unit :=
  count ← Invitation_countDocuments email;
  let hasInvitation := bool_decide (0 < count) in
  emailTemplate ← EmailTemplate_findOne "welcome";
  match emailTemplate with
  | None => throw (JsError "welcome Email template not found")
  | Some emailTemplate =>
      let template := getEmailTemplate "welcome" userName emailTemplate in
      _ ← (if negb hasInvitation
           then try_catch
                  (sendEmail_await
                     {| from := "Kelly from async-await.com <" +:+ EMAIL_SUPPORT_FROM_ADDRESS +:+ ">";
                        to := [email];
                        mail_subject := Template.subject template;
                        mail_body := Template.message template |})
                  (λ err, logger_error "Email sending error:" err)
           else mret ());
      try_catch (subscribe_await email "signups")
        (λ error, logger_error "Mailchimp error:" error)
  end.

Definition signInOrSignUp (type : Provider) (oauthId : option string) (email : string)
    (oauthToken : OAuthToken) (displayName : string) (avatarUrl : option string) : M User :=
  if negb (truthy oauthId) then throw (JsError "oauthId is required") else
  user ← findOne (byEmailOrId type email oauthId);
  match user with
  | Some user =>
      if isEmpty oauthToken then mret (this user) else
      let user :=
        if negb (truthy (get_Id type (this user)))
        then mkDocument (loaded user) (set_Id type oauthId (this user))
        else user in
      let user :=
        match supplied (accessToken oauthToken) with
        | Some token =>
            mkDocument (loaded user)
              (set_oAuthAccessToken
                 (unmark (set_entry type token (oAuthAccessToken (this user))))
                 (this user))
        | None => user
        end in
      let user :=
        match supplied (refreshToken oauthToken) with
        | Some token =>
            mkDocument (loaded user)
              (set_oAuthRefreshToken
                 (unmark (set_entry type token (oAuthRefreshToken (this user))))
                 (this user))
        | None => user
        end in
      user ← save user;
      mret (stripEncryptionFieldMarkers (decryptFieldsSync (this user)))
  | None =>
      slug ← generateSlug_this displayName;
      now ← new_Date;
      newUser ← new_User now email (Some displayName) avatarUrl slug "";
      let newUser := mkDocument (loaded newUser) (set_Id type oauthId (this newUser)) in
      let newUser :=
        match supplied (accessToken oauthToken) with
        | Some token =>
            mkDocument (loaded newUser)
              (set_oAuthAccessToken
                 (set_entry type token (oAuthAccessToken (this newUser)))
                 (this newUser))
        | None => newUser
        end in
      let newUser :=
        match supplied (refreshToken oauthToken) with
        | Some token =>
            mkDocument (loaded newUser)
              (set_oAuthRefreshToken
                 (set_entry type token (oAuthRefreshToken (this newUser)))
                 (this newUser))
        | None => newUser
        end in
      newUser ← save newUser;
      _ ← welcome email displayName;
      (* return the oauth fields but without the tokens *)
      mret (stripEncryptionFieldMarkers (decryptFieldsSync (this newUser)))
  end.

(** [this.create({ _id, createdAt, email, slug, defaultTeamSlug })]: a new
    document with the given [_id], saved. The schema declares no [_id], so
    the path is an ObjectId: an [_id] that does not cast fails validation,
    together with the required paths left empty. *)
Definition create (_id : string) (createdAt : nat) (email slug defaultTeamSlug : string)
    : M Document := λ w,
  let newUser :=
    mkDocument None
      (mkUser _id None None noField noField slug createdAt email defaultTeamSlug
         false None None None None false None None) in
  if castsToObjectId _id (Users w) then save newUser w
  else (Throw (ValidationError ("_id" :: invalidPaths newUser)), w).

Definition signUpByEmail (uid email : string) : M PublicUser :=
  user ← findOne_lean (byEmail email);
  match user with
  | Some _ => throw (JsError "User already exists")
  | None =>
      slug ← generateSlug_this email;
      now ← new_Date;
      newUser ← create uid now email slug "";
      _ ← welcome email email;
      mret (publicFields (this newUser))
  end.

Definition checkPermissionAndGetTeam (userId teamId : option string) : M Team.Team :=
  if negb (truthy userId) || negb (truthy teamId) then throw (JsError "Bad data") else
  team ← Team_findById teamId;
  match team with
  | None => throw (JsError "Team not found")
  | Some team =>
      if bool_decide (indexOf (Team.memberIds team) userId = (-1)%Z)
      then throw (JsError "Team not found")
      else mret team
  end.
End UserClass.

(** ** The other static methods of [UserClass]

    The trace has no event for the queries, the updates and the debug lines
    below; these methods are described by what they return and by what they
    do to the collection. *)

(** Reading a property of [null], as in [user.displayName] when [findById]
    found nobody. *)
Definition TypeError (property : string) : Error := JsTypeError property "null".

(** [await] of a call that resolves or rejects. *)
Definition await {A : Type} (outcome : result A) : M A := λ w, (outcome, w).

(** [logger.debug(line)] *)
Definition logger_debug (line : string) : M unit := mret ().

(** [this.findById(id, projection)], that is [findOne({ _id: id })]: the
    id is cast first, and one that is no ObjectId rejects with a
    [CastError] before the query is sent. *)
Definition findById `{services : Services} (id : string) : M (option Document) := λ w,
  if castsToObjectId id (Users w) then findOne (λ u, bool_decide (_id u = id)) w
  else (Throw (CastError "_id" id), w).

Definition set_displayName (v : option string) (u : User) : User :=
  mkUser (_id u) (googleId u) (microsoftId u) (oAuthAccessToken u) (oAuthRefreshToken u)
    (slug u) (createdAt u) (email u) (defaultTeamSlug u) (isAdmin u)
    v (avatarUrl u) (stripeCustomer u) (stripeCard u)
    (hasCardInformation u) (stripeListOfInvoices u) (darkTheme u).

Definition set_avatarUrl (v : option string) (u : User) : User :=
  mkUser (_id u) (googleId u) (microsoftId u) (oAuthAccessToken u) (oAuthRefreshToken u)
    (slug u) (createdAt u) (email u) (defaultTeamSlug u) (isAdmin u)
    (displayName u) v (stripeCustomer u) (stripeCard u)
    (hasCardInformation u) (stripeListOfInvoices u) (darkTheme u).

Definition set_slug (v : string) (u : User) : User :=
  mkUser (_id u) (googleId u) (microsoftId u) (oAuthAccessToken u) (oAuthRefreshToken u)
    v (createdAt u) (email u) (defaultTeamSlug u) (isAdmin u)
    (displayName u) (avatarUrl u) (stripeCustomer u) (stripeCard u)
    (hasCardInformation u) (stripeListOfInvoices u) (darkTheme u).

Definition set_stripeCustomer (v : option StripeCustomer) (u : User) : User :=
  mkUser (_id u) (googleId u) (microsoftId u) (oAuthAccessToken u) (oAuthRefreshToken u)
    (slug u) (createdAt u) (email u) (defaultTeamSlug u) (isAdmin u)
    (displayName u) (avatarUrl u) v (stripeCard u)
    (hasCardInformation u) (stripeListOfInvoices u) (darkTheme u).

Definition set_stripeCard (v : option StripeCard) (u : User) : User :=
  mkUser (_id u) (googleId u) (microsoftId u) (oAuthAccessToken u) (oAuthRefreshToken u)
    (slug u) (createdAt u) (email u) (defaultTeamSlug u) (isAdmin u)
    (displayName u) (avatarUrl u) (stripeCustomer u) v
    (hasCardInformation u) (stripeListOfInvoices u) (darkTheme u).

Definition set_hasCardInformation (v : bool) (u : User) : User :=
  mkUser (_id u) (googleId u) (microsoftId u) (oAuthAccessToken u) (oAuthRefreshToken u)
    (slug u) (createdAt u) (email u) (defaultTeamSlug u) (isAdmin u)
    (displayName u) (avatarUrl u) (stripeCustomer u) (stripeCard u)
    v (stripeListOfInvoices u) (darkTheme u).

Definition set_stripeListOfInvoices (v : option StripeListOfInvoices) (u : User) : User :=
  mkUser (_id u) (googleId u) (microsoftId u) (oAuthAccessToken u) (oAuthRefreshToken u)
    (slug u) (createdAt u) (email u) (defaultTeamSlug u) (isAdmin u)
    (displayName u) (avatarUrl u) (stripeCustomer u) (stripeCard u)
    (hasCardInformation u) v (darkTheme u).

Definition set_darkTheme (v : option bool) (u : User) : User :=
  mkUser (_id u) (googleId u) (microsoftId u) (oAuthAccessToken u) (oAuthRefreshToken u)
    (slug u) (createdAt u) (email u) (defaultTeamSlug u) (isAdmin u)
    (displayName u) (avatarUrl u) (stripeCustomer u) (stripeCard u)
    (hasCardInformation u) (stripeListOfInvoices u) v.

(** An update of one document by [_id]: the first document with that [_id]
    is the one updated. *)
Fixpoint updateFirst (id : string) (f : User -> User) (coll : list User) : list User :=
  match coll with
  | [] => []
  | u :: coll =>
      if bool_decide (_id u = id) then f u :: coll else u :: updateFirst id f coll
  end.

(** [this.findByIdAndUpdate(id, { $set: modifier }, { new: true,
    runValidators: true })]: the id is cast as in [findById]; the modifier
    of [$set] is applied to the stored document, no [save] hook runs; with
    [runValidators] the values that the update sets are validated before it
    is sent, and a failure rejects with a [ValidationError]; the updated
    document is returned, [null] when there is none with that [_id]; a
    broken unique index rejects the update. The methods of this class
    update a record they have just loaded. *)
Definition findByIdAndUpdate `{services : Services} (id : string) (modifier : User -> User)
    : M (option User) := λ w,
  if negb (castsToObjectId id (Users w)) then (Throw (CastError "_id" id), w) else
  match List.find (λ u, bool_decide (_id u = id)) (Users w) with
  | None => (Ok None, w)
  | Some old =>
      match invalidPaths (mkDocument (Some old) (modifier old)) with
      | (_ :: _) as paths => (Throw (ValidationError paths), w)
      | [] =>
          match duplicateKey (mkDocument (Some old) (modifier old)) (Users w) with
          | Some ix => (Throw (MongoError 11000%N ix), w)
          | None =>
              (Ok (Some (modifier old)), set_Users (updateFirst id modifier (Users w)) w)
          end
      end
  end.

(** [this.updateOne({ _id: id }, update)] for an update of paths that no
    index covers and no validator guards: the id of the filter is cast as
    in [findById]. *)
Definition updateOne `{services : Services} (id : string) (update : User -> User)
    : M unit := λ w,
  if castsToObjectId id (Users w)
  then (Ok (), set_Users (updateFirst id update (Users w)) w)
  else (Throw (CastError "_id" id), w).

(** A lean result with [select(this.publicFields().join(' '))]: the stored
    paths among the public fields; the virtuals [id], [isMicrosoftUser] and
    [isGoogleUser] are not computed on lean results. *)
Record LeanUser : Type := mkLeanUser {
  lean__id : string;
  lean_displayName : option string;
  lean_email : string;
  lean_avatarUrl : option string;
  lean_slug : string;
  lean_defaultTeamSlug : string;
  lean_hasCardInformation : bool;
  lean_stripeCustomer : option StripeCustomer;
  lean_stripeCard : option StripeCard;
  lean_stripeListOfInvoices : option StripeListOfInvoices;
  lean_darkTheme : option bool;
}.

Definition selectPublicFields (u : User) : LeanUser :=
  {| lean__id := _id u;
     lean_displayName := displayName u;
     lean_email := email u;
     lean_avatarUrl := avatarUrl u;
     lean_slug := slug u;
     lean_defaultTeamSlug := defaultTeamSlug u;
     lean_hasCardInformation := hasCardInformation u;
     lean_stripeCustomer := stripeCustomer u;
     lean_stripeCard := stripeCard u;
     lean_stripeListOfInvoices := stripeListOfInvoices u;
     lean_darkTheme := darkTheme u |}.

(** [this.find(filter).select(this.publicFields().join(' '))
    .setOptions({ lean: true })] *)
Definition find_lean (filter : User -> bool) : M (list LeanUser) := λ w,
  (Ok (selectPublicFields <$> List.filter filter (Users w)), w).

(** [select('displayName avatarUrl slug')], lean. *)
Record ProfileFields : Type := mkProfileFields {
  profile__id : string;
  profile_displayName : option string;
  profile_avatarUrl : option string;
  profile_slug : string;
}.

Definition selectProfile (u : User) : ProfileFields :=
  mkProfileFields (_id u) (displayName u) (avatarUrl u) (slug u).

(** [select('stripeCustomer stripeCard hasCardInformation')], lean. *)
Record BillingFields : Type := mkBillingFields {
  billing__id : string;
  billing_stripeCustomer : option StripeCustomer;
  billing_stripeCard : option StripeCard;
  billing_hasCardInformation : bool;
}.

Definition selectBilling (u : User) : BillingFields :=
  mkBillingFields (_id u) (stripeCustomer u) (stripeCard u) (hasCardInformation u).

(** [select('stripeCard')], lean. *)
Record CardFields : Type := mkCardFields {
  cardFields__id : string;
  cardFields_stripeCard : option StripeCard;
}.

Definition selectCard (u : User) : CardFields :=
  mkCardFields (_id u) (stripeCard u).

(** [select('stripeListOfInvoices')], lean. *)
Record InvoicesFields : Type := mkInvoicesFields {
  invoicesFields__id : string;
  invoicesFields_stripeListOfInvoices : option StripeListOfInvoices;
}.

Definition selectInvoices (u : User) : InvoicesFields :=
  mkInvoicesFields (_id u) (stripeListOfInvoices u).

(** [stripeToken], of which the methods read [id]. *)
Record StripeToken : Type := mkStripeToken {
  token_id : string;
}.

Module stripe.
(** Modelled from the spec: the payment-processor client ([../stripe]) is
    an "external collaborator"; each of its calls resolves to the object the
    schema stores, or rejects. [getListOfInvoices] may resolve to nothing. A
    customer id is [undefined] for a user without [stripeCustomer]. *)
Class Api : Type := {
  createCustomer : string -> string -> string -> result StripeCustomer;
  retrieveCard : string -> string -> result StripeCard;
  createNewCard : option string -> string -> result StripeCard;
  updateCustomer : option string -> string -> result StripeCustomer;
  getListOfInvoices : option string -> result (option StripeListOfInvoices);
}.
End stripe.

Section UserClassProfile.
Context `{services : Services}.

Definition updateProfile (userId name avatarUrl : string) : M (option ProfileFields) :=
  user ← findById userId;
  match user with
  | None => throw (TypeError "displayName")
  | Some user =>
      let modifier := (displayName (this user), avatarUrl, slug (this user)) in
      modifier ←
        (if bool_decide (Some name ≠ displayName (this user))
         then slug ← generateSlug_this name;
              mret (Some name, avatarUrl, slug)
         else mret modifier);
      updated ← findByIdAndUpdate userId
                  (λ u, set_slug modifier.2
                          (set_avatarUrl (Some modifier.1.2)
                             (set_displayName modifier.1.1 u)));
      mret (selectProfile <$> updated)
  end.

Definition getTeamMembers (userId teamId : option string) : M (list LeanUser) :=
  team ← checkPermissionAndGetTeam userId teamId;
  find_lean (λ u, bool_decide (_id u ∈ Team.memberIds team)).

(** [!!darkTheme] of a value that may be [undefined]. *)
Definition toggleTheme (userId : string) (darkTheme : option bool) : M unit :=
  updateOne userId (set_darkTheme (Some (default false darkTheme))).

End UserClassProfile.

Section UserClassBilling.
Context `{services : Services} `{api : stripe.Api}.

Definition createCustomer (userId : string) (stripeToken : StripeToken) : M (option BillingFields) :=
  user ← findById userId;
  match user with
  | None => throw (TypeError "email")
  | Some user =>
      customerObj ← await (stripe.createCustomer (token_id stripeToken)
                             (email (this user)) userId);
      _ ← logger_debug (customer_default_source customerObj);
      cardObj ← await (stripe.retrieveCard (customer_id customerObj)
                         (customer_default_source customerObj));
      updated ← findByIdAndUpdate userId
                  (λ u, set_hasCardInformation true
                          (set_stripeCard (Some cardObj)
                             (set_stripeCustomer (Some customerObj) u)));
      mret (selectBilling <$> updated)
  end.

Definition createNewCardUpdateCustomer (userId : string) (stripeToken : StripeToken)
    : M (option CardFields) :=
  user ← findById userId;
  match user with
  | None => throw (TypeError "stripeCustomer")
  | Some user =>
      _ ← logger_debug "called static method on User";
      newCardObj ← await (stripe.createNewCard
                            (customer_id <$> stripeCustomer (this user))
                            (token_id stripeToken));
      _ ← logger_debug (card_id newCardObj);
      updatedCustomerObj ← await (stripe.updateCustomer
                                    (customer_id <$> stripeCustomer (this user))
                                    (card_id newCardObj));
      updated ← findByIdAndUpdate userId
                  (λ u, set_stripeCard (Some newCardObj)
                          (set_stripeCustomer (Some updatedCustomerObj) u));
      mret (selectCard <$> updated)
  end.

Definition getListOfInvoicesForCustomer (userId : string) : M (option InvoicesFields) :=
  user ← findById userId;
  match user with
  | None => throw (TypeError "stripeCustomer")
  | Some user =>
      _ ← logger_debug "called static method on User";
      newListOfInvoices ← await (stripe.getListOfInvoices
                                   (customer_id <$> stripeCustomer (this user)));
      match newListOfInvoices with
      | None => throw (JsError "There is no payment history.")
      | Some invoices =>
          updated ← findByIdAndUpdate userId (set_stripeListOfInvoices (Some invoices));
          mret (selectInvoices <$> updated)
      end
  end.

End UserClassBilling.

(** ** [auth.ts]: what the OAuth callbacks hand to [signInOrSignUp] *)

(** Reading a property of [undefined], as in [profile.emails[0].value] for
    an empty array. *)
Definition TypeError_undefined (property : string) : Error :=
  JsTypeError property "undefined".

(** [s.substring(n)] *)
Fixpoint skip (n : nat) (s : string) : string :=
  match n, s with
  | S n, String _ s => skip n s
  | _, _ => s
  end.

(** [s.replace(pattern, replacement)] with a string pattern: the first
    occurrence is replaced, the rest is kept. *)
Fixpoint replace (pattern replacement s : string) : string :=
  if String.prefix pattern s
  then replacement +:+ skip (String.length pattern) s
  else match s with
       | EmptyString => EmptyString
       | String c s => String c (replace pattern replacement s)
       end.

Module Profile.
(** The passport profile, as far as the [verify] callbacks read it:
    [emails] and [photos] hold the [value]s of their entries, and
    [userPrincipalName] is that of [_json] ([None] without [_json]). *)
Record Profile : Type := mkProfile {
  id : option string;
  displayName : string;
  emails : option (list string);
  photos : option (list string);
  userPrincipalName : option (option string);
}.
End Profile.

Module Arguments.
(** The object that [verify] passes to [signInOrSignUp]; [email] is
    [undefined] for a profile without emails. *)
Record Arguments : Type := mkArguments {
  oauthId : option string;
  email : option string;
  oauthToken : OAuthToken;
  displayName : string;
  avatarUrl : option string;
}.
End Arguments.

(** [if (profile.emails) { email = profile.emails[0].value; }]: an array is
    truthy even when it is empty. *)
Definition firstEmail (profile : Profile.Profile) : result (option string) :=
  match Profile.emails profile with
  | None => Ok None
  | Some [] => Throw (TypeError_undefined "value")
  | Some (email :: _) => Ok (Some email)
  end.

(** Lines 166-185, up to the call: the arguments of the Google [verify]. *)
Definition googleArguments (accessToken refreshToken : option string)
    (profile : Profile.Profile) : result Arguments.Arguments :=
  match firstEmail profile with
  | Throw e => Throw e
  | Ok email =>
      let avatarUrl :=
        match Profile.photos profile with
        | Some (photo :: _) => Some (replace "sz=50" "sz=128" photo)
        | _ => None
        end in
      Ok {| Arguments.oauthId := Profile.id profile;
            Arguments.email := email;
            Arguments.oauthToken := mkOAuthToken (Some accessToken) (Some refreshToken);
            Arguments.displayName := Profile.displayName profile;
            Arguments.avatarUrl := avatarUrl |}
  end.

(** Lines 217-236, up to the call: the arguments of the Microsoft [verify],
    with the fallback to [_json.userPrincipalName]. *)
Definition microsoftArguments (accessToken refreshToken : option string)
    (profile : Profile.Profile) : result Arguments.Arguments :=
  match firstEmail profile with
  | Throw e => Throw e
  | Ok email =>
      let email :=
        if negb (truthy email) && truthy (mjoin (Profile.userPrincipalName profile))
        then mjoin (Profile.userPrincipalName profile)
        else email in
      Ok {| Arguments.oauthId := Profile.id profile;
            Arguments.email := email;
            Arguments.oauthToken := mkOAuthToken (Some accessToken) (Some refreshToken);
            Arguments.displayName := Profile.displayName profile;
            Arguments.avatarUrl := None |}
  end.

(** ** [auth.ts]: the passport session *)

(** [passport.serializeUser]: [done(null, user._id)] *)
Definition serializeUser (user : User) : string := _id user.

(** What [deserializeUser] selects: the public fields, with [googleId] and
    [microsoftId] beside the virtuals. *)
Record SessionUser : Type := mkSessionUser {
  session_public : PublicUser;
  session_googleId : option string;
  session_microsoftId : option string;
}.

(** [passport.deserializeUser]: [User.findById(id,
    User.publicFields().concat(['googleId', 'microsoftId']), done)] *)
Definition deserializeUser `{services : Services} (id : string) : M (option SessionUser) :=
  user ← findById id;
  mret ((λ user, mkSessionUser (publicFields (this user)) (googleId (this user))
                   (microsoftId (this user))) <$> user).

(** ** [auth.ts]: the redirect after login *)

(** [req.query], as far as the handler of [/auth/<type>] reads it. *)
Record Query : Type := mkQuery {
  query_next : option string;
  query_invitationToken : option string;
}.

(** [req.session], as far as the two handlers use it. *)
Record Session : Type := mkSession {
  next_url : option string;
  invitationToken : option string;
}.

(** The handler of [/auth/<type>], lines 116-128, before it hands over to
    passport. *)
Definition authHandler (query : option Query) : Session :=
  {| next_url :=
       match query ≫= query_next with
       | Some next => if truthy (Some next) && String.prefix "/" next then Some next else None
       | None => None
       end;
     invitationToken :=
       if truthy (query ≫= query_invitationToken)
       then query ≫= query_invitationToken
       else None |}.

(** What the handler of [/oauth2<type>] does: the call to
    [Invitation.addUserToTeam] it starts, if any, and the location it
    redirects to. *)
Record Redirect : Type := mkRedirect {
  addUserToTeam : option (string * User);
  location : string;
}.

Section Callback.
Variable URL_APP : string.

(** The handler of [/oauth2<type>], lines 137-157. *)
Definition callbackHandler (user : option User) (session : Session) : result Redirect :=
  let invitation :=
    match user, invitationToken session with
    | Some user, Some token => if truthy (Some token) then Some (token, user) else None
    | _, _ => None
    end in
  let redirectUrlAfterLogin :=
    match user with
    | Some user =>
        if truthy (next_url session) then Ok (default "" (next_url session))
        else if negb (truthy (Some (defaultTeamSlug user))) then Ok "/create-team"
        else Ok ("/team/" +:+ defaultTeamSlug user +:+ "/discussions")
    | None => Throw (TypeError_undefined "defaultTeamSlug")
    end in
  match redirectUrlAfterLogin with
  | Ok path => Ok (mkRedirect invitation (URL_APP +:+ path))
  | Throw e => Throw e
  end.

End Callback.

(** ** [auth.ts]: the passwordless login *)

Module mongoStore.
(** Modelled from the spec: the token store ([./passwordless]) is an
    "external collaborator"; [storeOrUpdateByEmail] resolves to the id it
    keeps for an email, or rejects. *)
Class Api : Type := {
  storeOrUpdateByEmail : string -> result string;
}.
End mongoStore.

Section Passwordless.
Context `{tokenStore : mongoStore.Api}.

(** The callback given to [passwordless.requestToken], lines 65-80: the
    result is what it hands to [callback], an error as [Throw]. *)
Definition requestToken (email : string) : M string :=
  user ← findOne_lean (byEmail email);
  match user with
  | Some user => mret (public__id user)
  | None => await (mongoStore.storeOrUpdateByEmail email)
  end.

End Passwordless.

(** What [req.user] holds: the uid that [passwordless] accepted, or the
    record loaded for it. *)
Inductive RequestUser : Type :=
  | Uid (uid : string)
  | Loaded (user : option PublicUser).

(** The projection [User.publicFields()] of a hydrated document: the paths
    [googleId] and [microsoftId] are not selected, so the virtuals
    [isGoogleUser] and [isMicrosoftUser] that read them are [undefined]. *)
Definition selectedPublicFields (u : User) : PublicUser :=
  publicFields (set_microsoftId None (set_googleId None u)).

(** The middleware of lines 51-60: a [req.user] that is a non-empty string
    is replaced by the record with that [_id], loaded with the projection
    [User.publicFields()]; an error of [findById] goes to [next(err)]. *)
Definition loadRequestUser `{services : Services} (user : RequestUser) : M RequestUser :=
  match user with
  | Uid uid =>
      if truthy (Some uid)
      then user ← findById uid; mret (Loaded (selectedPublicFields ∘ this <$> user))
      else mret (Uid uid)
  | Loaded user => mret (Loaded user)
  end.

(** * Vocabulary of the properties *)

(** The new events of a call: what it appended to the trace. *)
Definition events {A : Type} (m : M A) (w : World) : list Event :=
  drop (length (trace w)) (trace (m w).2).

(** The world after the calls [evs] were made. *)
Definition traced (evs : list Event) (w : World) : World :=
  mkWorld (Users w) (Invitations w) (EmailTemplates w) (Teams w) (clock w)
    (trace w ++ evs).

(** The cases in which [checkPermissionAndGetTeam] refuses: an absent user
    id, an absent team id, no team with that id, or a user id that is not in
    the member list of the team found. *)
Definition refused (userId teamId : option string) (w : World) : Prop :=
  truthy userId = false
  ∨ truthy teamId = false
  ∨ (∀ t, t ∈ Teams w → Some (Team._id t) ≠ teamId)
  ∨ (∃ t, List.find (λ t, bool_decide (Some (Team._id t) = teamId)) (Teams w) = Some t
          ∧ ∀ m, m ∈ Team.memberIds t → Some m ≠ userId).

(** The three updates of lines 352-364, on the field values. *)
Definition backfilled (type : Provider) (oauthId : option string) (u : User) : User :=
  if negb (truthy (get_Id type u)) then set_Id type oauthId u else u.

Definition withAccessToken (type : Provider) (oauthToken : OAuthToken) (u : User) : User :=
  match supplied (accessToken oauthToken) with
  | Some token =>
      set_oAuthAccessToken (unmark (set_entry type token (oAuthAccessToken u))) u
  | None => u
  end.

Definition withRefreshToken (type : Provider) (oauthToken : OAuthToken) (u : User) : User :=
  match supplied (refreshToken oauthToken) with
  | Some token =>
      set_oAuthRefreshToken (unmark (set_entry type token (oAuthRefreshToken u))) u
  | None => u
  end.

Definition merged (type : Provider) (oauthId : option string) (oauthToken : OAuthToken)
    (u : User) : User :=
  withRefreshToken type oauthToken (withAccessToken type oauthToken (backfilled type oauthId u)).

(** Another stored record already has [oauthId] under [`${type}Id`]. *)
Definition heldByAnother (type : Provider) (oauthId : option string) (found : User)
    (coll : list User) : Prop :=
  ∃ v, v ∈ coll ∧ _id v ≠ _id found ∧ get_Id type v = oauthId.

(** The entry of key [k] in a token map that may be [undefined]. *)
Definition entry (k : string) (f : EncryptedField) : option string :=
  m ← plain f; m !! k.

(** What a caller sees of a document once [decryptFieldsSync] and
    [stripEncryptionFieldMarkers] ran on it. *)
Definition decryptedView (u : User) : User :=
  stripEncryptionFieldMarkers (decryptFieldsSync u).

(** [v] agrees with [u] on every path of the schema except [`${type}Id`]
    and the entries of key [type] of the two token maps. The marker paths of
    the plugin are no paths of the schema and are not compared. *)
Definition sameOutside (type : Provider) (u v : User) : Prop :=
  _id v = _id u
  ∧ slug v = slug u
  ∧ createdAt v = createdAt u
  ∧ email v = email u
  ∧ defaultTeamSlug v = defaultTeamSlug u
  ∧ isAdmin v = isAdmin u
  ∧ displayName v = displayName u
  ∧ avatarUrl v = avatarUrl u
  ∧ stripeCustomer v = stripeCustomer u
  ∧ stripeCard v = stripeCard u
  ∧ hasCardInformation v = hasCardInformation u
  ∧ stripeListOfInvoices v = stripeListOfInvoices u
  ∧ darkTheme v = darkTheme u
  ∧ (∀ other, other ≠ type → get_Id other v = get_Id other u)
  ∧ (∀ k, k ≠ type_name type →
       entry k (oAuthAccessToken v) = entry k (oAuthAccessToken u))
  ∧ (∀ k, k ≠ type_name type →
       entry k (oAuthRefreshToken v) = entry k (oAuthRefreshToken u)).


Definition welcomeTemplateOf (w : World) : option EmailTemplate.EmailTemplate :=
  List.find (λ t, bool_decide (EmailTemplate.name t = "welcome")) (EmailTemplates w).

(** A call to a service inside [try], with the log entry of its [catch]. *)
Definition attempt (label : string) (e : Event) (outcome : option Error) : list Event :=
  e :: match outcome with
       | Some err => [LoggerError label err]
       | None => []
       end.

(** The paths whose names the methods' parameters share. *)
Definition email_of : User -> string := email.
Definition displayName_of : User -> option string := displayName.
Definition avatarUrl_of : User -> option string := avatarUrl.

Section Vocabulary.
Context `{services : Services}.

(** The welcome email of lines 409-414. *)
Definition welcomeMail (email userName : string) (t : EmailTemplate.EmailTemplate) : Mail :=
  {| from := "Kelly from async-await.com <" +:+ EMAIL_SUPPORT_FROM_ADDRESS +:+ ">";
     to := [email];
     mail_subject := Template.subject (getEmailTemplate "welcome" userName t);
     mail_body := Template.message (getEmailTemplate "welcome" userName t) |}.

Definition welcomeEvents (email userName : string) (w : World) : list Event :=
  [InvitationCountDocuments email; EmailTemplateFindOne "welcome"]
  ++ match welcomeTemplateOf w with
     | None => []
     | Some t =>
         (if bool_decide (0 < length (filter (λ i, Invitation.email i = email) (Invitations w)))
          then []
          else attempt "Email sending error:" (SendEmail (welcomeMail email userName t))
                 (sendEmail (welcomeMail email userName t)))
         ++ attempt "Mailchimp error:" (Subscribe email "signups")
              (subscribe email "signups")
     end.

(** The document that lines 374-391 build for a new user. *)
Definition created (type : Provider) (oauthId : option string) (email : string)
    (oauthToken : OAuthToken) (displayName : string) (avatarUrl : option string)
    (w : World) : User :=
  let newUser :=
    mkUser (ObjectId (Users w)) None None noField noField
      (generateSlug (Users w) displayName) (clock w) email "" false
      (Some displayName) avatarUrl None None false None None in
  let newUser := set_Id type oauthId newUser in
  let newUser :=
    match supplied (accessToken oauthToken) with
    | Some token =>
        set_oAuthAccessToken (set_entry type token (oAuthAccessToken newUser)) newUser
    | None => newUser
    end in
  match supplied (refreshToken oauthToken) with
  | Some token =>
      set_oAuthRefreshToken (set_entry type token (oAuthRefreshToken newUser)) newUser
  | None => newUser
  end.

(** The document that [signUpByEmail] creates, lines 443-449. *)
Definition signedUp (uid email : string) (w : World) : User :=
  mkUser uid None None noField noField (generateSlug (Users w) email) (clock w) email ""
    false None None None None false None None.

(** The paths on which the validation of that document fails. *)
Definition signedUpErrors (uid email : string) (w : World) : list string :=
  (if castsToObjectId uid (Users w) then [] else ["_id"])
  ++ invalidPaths (mkDocument None (signedUp uid email w)).

End Vocabulary.

(** No stored record holds a token in clear: the [Map] paths of the two
    encrypted fields are empty in the collection. *)
Definition sealedAtRest (coll : list User) : Prop :=
  ∀ u, u ∈ coll → plain (oAuthAccessToken u) = None ∧ plain (oAuthRefreshToken u) = None.

(** No two stored records share a key of a unique index. *)
Definition wellIndexed (coll : list User) : Prop :=
  ∀ ix, ix ∈ uniqueIndexes → NoDup (omap ix.2 coll).

(** The arguments that the [verify] callback of a provider prepares. *)
Definition argumentsOf (type : Provider) (accessToken refreshToken : option string)
    (profile : Profile.Profile) : result Arguments.Arguments :=
  match type with
  | google => googleArguments accessToken refreshToken profile
  | microsoft => microsoftArguments accessToken refreshToken profile
  end.

(** * Concrete collaborators and stores

    Used to run the methods on concrete inputs. The slug is the name itself
    when it is free, and the name followed by every stored slug otherwise;
    the object id is made longer than every stored [_id]. *)

Definition joined (key : User -> string) (coll : list User) : string :=
  foldr (λ u acc, key u +:+ acc) "" coll.

Definition slugify (coll : list User) (name : string) : string :=
  if bool_decide (name ∈ slug <$> coll) then name +:+ "-" +:+ joined slug coll else name.

Definition objectId (coll : list User) : string := "oid-" +:+ joined _id coll.

(** Collaborators whose email and mailing-list services answer as [send] and
    [sub] say. *)
(** The strings that cast to an ObjectId: "a string of 12 bytes or a string
    of 24 hex characters". *)
Definition isHexDigit (c : Ascii.ascii) : bool :=
  let n := Ascii.nat_of_ascii c in
  (Nat.leb 48 n && Nat.leb n 57) || (Nat.leb 97 n && Nat.leb n 102)
  || (Nat.leb 65 n && Nat.leb n 70).

Definition castsFromString (s : string) : bool :=
  Nat.eqb (String.length s) 12
  || (Nat.eqb (String.length s) 24 && forallb isHexDigit (String.list_ascii_of_string s)).

Definition servicesWith (send : Mail -> option Error) (sub : string -> string -> option Error)
    : Services :=
  {| generateSlug := slugify;
     ObjectId := objectId;
     isObjectId := castsFromString;
     getEmailTemplate := λ _ userName t,
       Template.mkTemplate (EmailTemplate.subject t)
         (EmailTemplate.message t +:+ " " +:+ userName);
     sendEmail := send;
     subscribe := sub;
     EMAIL_SUPPORT_FROM_ADDRESS := "team@async-await.com" |}.

Definition servicesUp : Services := servicesWith (λ _, None) (λ _ _, None).

Definition servicesDown : Services :=
  servicesWith (λ _, Some (JsError "SES unavailable"))
    (λ _ _, Some (JsError "Mailchimp unavailable")).

(** An account made by email sign-up. *)
Definition account (id e s : string) : User :=
  mkUser id None None noField noField s 0 e "" false None None None None false None None.

Definition welcomeTemplate : EmailTemplate.EmailTemplate :=
  EmailTemplate.mkEmailTemplate "welcome" "Welcome" "Hello".

Definition store (users : list User) (invitations : list Invitation.Invitation)
    (templates : list EmailTemplate.EmailTemplate) : World :=
  mkWorld users invitations templates [] 7 [].

Definition tokens (a r : string) : OAuthToken :=
  mkOAuthToken (Some (Some a)) (Some (Some r)).

Definition alice : User := account "u1" "alice@example.com" "alice".
Definition bob : User := set_googleId (Some "g-bob") (account "u2" "bob@example.com" "bob").

(** Two uids as a token store issues them: 24 hexadecimal characters. *)
Definition daveId : string := "5f8d0c2ab1e4a93c7d6e2f10".
Definition erinId : string := "5f8d0c2ab1e4a93c7d6e2f11".

(** Two accounts, a 'welcome' template, no invitation. *)
Definition registry : World := store [alice; bob] [] [welcomeTemplate].

(** The same accounts, without any email template. *)
Definition bare : World := store [alice; bob] [] [].


(** The same accounts, and a team of which Alice is a member and Bob is not. *)
Definition club : World :=
  mkWorld [alice; bob] [] [] [Team.mkTeam "t1" ["u1"; "u3"]] 7 [].

(** Bob under a display name, beside Alice who has none. *)
Definition robert : User := set_displayName (Some "Robert") bob.

Definition profiles : World := store [alice; robert] [] [welcomeTemplate].

(** A payment processor that accepts every call: the customer takes the
    token as its default source, and a card takes the id asked for. *)
Definition customer (id source : string) : StripeCustomer :=
  mkStripeCustomer id "customer" 0 "usd" source "".

Definition card (id : string) : StripeCard :=
  mkStripeCard id "card" "visa" "credit" "PT" "4242" 12 2030.

Definition history : StripeListOfInvoices := mkStripeListOfInvoices "list" false [].

Definition stripeUp : stripe.Api :=
  {| stripe.createCustomer := λ token _ userId, Ok (customer ("cus-" +:+ userId) token);
     stripe.retrieveCard := λ _ cardId, Ok (card cardId);
     stripe.createNewCard := λ _ token, Ok (card token);
     stripe.updateCustomer := λ customerId newCardId,
       Ok (customer (default "cus" customerId) newCardId);
     stripe.getListOfInvoices := λ _, Ok (Some history) |}.

(** A token store that is never to be asked. *)
Definition tokenStoreDown : mongoStore.Api :=
  {| mongoStore.storeOrUpdateByEmail := λ _, Throw (JsError "token store unavailable") |}.


(** * Properties *)

Lemma drop_length_app {A : Type} (l k : list A) : drop (length l) (l ++ k) = k.
Proof. by rewrite drop_app_length. Qed.

Lemma events_nil {A : Type} (m : M A) (w : World) (res : result A) :
  m w = (res, w) → events m w = [].
Proof. intros Hrun. unfold events. rewrite Hrun. simpl. by rewrite drop_all. Qed.

Lemma find_None_elem_of {A : Type} (f : A -> bool) (l : list A) (x : A) :
  List.find f l = None → x ∈ l → f x = false.
Proof. intros Hfind Hin. apply (find_none f l Hfind). by apply list_elem_of_In. Qed.

Lemma find_is_Some {A : Type} (f : A -> bool) (l : list A) (x : A) :
  x ∈ l → f x = true → ∃ y, List.find f l = Some y.
Proof.
  induction 1 as [x l | x z l _ IH]; intros Hx; simpl.
  - rewrite Hx. eauto.
  - destruct (f z); eauto.
Qed.

Lemma NoDup_fmap_eq {A B : Type} (f : A -> B) (l : list A) (x y : A) :
  NoDup (f <$> l) → x ∈ l → y ∈ l → f x = f y → x = y.
Proof.
  induction l as [|a l IH]; csimpl; [by intros _ ?%elem_of_nil|].
  intros Hnd Hx Hy Heq. apply NoDup_cons in Hnd as [Ha Hl].
  apply elem_of_cons in Hx as [->|Hx]; apply elem_of_cons in Hy as [->|Hy].
  - done.
  - destruct Ha. rewrite Heq. by apply list_elem_of_fmap_2.
  - destruct Ha. rewrite <- Heq. by apply list_elem_of_fmap_2.
  - by apply IH.
Qed.

(** ** The trace *)

Lemma traced_traced (evs evs' : list Event) (w : World) :
  traced evs' (traced evs w) = traced (evs ++ evs') w.
Proof. unfold traced. simpl. by rewrite app_assoc. Qed.

Lemma emit_traced (e : Event) (w : World) : emit e w = traced [e] w.
Proof. done. Qed.

Lemma traced_set_Users (evs : list Event) (us : list User) (w : World) :
  traced evs (set_Users us w) = set_Users us (traced evs w).
Proof. done. Qed.

(** ** The datastore *)

Lemma save_invalid (d : Document) (w : World) :
  invalidPaths d ≠ [] → save d w = (Throw (ValidationError (invalidPaths d)), w).
Proof.
  intros Hinvalid. unfold save. destruct (invalidPaths d); [by destruct Hinvalid | done].
Qed.

Lemma save_accepted (d : Document) (w : World) :
  invalidPaths d = [] →
  duplicateKey (mkDocument (loaded d) (encryptFieldsSync (this d))) (Users w) = None →
  save d w
  = (Ok (mkDocument (Some (encryptFieldsSync (this d))) (encryptFieldsSync (this d))),
     set_Users (write (mkDocument (loaded d) (encryptFieldsSync (this d))) (Users w))
       (emit (UserSave (_id (this d))) w)).
Proof. intros Hvalid Hdup. unfold save. by rewrite Hvalid, Hdup. Qed.

Lemma save_rejected (d : Document) (w : World) (ix : string) :
  invalidPaths d = [] →
  duplicateKey (mkDocument (loaded d) (encryptFieldsSync (this d))) (Users w) = Some ix →
  save d w = (Throw (MongoError 11000 ix), emit (UserSave (_id (this d))) w).
Proof. intros Hvalid Hdup. unfold save. by rewrite Hvalid, Hdup. Qed.

(** A new document is valid when its slug and its email are not empty. *)
Lemma invalidPaths_new (u : User) :
  invalidPaths (mkDocument None u) = [] ↔ slug u ≠ "" ∧ email u ≠ "".
Proof.
  unfold invalidPaths, requiredPaths, isModified. cbn.
  destruct (String.eqb_spec (slug u) ""), (String.eqb_spec (email u) ""); cbn;
    naive_solver.
Qed.

(** An update that leaves the slug and the email alone is valid. *)
Lemma invalidPaths_unmodified (old new : User) :
  slug new = slug old → email new = email old →
  invalidPaths (mkDocument (Some old) new) = [].
Proof.
  intros Hslug Hemail. unfold invalidPaths, requiredPaths, isModified. cbn.
  by rewrite Hslug, Hemail, !bool_decide_eq_true_2.
Qed.

Lemma duplicateKey_None (d : Document) (coll : list User) :
  (∀ ix, ix ∈ uniqueIndexes →
     isModified d ix.2 = true → collides ix.2 (this d) (others d coll) = false) →
  duplicateKey d coll = None.
Proof.
  intros Hfree. unfold duplicateKey.
  destruct (List.find _ uniqueIndexes) as [ix|] eqn:Hfind; [|done].
  apply find_some in Hfind as [Hin Hix]. apply list_elem_of_In in Hin.
  apply andb_true_iff in Hix as [Hmod Hcol].
  by rewrite (Hfree ix Hin Hmod) in Hcol.
Qed.

Lemma collides_false (key : User -> option string) (u : User) (coll : list User) :
  (∀ v, v ∈ coll → key v ≠ key u) → collides key u coll = false.
Proof.
  intros Hfree. unfold collides. destruct (key u) as [k|] eqn:Hk; [|done].
  apply not_true_is_false. intros (v & Hin & Hv)%existsb_exists.
  apply list_elem_of_In in Hin. apply bool_decide_eq_true in Hv.
  by destruct (Hfree v Hin).
Qed.

Lemma insert_accepted (u : User) (coll : list User) :
  (∀ v, v ∈ coll → _id v ≠ _id u) →
  (∀ v, v ∈ coll → email v ≠ email u) →
  (∀ v, v ∈ coll → slug v ≠ slug u) →
  (∀ v k, v ∈ coll → googleId u = Some k → googleId v ≠ Some k) →
  (∀ v k, v ∈ coll → microsoftId u = Some k → microsoftId v ≠ Some k) →
  duplicateKey (mkDocument None u) coll = None.
Proof.
  intros Hid Hemail Hslug Hgoogle Hmicrosoft.
  apply duplicateKey_None. intros ix Hix _. cbn [this others loaded].
  unfold uniqueIndexes in Hix.
  repeat (apply elem_of_cons in Hix as [->|Hix]); cbn [snd];
    [| | | | | by apply elem_of_nil in Hix].
  - apply collides_false. intros v Hv [=]. by destruct (Hid v).
  - apply collides_false. intros v Hv [=]. by destruct (Hemail v).
  - apply collides_false. intros v Hv [=]. by destruct (Hslug v).
  - unfold collides. destruct (googleId u) as [k|] eqn:Hk; [|done].
    apply not_true_is_false. intros (v & Hin & Hv)%existsb_exists.
    apply list_elem_of_In in Hin. apply bool_decide_eq_true in Hv.
    by destruct (Hgoogle v k).
  - unfold collides. destruct (microsoftId u) as [k|] eqn:Hk; [|done].
    apply not_true_is_false. intros (v & Hin & Hv)%existsb_exists.
    apply list_elem_of_In in Hin. apply bool_decide_eq_true in Hv.
    by destruct (Hmicrosoft v k).
Qed.

Lemma byEmailOrId_false (type : Provider) (e : string) (oauthId : option string) (v : User) :
  byEmailOrId type e oauthId v = false → email v ≠ e ∧ get_Id type v ≠ oauthId.
Proof.
  unfold byEmailOrId, byEmail. intros [He Hi]%orb_false_iff.
  by apply bool_decide_eq_false in He, Hi.
Qed.

(** ** Sealed fields *)

(** A sealed, unsealed and stripped field shows the entry that was just
    set on it, whatever state the field was in. *)
Lemma entry_set (type : Provider) (token : string) (f : EncryptedField) :
  entry (type_name type)
    (stripField (decryptField (encryptField (unmark (set_entry type token f)))))
  = Some token.
Proof. unfold entry. simpl. by rewrite lookup_insert_eq. Qed.

(** Sealing and unsealing a hydrated field gives back its entries. *)
Lemma entry_resealed (k : string) (f : EncryptedField) :
  entry k (decryptField (encryptField (decryptField f))) = entry k (decryptField f).
Proof.
  destruct f as [[m|] [[]|] [[c]|]]; reflexivity.
Qed.

(** Setting the entry of key [type] leaves the other entries alone. *)
Lemma entry_set_other (type : Provider) (token k : string) (f : EncryptedField) :
  k ≠ type_name type →
  entry k (decryptField (encryptField (unmark (set_entry type token f)))) = entry k f.
Proof.
  intros Hk. unfold entry. simpl. rewrite lookup_insert_ne; [|done].
  destruct (plain f); done.
Qed.

Lemma sameOutside_refl (type : Provider) (u : User) : sameOutside type u u.
Proof. unfold sameOutside. split_and!; done. Qed.

Lemma sameOutside_strip (type : Provider) (u v : User) :
  sameOutside type u v → sameOutside type u (stripEncryptionFieldMarkers v).
Proof. intros H. exact H. Qed.

Section Properties.
Context `{services : Services}.

(** ** The provider id is required *)

(** C5: when [oauthId] is absent ([undefined] or empty), [signInOrSignUp]
    throws 'oauthId is required' whatever the other arguments are, and the
    world is left as it was: no query was made (the trace is unchanged) and
    no collection was written. *)
Theorem signInOrSignUp_oauthId_required (type : Provider) (oauthId : option string)
    (email : string) (oauthToken : OAuthToken) (displayName : string)
    (avatarUrl : option string) (w : World) :
  truthy oauthId = false →
  signInOrSignUp type oauthId email oauthToken displayName avatarUrl w
  = (Throw (JsError "oauthId is required"), w).
Proof.
  intros Habsent. unfold signInOrSignUp. by rewrite Habsent.
Qed.

(** ** Team permission check *)

Lemma indexOf_absent (l : list string) (x : option string) :
  indexOf l x = (-1)%Z ↔ ∀ m, m ∈ l → Some m ≠ x.
Proof.
  unfold indexOf. destruct (list_find _ l) as [[i y]|] eqn:Hfind.
  - apply list_find_Some in Hfind as (Hi & Hy & _). split; [lia|].
    intros Hall. destruct (Hall y); [|done]. by eapply list_elem_of_lookup_2.
  - apply list_find_None in Hfind. rewrite Forall_forall in Hfind. done.
Qed.

(** C3: [checkPermissionAndGetTeam] throws when the user id is absent, when
    the team id is absent, when no team has that id, or when the user id is
    not in the member list of the team found; in every other case it returns
    the team record that [findById] found, of which the user is a member. *)
Theorem checkPermissionAndGetTeam_spec (userId teamId : option string) (w : World) :
  (refused userId teamId w →
     ∃ message, (checkPermissionAndGetTeam userId teamId w).1 = Throw (JsError message))
  ∧ (¬ refused userId teamId w →
     ∃ t, List.find (λ t, bool_decide (Some (Team._id t) = teamId)) (Teams w) = Some t
          ∧ (∃ m, m ∈ Team.memberIds t ∧ Some m = userId)
          ∧ (checkPermissionAndGetTeam userId teamId w).1 = Ok t).
Proof.
  unfold refused, checkPermissionAndGetTeam.
  destruct (truthy userId) eqn:Hu; simpl; [|split; [eauto | intros []; auto]].
  destruct (truthy teamId) eqn:Ht; simpl; [|split; [eauto | intros []; auto]].
  unfold mbind, M_bind, Team_findById.
  destruct (List.find _ (Teams w)) as [t|] eqn:Hfind; simpl.
  - pose proof (find_some _ _ Hfind) as [Hin Hid].
    apply list_elem_of_In in Hin. apply bool_decide_eq_true in Hid.
    case_bool_decide as Hidx; simpl.
    + split; [eauto|]. intros []. do 3 right. exists t. split; [done|].
      by apply indexOf_absent.
    + split.
      * intros [|[|[Hno|(t' & Ht' & Hnot)]]]; [done..| |].
        -- by destruct (Hno t).
        -- simplify_eq. destruct Hidx. by apply indexOf_absent.
      * intros _. exists t. split_and!; [done| |done].
        destruct (indexOf (Team.memberIds t) userId) eqn:Hix; unfold indexOf in Hix;
          destruct (list_find _ _) as [[i y]|] eqn:Hlf; try done;
          apply list_find_Some in Hlf as (Hi & Hy & _);
          exists y; (split; [by eapply list_elem_of_lookup_2 | done]).
  - split; [eauto|]. intros []. right; right; left.
    intros t Hin Hid. apply list_elem_of_In in Hin.
    pose proof (find_none _ _ Hfind t Hin) as Hf. simpl in Hf.
    by apply bool_decide_eq_false in Hf.
Qed.

(** ** Merging onto a known user *)

Lemma signInOrSignUp_found (type : Provider) (oauthId : option string)
    (email : string) (oauthToken : OAuthToken) (displayName : string)
    (avatarUrl : option string) (w : World) (found : User) :
  truthy oauthId = true →
  List.find (byEmailOrId type email oauthId) (Users w) = Some found →
  isEmpty oauthToken = false →
  signInOrSignUp type oauthId email oauthToken displayName avatarUrl w
  = (user ← save (mkDocument (Some found)
                    (merged type oauthId oauthToken (decryptFieldsSync found)));
     mret (decryptedView (this user))) (emit UserFindOne w).
Proof.
  intros Hid Hfind Htok. unfold signInOrSignUp. rewrite Hid. simpl.
  unfold mbind at 1. unfold M_bind at 1. unfold findOne. rewrite Hfind. simpl.
  rewrite Htok. unfold merged, withRefreshToken, withAccessToken, backfilled.
  destruct (truthy (get_Id type (decryptFieldsSync found)));
    destruct (supplied (accessToken oauthToken));
    destruct (supplied (refreshToken oauthToken)); reflexivity.
Qed.

(** The indexed paths other than [`${type}Id`] are not touched by the merge. *)
Lemma merged_keys (type : Provider) (oauthId : option string) (oauthToken : OAuthToken)
    (found : User) :
  let u := encryptFieldsSync (merged type oauthId oauthToken (decryptFieldsSync found)) in
  _id u = _id found ∧ email u = email found ∧ slug u = slug found
  ∧ (∀ other, other ≠ type → get_Id other u = get_Id other found)
  ∧ get_Id type u = (if truthy (get_Id type found) then get_Id type found else oauthId).
Proof.
  unfold merged, withRefreshToken, withAccessToken, backfilled.
  destruct type; simpl;
    [destruct (truthy (googleId found)) | destruct (truthy (microsoftId found))];
    destruct (supplied (accessToken oauthToken));
    destruct (supplied (refreshToken oauthToken)); simpl;
    (split_and!; [done..| |done]); by intros [].
Qed.

(** The merge sets no validated path. *)
Lemma merged_valid (type : Provider) (oauthId : option string) (oauthToken : OAuthToken)
    (found : User) :
  invalidPaths
    (mkDocument (Some found) (merged type oauthId oauthToken (decryptFieldsSync found)))
  = [].
Proof.
  destruct (merged_keys type oauthId oauthToken found) as (_ & Hemail & Hslug & _).
  by apply invalidPaths_unmodified.
Qed.

Lemma merged_accepted (type : Provider) (oauthId : option string) (oauthToken : OAuthToken)
    (found : User) (coll : list User) :
  (truthy (get_Id type found) = false →
   ∀ v, v ∈ coll → _id v ≠ _id found → get_Id type v ≠ oauthId) →
  duplicateKey
    (mkDocument (Some found)
       (encryptFieldsSync (merged type oauthId oauthToken (decryptFieldsSync found))))
    coll = None.
Proof.
  intros Hfree. apply duplicateKey_None. intros ix Hix Hmod.
  destruct (merged_keys type oauthId oauthToken found) as (Hid & Hemail & Hslug & Hother & Hown).
  remember (encryptFieldsSync (merged type oauthId oauthToken (decryptFieldsSync found)))
    as u eqn:Hu. clear Hu.
  unfold isModified in Hmod. cbn [loaded this] in Hmod.
  apply negb_true_iff, bool_decide_eq_false in Hmod.
  assert (Hown_free : truthy (get_Id type found) = false →
            collides (get_Id type) u (others (mkDocument (Some found) u) coll) = false).
  { intros Hunset. apply collides_false.
    intros v [Hne Hin]%list_elem_of_filter. cbn [this] in Hne.
    rewrite Hown, Hunset. rewrite Hid in Hne. by apply Hfree. }
  assert (Hown_set : truthy (get_Id type found) = true → get_Id type found = get_Id type u).
  { intros Hset. by rewrite Hown, Hset. }
  unfold uniqueIndexes in Hix.
  repeat (apply elem_of_cons in Hix as [->|Hix]); cbn [snd] in *;
    [congruence | congruence | congruence | | | by apply elem_of_nil in Hix].
  - destruct type.
    + destruct (truthy (get_Id google found)) eqn:Hset; [by destruct Hmod; apply Hown_set|].
      by apply Hown_free.
    + destruct Hmod. symmetry. by apply (Hother google).
  - destruct type.
    + destruct Hmod. symmetry. by apply (Hother microsoft).
    + destruct (truthy (get_Id microsoft found)) eqn:Hset; [by destruct Hmod; apply Hown_set|].
      by apply Hown_free.
Qed.

Lemma collides_true (key : User -> option string) (u v : User) (coll : list User) :
  v ∈ coll → is_Some (key u) → key v = key u → collides key u coll = true.
Proof.
  intros Hv [k Hk] Hkey. unfold collides. rewrite Hk.
  apply existsb_exists. exists v. split; [by apply list_elem_of_In|].
  apply bool_decide_eq_true. congruence.
Qed.

Lemma merged_rejected (type : Provider) (oauthId : option string) (oauthToken : OAuthToken)
    (found : User) (coll : list User) :
  truthy oauthId = true →
  truthy (get_Id type found) = false →
  heldByAnother type oauthId found coll →
  duplicateKey
    (mkDocument (Some found)
       (encryptFieldsSync (merged type oauthId oauthToken (decryptFieldsSync found))))
    coll = Some (type_name type +:+ "Id").
Proof.
  intros Hid Hunset (v & Hv & Hne & Hheld).
  destruct (merged_keys type oauthId oauthToken found) as (Hsid & Hemail & Hslug & Hother & Hown).
  rewrite Hunset in Hown.
  remember (encryptFieldsSync (merged type oauthId oauthToken (decryptFieldsSync found)))
    as u eqn:Hu. clear Hu.
  assert (Hmodified : get_Id type found ≠ get_Id type u).
  { rewrite Hown. intros Heq. rewrite Heq, Hid in Hunset. done. }
  unfold duplicateKey, uniqueIndexes, isModified. cbn [List.find loaded this snd].
  rewrite Hsid, Hemail, Hslug. rewrite !bool_decide_eq_true_2 by done. cbn [negb andb].
  destruct type; cbn [get_Id type_name] in *.
  - rewrite (bool_decide_eq_false_2 _ Hmodified). cbn [negb andb].
    rewrite (collides_true googleId u v); [done| | |congruence].
    + apply list_elem_of_filter. cbn [this]. by rewrite Hsid.
    + rewrite Hown. destruct oauthId; [eauto|done].
  - specialize (Hother google). cbn [get_Id] in Hother.
    rewrite Hother by done. rewrite bool_decide_eq_true_2 by done. cbn [negb andb].
    rewrite (bool_decide_eq_false_2 _ Hmodified). cbn [negb andb].
    rewrite (collides_true microsoftId u v); [done| | |congruence].
    + apply list_elem_of_filter. cbn [this]. by rewrite Hsid.
    + rewrite Hown. destruct oauthId; [eauto|done].
Qed.

Lemma merged_tokens (type : Provider) (oauthId : option string) (oauthToken : OAuthToken)
    (u : User) :
  let r := decryptedView (encryptFieldsSync (merged type oauthId oauthToken u)) in
  (∀ token, supplied (accessToken oauthToken) = Some token →
     entry (type_name type) (oAuthAccessToken r) = Some token)
  ∧ (∀ token, supplied (refreshToken oauthToken) = Some token →
     entry (type_name type) (oAuthRefreshToken r) = Some token).
Proof.
  unfold merged, withRefreshToken, withAccessToken.
  destruct (supplied (accessToken oauthToken));
    destruct (supplied (refreshToken oauthToken));
    split; intros token Htoken; simplify_eq; apply entry_set.
Qed.

Lemma merged_sealed (type : Provider) (oauthId : option string) (oauthToken : OAuthToken)
    (u : User) :
  let s := encryptFieldsSync (merged type oauthId oauthToken u) in
  (∀ token, supplied (accessToken oauthToken) = Some token →
     plain (oAuthAccessToken s) = None ∧ __enc (oAuthAccessToken s) = Some true)
  ∧ (∀ token, supplied (refreshToken oauthToken) = Some token →
     plain (oAuthRefreshToken s) = None ∧ __enc (oAuthRefreshToken s) = Some true).
Proof.
  unfold merged, withRefreshToken, withAccessToken.
  destruct (supplied (accessToken oauthToken));
    destruct (supplied (refreshToken oauthToken));
    split; intros token Htoken; simplify_eq; done.
Qed.

(** C1 (as amended): when the lookup finds a user and [oauthToken] is not
    empty, no account is added. Unless the provider id has to be backfilled
    while another record already holds [oauthId] under [`${type}Id`], the
    call returns a record [r] and the collection keeps the same [_id]s in
    the same order: the provider id of [r] is the one found if there was
    one, and [oauthId] otherwise; each token supplied is the entry of key
    [type] of its map; the record [s] written in place of the one found holds
    the tokens sealed, and [r] is its decrypted view, without markers. In the
    excepted case the unique index on [`${type}Id`] rejects the save: the
    call throws the duplicate-key error and the collection is unchanged. *)
Theorem signInOrSignUp_merge (type : Provider) (oauthId : option string)
    (email : string) (oauthToken : OAuthToken) (displayName : string)
    (avatarUrl : option string) (w : World) (found : User) :
  truthy oauthId = true →
  List.find (byEmailOrId type email oauthId) (Users w) = Some found →
  isEmpty oauthToken = false →
  ((truthy (get_Id type found) = false → ¬ heldByAnother type oauthId found (Users w)) →
   ∃ (r s : User) (w' : World),
     signInOrSignUp type oauthId email oauthToken displayName avatarUrl w = (Ok r, w')
     ∧ _id <$> Users w' = _id <$> Users w
     ∧ get_Id type r = (if truthy (get_Id type found) then get_Id type found else oauthId)
     ∧ (∀ token, supplied (accessToken oauthToken) = Some token →
          entry (type_name type) (oAuthAccessToken r) = Some token)
     ∧ (∀ token, supplied (refreshToken oauthToken) = Some token →
          entry (type_name type) (oAuthRefreshToken r) = Some token)
     ∧ Users w' = (λ v, if bool_decide (_id v = _id found) then s else v) <$> Users w
     ∧ s ∈ Users w'
     ∧ (∀ token, supplied (accessToken oauthToken) = Some token →
          plain (oAuthAccessToken s) = None ∧ __enc (oAuthAccessToken s) = Some true)
     ∧ (∀ token, supplied (refreshToken oauthToken) = Some token →
          plain (oAuthRefreshToken s) = None ∧ __enc (oAuthRefreshToken s) = Some true)
     ∧ r = decryptedView s
     ∧ __enc (oAuthAccessToken r) = None ∧ __enc_d (oAuthAccessToken r) = None
     ∧ __enc (oAuthRefreshToken r) = None ∧ __enc_d (oAuthRefreshToken r) = None)
  ∧ (truthy (get_Id type found) = false → heldByAnother type oauthId found (Users w) →
     ∃ w' : World,
       signInOrSignUp type oauthId email oauthToken displayName avatarUrl w
       = (Throw (MongoError 11000 (type_name type +:+ "Id")), w')
       ∧ Users w' = Users w).
Proof.
  intros Hid Hfind Htok.
  rewrite (signInOrSignUp_found _ _ _ _ _ _ _ _ Hid Hfind Htok).
  set (u := merged type oauthId oauthToken (decryptFieldsSync found)).
  set (s := encryptFieldsSync u).
  unfold mbind, M_bind. split.
  - intros Hfree.
    assert (Hdup : duplicateKey (mkDocument (Some found) s) (Users w) = None).
    { apply merged_accepted. intros Hunset v Hv Hne Hheld.
      apply (Hfree Hunset). by exists v. }
    destruct (merged_keys type oauthId oauthToken found) as (Hsid & _ & _ & _ & Hown).
    fold u in Hsid, Hown. fold s in Hsid, Hown.
    exists (decryptedView s), s.
    eexists.
    rewrite (save_accepted (mkDocument (Some found) u) (emit UserFindOne w)
               (merged_valid _ _ _ _) Hdup).
    cbn [this loaded write mret M_ret]. fold s. rewrite Hsid.
    split; [reflexivity|]. cbn [Users set_Users emit].
    split_and!; try done.
    + rewrite <- list_fmap_compose. apply list_fmap_ext. intros i v _. simpl.
      case_bool_decide; congruence.
    + by apply (merged_tokens type oauthId oauthToken (decryptFieldsSync found)).
    + by apply (merged_tokens type oauthId oauthToken (decryptFieldsSync found)).
    + apply find_some in Hfind as [Hin _]. apply list_elem_of_In in Hin.
      apply list_elem_of_fmap. exists found. by rewrite bool_decide_eq_true_2.
    + by apply (merged_sealed type oauthId oauthToken (decryptFieldsSync found)).
    + by apply (merged_sealed type oauthId oauthToken (decryptFieldsSync found)).
  - intros Hunset Hheld.
    pose proof (merged_rejected type oauthId oauthToken found (Users w) Hid Hunset Hheld)
      as Hdup.
    rewrite (save_rejected (mkDocument (Some found) u) (emit UserFindOne w) _
               (merged_valid _ _ _ _) Hdup).
    by eexists.
Qed.

(** ** What the merge leaves alone *)

Lemma merged_frame (type : Provider) (oauthId : option string) (oauthToken : OAuthToken)
    (found : User) :
  sameOutside type (decryptFieldsSync found)
    (decryptFieldsSync
       (encryptFieldsSync (merged type oauthId oauthToken (decryptFieldsSync found)))).
Proof.
  unfold sameOutside, merged, withRefreshToken, withAccessToken, backfilled.
  destruct type; simpl;
    [destruct (truthy (googleId found)) | destruct (truthy (microsoftId found))];
    destruct (supplied (accessToken oauthToken));
    destruct (supplied (refreshToken oauthToken)); simpl;
    (split_and!; try done; try (by intros []));
    intros k Hk;
    first [ by apply (entry_set_other google)
          | by apply (entry_set_other microsoft)
          | by apply entry_resealed ].
Qed.

Lemma merged_frame_view (type : Provider) (oauthId : option string) (oauthToken : OAuthToken)
    (found : User) :
  sameOutside type (decryptFieldsSync found)
    (decryptedView
       (encryptFieldsSync (merged type oauthId oauthToken (decryptFieldsSync found)))).
Proof. apply sameOutside_strip, merged_frame. Qed.

(** C10: when [signInOrSignUp] merges onto the user it found, the record it
    returns agrees with the document as loaded, and every stored record
    agrees with what was stored before, on all paths other than
    [`${type}Id`] and the entries of key [type] of the access and refresh
    token maps: [email], [slug], [createdAt], [displayName], [avatarUrl] and
    the rest keep their stored values, whatever the call supplied. *)
Theorem signInOrSignUp_merge_frame (type : Provider) (oauthId : option string)
    (email : string) (oauthToken : OAuthToken) (displayName : string)
    (avatarUrl : option string) (w : World) (found : User) :
  truthy oauthId = true →
  List.find (byEmailOrId type email oauthId) (Users w) = Some found →
  isEmpty oauthToken = false →
  NoDup (_id <$> Users w) →
  let '(res, w') := signInOrSignUp type oauthId email oauthToken displayName avatarUrl w in
  (∀ r, res = Ok r → sameOutside type (decryptFieldsSync found) r)
  ∧ Forall2 (λ v v', sameOutside type (decryptFieldsSync v) (decryptFieldsSync v'))
      (Users w) (Users w').
Proof.
  intros Hid Hfind Htok Hnodup.
  rewrite (signInOrSignUp_found _ _ _ _ _ _ _ _ Hid Hfind Htok).
  set (u := merged type oauthId oauthToken (decryptFieldsSync found)).
  unfold mbind, M_bind.
  destruct (duplicateKey (mkDocument (Some found) (encryptFieldsSync u)) (Users w))
    as [ix|] eqn:Hdup.
  - rewrite (save_rejected (mkDocument (Some found) u) (emit UserFindOne w) ix
               (merged_valid _ _ _ _) Hdup).
    split; [done|]. cbn [Users emit].
    apply Forall_Forall2_diag, Forall_forall. intros v _. apply sameOutside_refl.
  - rewrite (save_accepted (mkDocument (Some found) u) (emit UserFindOne w)
               (merged_valid _ _ _ _) Hdup).
    cbn [this loaded write mret M_ret Users set_Users emit].
    split.
    + intros r [= <-]. apply merged_frame_view.
    + apply Forall2_fmap_r, Forall_Forall2_diag, Forall_forall. intros v Hv. unfold compose. cbv beta.
      case_bool_decide as Hsame; [|apply sameOutside_refl].
      assert (v = found) as ->.
      { apply find_some in Hfind as [Hin _]. apply list_elem_of_In in Hin.
        eapply (NoDup_fmap_eq _id); [done..|].
        rewrite Hsame. apply (merged_keys type oauthId oauthToken found). }
      apply merged_frame.
Qed.

(** ** The welcome email and the mailing list *)

Lemma welcome_run (email userName : string) (w : World) :
  welcome email userName w
  = (match welcomeTemplateOf w with
     | None => Throw (JsError "welcome Email template not found")
     | Some _ => Ok ()
     end,
     traced (welcomeEvents email userName w) w).
Proof.
  unfold welcome, welcomeEvents, welcomeTemplateOf, mbind, M_bind,
    Invitation_countDocuments, EmailTemplate_findOne. cbn [EmailTemplates emit].
  destruct (List.find _ (EmailTemplates w)) as [t|]; cbn [throw].
  - fold (welcomeMail email userName t).
    unfold try_catch, sendEmail_await, subscribe_await, logger_error, call, attempt.
    cbn [Invitations emit].
    case_bool_decide; cbn [negb];
      [| destruct (sendEmail (welcomeMail email userName t))];
      destruct (subscribe email "signups");
      cbn; unfold emit, traced; cbn; rewrite <- ?app_assoc; reflexivity.
  - unfold emit, traced; cbn; rewrite <- ?app_assoc; reflexivity.
Qed.




(** ** Sign-up by email: the runs *)

(** The run of [signUpByEmail] when the email is taken. *)
Lemma signUpByEmail_exists (uid email : string) (w : World) (u : User) :
  List.find (byEmail email) (Users w) = Some u →
  signUpByEmail uid email w = (Throw (JsError "User already exists"), emit UserFindOne w).
Proof.
  intros Hfind. unfold signUpByEmail, mbind, M_bind, findOne_lean. by rewrite Hfind.
Qed.

(** The run of [signUpByEmail] for an email that is not taken. *)
Lemma signUpByEmail_new (uid email : string) (w : World) :
  List.find (byEmail email) (Users w) = None →
  signUpByEmail uid email w
  = match signedUpErrors uid email w with
    | (_ :: _) as paths => (Throw (ValidationError paths), traced [UserFindOne] w)
    | [] =>
        match duplicateKey (mkDocument None (signedUp uid email w)) (Users w) with
        | Some ix => (Throw (MongoError 11000 ix), traced [UserFindOne; UserSave uid] w)
        | None =>
            (match welcomeTemplateOf w with
             | Some _ => Ok (publicFields (signedUp uid email w))
             | None => Throw (JsError "welcome Email template not found")
             end,
             set_Users (Users w ++ [signedUp uid email w])
               (traced ([UserFindOne; UserSave uid] ++ welcomeEvents email email w) w))
        end
    end.
Proof.
  intros Hfind. unfold signUpByEmail.
  unfold mbind at 1. unfold M_bind at 1. unfold findOne_lean. rewrite Hfind.
  cbn [fmap option_fmap option_map].
  unfold generateSlug_this, new_Date, create.
  unfold mbind at 1. unfold M_bind at 1. cbn [Users emit].
  unfold mbind at 1. unfold M_bind at 1. cbn [clock emit].
  fold (signedUp uid email w).
  unfold mbind at 1. unfold M_bind at 1. unfold signedUpErrors.
  change (Users (emit UserFindOne w)) with (Users w).
  destruct (castsToObjectId uid (Users w)); cbn [app]; [|done].
  destruct (invalidPaths (mkDocument None (signedUp uid email w))) as [|path paths]
    eqn:Hvalid.
  2: { rewrite save_invalid by (by rewrite Hvalid). by rewrite Hvalid. }
  destruct (duplicateKey (mkDocument None (signedUp uid email w)) (Users w))
    as [ix|] eqn:Hdup.
  - rewrite (save_rejected (mkDocument None (signedUp uid email w))
               (emit UserFindOne w) ix Hvalid Hdup).
    by rewrite !emit_traced, traced_traced.
  - rewrite (save_accepted (mkDocument None (signedUp uid email w))
               (emit UserFindOne w) Hvalid Hdup).
    cbn [this loaded write]. unfold mbind, M_bind. rewrite welcome_run.
    rewrite !emit_traced, traced_set_Users, !traced_traced.
    cbn [Users set_Users traced].
    change (welcomeTemplateOf (set_Users _ _)) with (welcomeTemplateOf w).
    change (welcomeEvents email email (set_Users _ _)) with (welcomeEvents email email w).
    by destruct (welcomeTemplateOf w).
Qed.


(** ** The runs that create a record *)

Lemma signInOrSignUp_not_found (type : Provider) (oauthId : option string)
    (email : string) (oauthToken : OAuthToken) (displayName : string)
    (avatarUrl : option string) (w : World) :
  truthy oauthId = true →
  List.find (byEmailOrId type email oauthId) (Users w) = None →
  signInOrSignUp type oauthId email oauthToken displayName avatarUrl w
  = (newUser ← save (mkDocument None
                       (created type oauthId email oauthToken displayName avatarUrl w));
     _ ← welcome email displayName;
     mret (decryptedView (this newUser))) (emit UserFindOne w).
Proof.
  intros Hid Hfind. unfold signInOrSignUp. rewrite Hid. simpl.
  unfold mbind at 1. unfold M_bind at 1. unfold findOne. rewrite Hfind. simpl.
  unfold created, generateSlug_this, new_Date, new_User.
  destruct (supplied (accessToken oauthToken));
    destruct (supplied (refreshToken oauthToken)); reflexivity.
Qed.

Lemma created_keys (type : Provider) (oauthId : option string) (email : string)
    (oauthToken : OAuthToken) (displayName : string) (avatarUrl : option string)
    (w : World) :
  let s := encryptFieldsSync
             (created type oauthId email oauthToken displayName avatarUrl w) in
  _id s = ObjectId (Users w)
  ∧ email_of s = email
  ∧ slug s = generateSlug (Users w) displayName
  ∧ get_Id type s = oauthId
  ∧ (∀ other, other ≠ type → get_Id other s = None)
  ∧ createdAt s = clock w
  ∧ defaultTeamSlug s = ""
  ∧ displayName_of s = Some displayName
  ∧ avatarUrl_of s = avatarUrl.
Proof.
  unfold created.
  destruct type;
    destruct (supplied (accessToken oauthToken));
    destruct (supplied (refreshToken oauthToken)); simpl;
    (split_and!; try done); by intros [].
Qed.

(** The whole run of [signInOrSignUp] when the lookup finds nobody. *)
Lemma signInOrSignUp_new (type : Provider) (oauthId : option string)
    (email : string) (oauthToken : OAuthToken) (displayName : string)
    (avatarUrl : option string) (w : World) :
  truthy oauthId = true →
  List.find (byEmailOrId type email oauthId) (Users w) = None →
  signInOrSignUp type oauthId email oauthToken displayName avatarUrl w
  = match invalidPaths
            (mkDocument None
               (created type oauthId email oauthToken displayName avatarUrl w)) with
    | (_ :: _) as paths => (Throw (ValidationError paths), traced [UserFindOne] w)
    | [] =>
        match duplicateKey
                (mkDocument None
                   (encryptFieldsSync
                      (created type oauthId email oauthToken displayName avatarUrl w)))
                (Users w) with
        | Some ix =>
            (Throw (MongoError 11000 ix),
             traced [UserFindOne; UserSave (ObjectId (Users w))] w)
        | None =>
            (match welcomeTemplateOf w with
             | Some _ =>
                 Ok (decryptedView
                       (encryptFieldsSync
                          (created type oauthId email oauthToken displayName avatarUrl w)))
             | None => Throw (JsError "welcome Email template not found")
             end,
             set_Users
               (Users w
                ++ [encryptFieldsSync
                      (created type oauthId email oauthToken displayName avatarUrl w)])
               (traced ([UserFindOne; UserSave (ObjectId (Users w))]
                        ++ welcomeEvents email displayName w) w))
        end
    end.
Proof.
  intros Hid Hfind.
  rewrite (signInOrSignUp_not_found _ _ _ _ _ _ _ Hid Hfind).
  destruct (created_keys type oauthId email oauthToken displayName avatarUrl w)
    as (Hsid & _).
  assert (Hcid : _id (created type oauthId email oauthToken displayName avatarUrl w)
                 = ObjectId (Users w)) by exact Hsid.
  set (u := created type oauthId email oauthToken displayName avatarUrl w) in *.
  unfold mbind at 1. unfold M_bind at 1.
  destruct (invalidPaths (mkDocument None u)) as [|path paths] eqn:Hvalid.
  2: { rewrite save_invalid by (by rewrite Hvalid). by rewrite Hvalid. }
  destruct (duplicateKey (mkDocument None (encryptFieldsSync u)) (Users w))
    as [ix|] eqn:Hdup.
  - rewrite (save_rejected (mkDocument None u) (emit UserFindOne w) ix Hvalid Hdup).
    cbn [this]. by rewrite Hcid, !emit_traced, traced_traced.
  - rewrite (save_accepted (mkDocument None u) (emit UserFindOne w) Hvalid Hdup).
    cbn [this loaded write]. unfold mbind, M_bind. rewrite welcome_run.
    rewrite Hcid, !emit_traced, traced_set_Users, !traced_traced.
    cbn [Users set_Users traced].
    change (welcomeTemplateOf (set_Users _ _)) with (welcomeTemplateOf w).
    change (welcomeEvents email displayName (set_Users _ _))
      with (welcomeEvents email displayName w).
    by destruct (welcomeTemplateOf w).
Qed.

(** The calls of [signInOrSignUp], branch by branch. *)
Lemma signInOrSignUp_events (type : Provider) (oauthId : option string)
    (email : string) (oauthToken : OAuthToken) (displayName : string)
    (avatarUrl : option string) (w : World) :
  events (signInOrSignUp type oauthId email oauthToken displayName avatarUrl) w
  = if negb (truthy oauthId) then []
    else match List.find (byEmailOrId type email oauthId) (Users w) with
         | Some found =>
             if isEmpty oauthToken then [UserFindOne]
             else [UserFindOne; UserSave (_id found)]
         | None =>
             match invalidPaths
                     (mkDocument None
                        (created type oauthId email oauthToken displayName avatarUrl w))
             with
             | _ :: _ => [UserFindOne]
             | [] =>
                 [UserFindOne; UserSave (ObjectId (Users w))]
                 ++ match duplicateKey
                            (mkDocument None
                               (encryptFieldsSync
                                  (created type oauthId email oauthToken displayName
                                     avatarUrl w)))
                            (Users w) with
                    | Some _ => []
                    | None => welcomeEvents email displayName w
                    end
             end
         end.
Proof.
  destruct (truthy oauthId) eqn:Hid; simpl.
  2: { apply (events_nil _ _ (Throw (JsError "oauthId is required"))).
       unfold signInOrSignUp. by rewrite Hid. }
  destruct (List.find _ (Users w)) as [found|] eqn:Hfind.
  - destruct (isEmpty oauthToken) eqn:Htok.
    + unfold events, signInOrSignUp. rewrite Hid. simpl.
      unfold mbind, M_bind, findOne. rewrite Hfind. simpl. rewrite Htok. simpl.
      apply drop_length_app.
    + unfold events. rewrite (signInOrSignUp_found _ _ _ _ _ _ _ _ Hid Hfind Htok).
      destruct (merged_keys type oauthId oauthToken found) as (Hsid & _).
      assert (Hmid : _id (merged type oauthId oauthToken (decryptFieldsSync found))
                     = _id found) by exact Hsid.
      unfold mbind, M_bind, save. rewrite merged_valid. cbn [this loaded]. rewrite Hmid.
      destruct (duplicateKey _ _); cbn [snd trace set_Users emit mret M_ret];
        rewrite <- app_assoc; apply drop_length_app.
  - unfold events. rewrite (signInOrSignUp_new _ _ _ _ _ _ _ Hid Hfind).
    destruct (invalidPaths _);
      [destruct (duplicateKey _ _)|]; cbn [snd trace set_Users traced];
      apply drop_length_app.
Qed.

(** The record made for a new user passes validation when the email and
    the generated slug are not empty. *)
Lemma created_valid (type : Provider) (oauthId : option string) (email : string)
    (oauthToken : OAuthToken) (displayName : string) (avatarUrl : option string)
    (w : World) :
  invalidPaths
    (mkDocument None (created type oauthId email oauthToken displayName avatarUrl w)) = []
  ↔ email ≠ "" ∧ generateSlug (Users w) displayName ≠ "".
Proof.
  rewrite invalidPaths_new.
  destruct (created_keys type oauthId email oauthToken displayName avatarUrl w)
    as (_ & Hemail & Hslug & _).
  assert (Hs : slug (created type oauthId email oauthToken displayName avatarUrl w)
               = generateSlug (Users w) displayName) by exact Hslug.
  assert (He : email_of (created type oauthId email oauthToken displayName avatarUrl w)
               = email) by exact Hemail.
  unfold email_of in He. rewrite Hs, He. tauto.
Qed.

Lemma signedUpErrors_nil (uid email : string) (w : World) :
  signedUpErrors uid email w = []
  ↔ castsToObjectId uid (Users w) = true
    ∧ email ≠ "" ∧ generateSlug (Users w) email ≠ "".
Proof.
  unfold signedUpErrors. rewrite app_nil, invalidPaths_new. unfold signedUp. simpl.
  destruct (castsToObjectId uid (Users w)); naive_solver.
Qed.


(** ** Sign-in of a known user without tokens *)


(** ** Failing services *)


(** ** Creating a record

    From here on the collaborators are assumed to keep their contract. *)

Context `{!Contract services}.

Lemma created_accepted (type : Provider) (oauthId : option string) (email : string)
    (oauthToken : OAuthToken) (displayName : string) (avatarUrl : option string)
    (w : World) :
  List.find (byEmailOrId type email oauthId) (Users w) = None →
  duplicateKey
    (mkDocument None
       (encryptFieldsSync (created type oauthId email oauthToken displayName avatarUrl w)))
    (Users w) = None.
Proof.
  intros Hfind.
  destruct (created_keys type oauthId email oauthToken displayName avatarUrl w)
    as (Hid & Hemail & Hslug & Hown & Hother & _).
  remember (encryptFieldsSync _) as s eqn:Hs. clear Hs.
  unfold email_of in Hemail.
  assert (Hmiss : ∀ v, v ∈ Users w → email_of v ≠ email ∧ get_Id type v ≠ oauthId).
  { intros v Hv. apply byEmailOrId_false. by eapply find_None_elem_of. }
  apply insert_accepted.
  - intros v Hv. rewrite Hid. by apply ObjectId_fresh.
  - intros v Hv. rewrite Hemail. by apply (Hmiss v).
  - intros v Hv. rewrite Hslug. by apply generateSlug_unique.
  - intros v k Hv Hk Hvk. destruct type.
    + apply (Hmiss v Hv). simpl in *. congruence.
    + specialize (Hother google). simpl in Hother. rewrite Hother in Hk; done.
  - intros v k Hv Hk Hvk. destruct type.
    + specialize (Hother microsoft). simpl in Hother. rewrite Hother in Hk; done.
    + apply (Hmiss v Hv). simpl in *. congruence.
Qed.

(** With collaborators that keep their contract, a record that passes
    validation is accepted. *)
Lemma signInOrSignUp_created (type : Provider) (oauthId : option string)
    (email : string) (oauthToken : OAuthToken) (displayName : string)
    (avatarUrl : option string) (w : World) :
  truthy oauthId = true →
  List.find (byEmailOrId type email oauthId) (Users w) = None →
  email ≠ "" →
  generateSlug (Users w) displayName ≠ "" →
  signInOrSignUp type oauthId email oauthToken displayName avatarUrl w
  = (match welcomeTemplateOf w with
     | Some _ =>
         Ok (decryptedView
               (encryptFieldsSync
                  (created type oauthId email oauthToken displayName avatarUrl w)))
     | None => Throw (JsError "welcome Email template not found")
     end,
     set_Users
       (Users w
        ++ [encryptFieldsSync
              (created type oauthId email oauthToken displayName avatarUrl w)])
       (traced ([UserFindOne; UserSave (ObjectId (Users w))]
                ++ welcomeEvents email displayName w) w)).
Proof.
  intros Hid Hfind Hemail Hslug. rewrite (signInOrSignUp_new _ _ _ _ _ _ _ Hid Hfind).
  rewrite (proj2 (created_valid type oauthId email oauthToken displayName avatarUrl w))
    by done.
  by rewrite (created_accepted type oauthId email oauthToken displayName avatarUrl w Hfind).
Qed.

(** A record that fails validation is refused before it is sent. *)
Lemma signInOrSignUp_invalid (type : Provider) (oauthId : option string)
    (email : string) (oauthToken : OAuthToken) (displayName : string)
    (avatarUrl : option string) (w : World) :
  truthy oauthId = true →
  List.find (byEmailOrId type email oauthId) (Users w) = None →
  email = "" ∨ generateSlug (Users w) displayName = "" →
  ∃ paths,
    signInOrSignUp type oauthId email oauthToken displayName avatarUrl w
    = (Throw (ValidationError paths), emit UserFindOne w).
Proof.
  intros Hid Hfind Hinvalid. rewrite (signInOrSignUp_new _ _ _ _ _ _ _ Hid Hfind).
  destruct (invalidPaths _) as [|path paths] eqn:Hpaths; [|by eexists].
  apply created_valid in Hpaths. naive_solver.
Qed.

Lemma signedUp_accepted (uid email : string) (w : World) :
  List.find (byEmail email) (Users w) = None →
  (∀ v, v ∈ Users w → _id v ≠ uid) →
  duplicateKey (mkDocument None (encryptFieldsSync (signedUp uid email w))) (Users w) = None.
Proof.
  intros Hfind Hfresh. apply insert_accepted; simpl; try done.
  - intros v Hv. pose proof (find_None_elem_of _ _ v Hfind Hv) as He.
    by apply bool_decide_eq_false in He.
  - intros v Hv. by apply generateSlug_unique.
Qed.

(** The whole run of [signUpByEmail] when the email and the uid are new
    and the record passes validation. *)
Lemma signUpByEmail_created (uid email : string) (w : World) :
  List.find (byEmail email) (Users w) = None →
  (∀ v, v ∈ Users w → _id v ≠ uid) →
  isObjectId uid = true →
  email ≠ "" →
  generateSlug (Users w) email ≠ "" →
  signUpByEmail uid email w
  = (match welcomeTemplateOf w with
     | Some _ => Ok (publicFields (signedUp uid email w))
     | None => Throw (JsError "welcome Email template not found")
     end,
     set_Users (Users w ++ [signedUp uid email w])
       (traced ([UserFindOne; UserSave uid] ++ welcomeEvents email email w) w)).
Proof.
  intros Hfind Hfresh Hcast Hemail Hslug. rewrite (signUpByEmail_new _ _ _ Hfind).
  rewrite (proj2 (signedUpErrors_nil uid email w))
    by (unfold castsToObjectId; rewrite Hcast; done).
  change (signedUp uid email w) with (encryptFieldsSync (signedUp uid email w)) at 1.
  by rewrite (signedUp_accepted uid email w Hfind Hfresh).
Qed.

Lemma created_tokens (type : Provider) (oauthId : option string) (email : string)
    (oauthToken : OAuthToken) (displayName : string) (avatarUrl : option string)
    (w : World) :
  let s := encryptFieldsSync
             (created type oauthId email oauthToken displayName avatarUrl w) in
  match supplied (accessToken oauthToken) with
  | Some token =>
      entry (type_name type) (oAuthAccessToken (decryptedView s)) = Some token
      ∧ plain (oAuthAccessToken s) = None
      ∧ __enc_d (oAuthAccessToken s) = Some (encrypt {[ type_name type := token ]})
  | None => oAuthAccessToken s = noField
  end
  ∧ match supplied (refreshToken oauthToken) with
    | Some token =>
        entry (type_name type) (oAuthRefreshToken (decryptedView s)) = Some token
        ∧ plain (oAuthRefreshToken s) = None
        ∧ __enc_d (oAuthRefreshToken s) = Some (encrypt {[ type_name type := token ]})
    | None => oAuthRefreshToken s = noField
    end.
Proof.
  unfold created, entry.
  destruct type;
    destruct (supplied (accessToken oauthToken));
    destruct (supplied (refreshToken oauthToken)); simpl;
    rewrite ?lookup_insert_eq; done.
Qed.

(** C2 (as amended): when no user matches the email or the provider id
    and the new record passes validation (the email and the slug generated
    from the display name are not empty), [signInOrSignUp] adds exactly one
    record [s] to the collection. Its slug is the one [generateSlug] made
    from the display name, which no stored record has; its provider id is
    [oauthId]; each token supplied is sealed in it under the key [type], and
    a token map without a token supplied stays undefined; [createdAt] is the
    time of the call and [defaultTeamSlug] is empty. The decrypted view of
    [s] is returned when a 'welcome' template is stored; otherwise the call
    throws, the record having been created. When the email or the generated
    slug is empty, validation refuses the record: the call throws a
    [ValidationError] after the lookup and nothing is created. *)
Theorem signInOrSignUp_creates (type : Provider) (oauthId : option string)
    (email : string) (oauthToken : OAuthToken) (displayName : string)
    (avatarUrl : option string) (w : World) :
  truthy oauthId = true →
  List.find (byEmailOrId type email oauthId) (Users w) = None →
  (email ≠ "" → generateSlug (Users w) displayName ≠ "" →
   ∃ (s : User) (w' : World) (res : result User),
     signInOrSignUp type oauthId email oauthToken displayName avatarUrl w = (res, w')
     ∧ Users w' = Users w ++ [s]
     ∧ slug s = generateSlug (Users w) displayName
     ∧ (∀ u, u ∈ Users w → slug u ≠ slug s)
     ∧ get_Id type s = oauthId
     ∧ match supplied (accessToken oauthToken) with
       | Some token =>
           entry (type_name type) (oAuthAccessToken (decryptedView s)) = Some token
           ∧ plain (oAuthAccessToken s) = None
           ∧ __enc_d (oAuthAccessToken s) = Some (encrypt {[ type_name type := token ]})
       | None => oAuthAccessToken s = noField
       end
     ∧ match supplied (refreshToken oauthToken) with
       | Some token =>
           entry (type_name type) (oAuthRefreshToken (decryptedView s)) = Some token
           ∧ plain (oAuthRefreshToken s) = None
           ∧ __enc_d (oAuthRefreshToken s) = Some (encrypt {[ type_name type := token ]})
       | None => oAuthRefreshToken s = noField
       end
     ∧ createdAt s = clock w
     ∧ defaultTeamSlug s = ""
     ∧ email_of s = email
     ∧ res = match welcomeTemplateOf w with
             | Some _ => Ok (decryptedView s)
             | None => Throw (JsError "welcome Email template not found")
             end)
  ∧ (email = "" ∨ generateSlug (Users w) displayName = "" →
     ∃ paths,
       signInOrSignUp type oauthId email oauthToken displayName avatarUrl w
       = (Throw (ValidationError paths), emit UserFindOne w)).
Proof.
  intros Hid Hfind. split.
  - intros Hemail' Hslug'.
    rewrite (signInOrSignUp_created _ _ _ _ _ _ _ Hid Hfind Hemail' Hslug').
    destruct (created_keys type oauthId email oauthToken displayName avatarUrl w)
      as (_ & Hemail & Hslug & Hown & _ & Hat & Hteam & _).
    destruct (created_tokens type oauthId email oauthToken displayName avatarUrl w)
      as [Haccess Hrefresh].
    eexists _, _, _. split; [reflexivity|]. cbn [Users set_Users traced].
    split_and!; try done.
    intros u Hu. rewrite Hslug. by apply generateSlug_unique.
  - by apply signInOrSignUp_invalid.
Qed.

(** C9: when no 'welcome' template is stored and the new record passes
    validation, [signInOrSignUp] on its new-user branch and [signUpByEmail]
    for a new email and a new uid throw 'welcome Email template not found';
    the record they made is in the collection all the same, so the failure
    does not undo the creation. And on every input of these branches, a
    call that throws this error has added its record, while a call that
    throws another error has added nothing. *)
Theorem welcome_template_missing :
  (∀ (type : Provider) (oauthId : option string) (email : string)
     (oauthToken : OAuthToken) (displayName : string) (avatarUrl : option string)
     (w : World),
     truthy oauthId = true →
     List.find (byEmailOrId type email oauthId) (Users w) = None →
     welcomeTemplateOf w = None →
     (email ≠ "" → generateSlug (Users w) displayName ≠ "" →
      ∃ (s : User) (w' : World),
        signInOrSignUp type oauthId email oauthToken displayName avatarUrl w
        = (Throw (JsError "welcome Email template not found"), w')
        ∧ Users w' = Users w ++ [s]
        ∧ email_of s = email ∧ get_Id type s = oauthId)
     ∧ ∃ (e : Error) (w' : World),
         signInOrSignUp type oauthId email oauthToken displayName avatarUrl w
         = (Throw e, w')
         ∧ (e = JsError "welcome Email template not found" →
            ∃ s, Users w' = Users w ++ [s] ∧ email_of s = email ∧ get_Id type s = oauthId)
         ∧ (e ≠ JsError "welcome Email template not found" → Users w' = Users w))
  ∧ (∀ (uid email : string) (w : World),
       List.find (byEmail email) (Users w) = None →
       welcomeTemplateOf w = None →
       ((∀ v, v ∈ Users w → _id v ≠ uid) →
        isObjectId uid = true → email ≠ "" → generateSlug (Users w) email ≠ "" →
        ∃ (s : User) (w' : World),
          signUpByEmail uid email w
          = (Throw (JsError "welcome Email template not found"), w')
          ∧ Users w' = Users w ++ [s]
          ∧ email_of s = email ∧ _id s = uid)
       ∧ ∃ (e : Error) (w' : World),
           signUpByEmail uid email w = (Throw e, w')
           ∧ (e = JsError "welcome Email template not found" →
              ∃ s, Users w' = Users w ++ [s] ∧ email_of s = email ∧ _id s = uid)
           ∧ (e ≠ JsError "welcome Email template not found" → Users w' = Users w)).
Proof.
  split.
  - intros type oauthId email oauthToken displayName avatarUrl w Hid Hfind Hnone.
    destruct (created_keys type oauthId email oauthToken displayName avatarUrl w)
      as (_ & Hemail & _ & Hown & _).
    split.
    + intros Hemail' Hslug'.
      rewrite (signInOrSignUp_created _ _ _ _ _ _ _ Hid Hfind Hemail' Hslug'), Hnone.
      eexists _, _. split; [reflexivity|]. done.
    + rewrite (signInOrSignUp_new _ _ _ _ _ _ _ Hid Hfind), Hnone.
      destruct (invalidPaths _); [destruct (duplicateKey _ _)|];
        eexists _, _; (split; [reflexivity|]); split; try done.
      intros _. eexists. by split_and!.
  - intros uid email w Hfind Hnone. split.
    + intros Hfresh Hcast Hemail Hslug.
      rewrite (signUpByEmail_created _ _ _ Hfind Hfresh Hcast Hemail Hslug), Hnone.
      eexists _, _. split; [reflexivity|]. done.
    + rewrite (signUpByEmail_new _ _ _ Hfind), Hnone.
      destruct (signedUpErrors uid email w); [destruct (duplicateKey _ _)|];
        eexists _, _; (split; [reflexivity|]); split; try done.
      intros _. eexists. by split_and!.
Qed.

(** ** The welcome email is skipped under an invitation *)


(** ** Sign-up by email *)

(** C4: [signUpByEmail] for an email that a stored record has throws 'User
    already exists' and leaves the collection as it is; whenever it
    succeeds, it has added exactly one record, which has the caller's uid as
    [_id] and is the one returned, and a second sign-up with the same email
    fails, whatever uid it is given; and it does succeed for a new email and
    a new uid when a 'welcome' template is stored and the record passes
    validation (the uid casts to an ObjectId, the email and the slug
    generated from it are not empty). *)
Theorem signUpByEmail_once :
  (∀ (uid email : string) (w : World) (u : User),
     u ∈ Users w → email_of u = email →
     signUpByEmail uid email w
     = (Throw (JsError "User already exists"), emit UserFindOne w)
     ∧ Users (signUpByEmail uid email w).2 = Users w)
  ∧ (∀ (uid uid' email : string) (w w' : World) (p : PublicUser),
       signUpByEmail uid email w = (Ok p, w') →
       (∃ s : User,
          Users w' = Users w ++ [s]
          ∧ _id s = uid ∧ email_of s = email
          ∧ p = publicFields s ∧ public__id p = uid)
       ∧ signUpByEmail uid' email w'
         = (Throw (JsError "User already exists"), emit UserFindOne w'))
  ∧ (∀ (uid email : string) (w : World),
       (∀ u, u ∈ Users w → email_of u ≠ email) →
       (∀ u, u ∈ Users w → _id u ≠ uid) →
       is_Some (welcomeTemplateOf w) →
       isObjectId uid = true →
       email ≠ "" →
       generateSlug (Users w) email ≠ "" →
       ∃ (p : PublicUser) (w' : World), signUpByEmail uid email w = (Ok p, w')).
Proof.
  assert (Htaken : ∀ (uid email : string) (w : World) (u : User),
            u ∈ Users w → email_of u = email →
            signUpByEmail uid email w
            = (Throw (JsError "User already exists"), emit UserFindOne w)).
  { intros uid email w u Hu Hemail.
    destruct (find_is_Some (byEmail email) (Users w) u Hu) as [y Hy].
    - by apply bool_decide_eq_true.
    - by apply (signUpByEmail_exists uid email w y). }
  split_and!.
  - intros uid email w u Hu Hemail. by rewrite (Htaken uid email w u Hu Hemail).
  - intros uid uid' email w w' p Hrun.
    destruct (List.find (byEmail email) (Users w)) as [u|] eqn:Hfind.
    { by rewrite (signUpByEmail_exists _ _ _ _ Hfind) in Hrun. }
    rewrite (signUpByEmail_new _ _ _ Hfind) in Hrun.
    destruct (signedUpErrors uid email w); [|done].
    destruct (duplicateKey _ _); [done|].
    destruct (welcomeTemplateOf w); [|done].
    injection Hrun as <- <-. split; [by eexists|].
    apply (Htaken uid' email _ (signedUp uid email w)); [|done].
    cbn [Users set_Users]. set_solver.
  - intros uid email w Hnew Hfresh [t Ht] Hcast Hemail Hslug.
    assert (Hfind : List.find (byEmail email) (Users w) = None).
    { destruct (List.find _ (Users w)) as [u|] eqn:Hfind; [|done].
      apply find_some in Hfind as [Hin Hu]. apply list_elem_of_In in Hin.
      apply bool_decide_eq_true in Hu. by destruct (Hnew u). }
    rewrite (signUpByEmail_created _ _ _ Hfind Hfresh Hcast Hemail Hslug), Ht.
    by eexists _, _.
Qed.

End Properties.

(** * Runs on concrete stores *)

Lemma length_append (s t : string) :
  String.length (s +:+ t) = String.length s + String.length t.
Proof. induction s as [|c s IH]; simpl; [done | by rewrite IH]. Qed.

Lemma length_joined (key : User -> string) (coll : list User) (u : User) :
  u ∈ coll → String.length (key u) ≤ String.length (joined key coll).
Proof.
  induction 1 as [u coll | u v coll _ IH]; simpl; rewrite length_append; lia.
Qed.

Lemma slugify_unique (coll : list User) (name : string) (u : User) :
  u ∈ coll → slug u ≠ slugify coll name.
Proof.
  intros Hu Heq. unfold slugify in Heq. case_bool_decide as Hin.
  - apply (f_equal String.length) in Heq.
    rewrite !length_append in Heq. simpl in Heq.
    pose proof (length_joined slug coll u Hu). lia.
  - apply Hin. rewrite <- Heq. by apply list_elem_of_fmap_2.
Qed.

Lemma objectId_fresh (coll : list User) (u : User) :
  u ∈ coll → _id u ≠ objectId coll.
Proof.
  intros Hu Heq. apply (f_equal String.length) in Heq.
  unfold objectId in Heq. rewrite length_append in Heq. simpl in Heq.
  pose proof (length_joined _id coll u Hu). lia.
Qed.

#[global] Instance servicesWith_contract (send : Mail -> option Error)
    (sub : string -> string -> option Error) : Contract (servicesWith send sub).
Proof. split; [exact slugify_unique | exact objectId_fresh]. Qed.

#[global] Instance servicesUp_contract : Contract servicesUp.
Proof. apply servicesWith_contract. Qed.

#[global] Instance servicesDown_contract : Contract servicesDown.
Proof. apply servicesWith_contract. Qed.

Lemma registry_ids : NoDup (_id <$> Users registry).
Proof. by apply (bool_decide_unpack _). Qed.

(** C1, counterexample: Alice, the first record and the one matching the
    email, is found, and tokens are supplied; but Bob already holds the
    Google id: the [googleId] index rejects the save of Alice's record, the
    call throws the duplicate-key error and nothing is persisted. *)
Lemma signInOrSignUp_merge_rejected :
  List.find (byEmailOrId google "alice@example.com" (Some "g-bob")) (Users registry)
  = Some alice
  ∧ isEmpty (tokens "at" "rt") = false
  ∧ signInOrSignUp (services := servicesUp) google (Some "g-bob") "alice@example.com"
      (tokens "at" "rt") "Alice" None registry
    = (Throw (MongoError 11000 "googleId"), traced [UserFindOne; UserSave "u1"] registry)
  ∧ Users (traced [UserFindOne; UserSave "u1"] registry) = Users registry.
Proof. split_and!; reflexivity. Qed.

Lemma signInOrSignUp_merge_witness :
  (∃ (r : User) (w' : World),
     signInOrSignUp (services := servicesUp) google (Some "g-alice") "alice@example.com"
       (tokens "at" "rt") "Alice" None registry = (Ok r, w')
     ∧ _id <$> Users w' = ["u1"; "u2"]
     ∧ googleId r = Some "g-alice"
     ∧ entry "google" (oAuthAccessToken r) = Some "at"
     ∧ entry "google" (oAuthRefreshToken r) = Some "rt")
  ∧ (∃ w' : World,
       signInOrSignUp (services := servicesUp) google (Some "g-bob") "alice@example.com"
         (tokens "at" "rt") "Alice" None registry
       = (Throw (MongoError 11000 "googleId"), w')
       ∧ Users w' = [alice; bob]).
Proof.
  split.
  - destruct (signInOrSignUp_merge (services := servicesUp) google (Some "g-alice")
                "alice@example.com" (tokens "at" "rt") "Alice" None registry alice
                eq_refl eq_refl eq_refl)
      as [Haccepted _].
    destruct Haccepted as (r & s & w' & Hrun & Hids & Hid & Haccess & Hrefresh & _).
    + intros _ (v & Hv & Hne & Hheld).
      apply elem_of_cons in Hv as [->|Hv]; [by destruct Hne|].
      apply elem_of_cons in Hv as [->|Hv]; [discriminate Hheld|].
      by apply elem_of_nil in Hv.
    + exists r, w'. split_and!; [exact Hrun | exact Hids | exact Hid | |].
      * by apply Haccess.
      * by apply Hrefresh.
  - destruct (signInOrSignUp_merge (services := servicesUp) google (Some "g-bob")
                "alice@example.com" (tokens "at" "rt") "Alice" None registry alice
                eq_refl eq_refl eq_refl)
      as [_ Hrejected].
    apply Hrejected; [reflexivity|].
    exists bob. split_and!; [by right; left | discriminate | reflexivity].
Defined.

(** C2, counterexample: nobody matches Carol, and no 'welcome' template is
    stored: her record is created, but the call throws instead of returning
    it. *)
Lemma signInOrSignUp_creates_then_throws :
  List.find (byEmailOrId google "carol@example.com" (Some "g-carol")) (Users bare) = None
  ∧ (signInOrSignUp (services := servicesUp) google (Some "g-carol") "carol@example.com"
       (tokens "at" "rt") "Carol" None bare).1
    = Throw (JsError "welcome Email template not found")
  ∧ email <$> Users (signInOrSignUp (services := servicesUp) google (Some "g-carol")
                        "carol@example.com" (tokens "at" "rt") "Carol" None bare).2
    = ["alice@example.com"; "bob@example.com"; "carol@example.com"].
Proof. split_and!; reflexivity. Qed.

Lemma signInOrSignUp_creates_witness :
  ∃ (s : User) (w' : World),
    signInOrSignUp (services := servicesUp) google (Some "g-carol") "carol@example.com"
      (tokens "at" "rt") "Carol" None registry = (Ok (decryptedView s), w')
    ∧ Users w' = [alice; bob; s]
    ∧ slug s = "Carol" ∧ googleId s = Some "g-carol" ∧ createdAt s = 7
    ∧ defaultTeamSlug s = "".
Proof.
  destruct (signInOrSignUp_creates (services := servicesUp) google (Some "g-carol")
              "carol@example.com" (tokens "at" "rt") "Carol" None registry
              eq_refl eq_refl)
    as [Hvalid _].
  destruct Hvalid
    as (s & w' & res & Hrun & Husers & Hslug & _ & Hid & _ & _ & Hat & Hteam & _ & Hres).
  - discriminate.
  - discriminate.
  - exists s, w'. rewrite Hres in Hrun. by split_and!.
Defined.

Lemma checkPermissionAndGetTeam_witness :
  (∃ message, (checkPermissionAndGetTeam (Some "u2") (Some "t1") club).1
              = Throw (JsError message))
  ∧ (∃ t, (checkPermissionAndGetTeam (Some "u1") (Some "t1") club).1 = Ok t
          ∧ Team.memberIds t = ["u1"; "u3"]).
Proof.
  split.
  - apply (checkPermissionAndGetTeam_spec (Some "u2") (Some "t1") club).
    do 3 right. exists (Team.mkTeam "t1" ["u1"; "u3"]). split; [reflexivity|].
    intros m Hm.
    apply elem_of_cons in Hm as [->|Hm]; [discriminate|].
    apply elem_of_cons in Hm as [->|Hm]; [discriminate|].
    by apply elem_of_nil in Hm.
  - destruct (checkPermissionAndGetTeam_spec (Some "u1") (Some "t1") club)
      as [_ Hallowed].
    destruct Hallowed as (t & Hfound & _ & Hrun).
    + intros [Habsent|[Habsent|[Hnone|(t & Hfound & Hout)]]].
      * discriminate Habsent.
      * discriminate Habsent.
      * by apply (Hnone (Team.mkTeam "t1" ["u1"; "u3"])); [left|].
      * injection Hfound as <-. by apply (Hout "u1"); [left|].
    + injection Hfound as <-. by eexists.
Defined.

Lemma signUpByEmail_once_witness :
  signUpByEmail (services := servicesUp) daveId "alice@example.com" registry
  = (Throw (JsError "User already exists"), emit UserFindOne registry)
  ∧ ∃ (p : PublicUser) (w' : World),
      signUpByEmail (services := servicesUp) daveId "dave@example.com" registry = (Ok p, w')
      ∧ public__id p = daveId
      ∧ signUpByEmail (services := servicesUp) erinId "dave@example.com" w'
        = (Throw (JsError "User already exists"), emit UserFindOne w').
Proof.
  destruct (signUpByEmail_once (services := servicesUp)) as (Htaken & Htwice & Hnew).
  split.
  - by apply (Htaken daveId "alice@example.com" registry alice); [left|].
  - destruct (Hnew daveId "dave@example.com" registry) as (p & w' & Hrun).
    + intros u Hu.
      apply elem_of_cons in Hu as [->|Hu]; [discriminate|].
      apply elem_of_cons in Hu as [->|Hu]; [discriminate|].
      by apply elem_of_nil in Hu.
    + intros u Hu.
      apply elem_of_cons in Hu as [->|Hu]; [discriminate|].
      apply elem_of_cons in Hu as [->|Hu]; [discriminate|].
      by apply elem_of_nil in Hu.
    + by exists welcomeTemplate.
    + reflexivity.
    + discriminate.
    + discriminate.
    + destruct (Htwice daveId erinId "dave@example.com" registry w' p Hrun)
        as [(s & _ & _ & _ & _ & Hid) Hagain].
      exists p, w'. by split_and!.
Defined.

Lemma signInOrSignUp_oauthId_required_witness :
  signInOrSignUp (services := servicesUp) google (Some "") "alice@example.com"
    (tokens "at" "rt") "Alice" None registry
  = (Throw (JsError "oauthId is required"), registry).
Proof. apply signInOrSignUp_oauthId_required. reflexivity. Defined.






Lemma welcome_template_missing_witness :
  ∃ (s : User) (w' : World),
    signUpByEmail (services := servicesUp) daveId "dave@example.com" bare
    = (Throw (JsError "welcome Email template not found"), w')
    ∧ Users w' = [alice; bob; s] ∧ _id s = daveId.
Proof.
  destruct (welcome_template_missing (services := servicesUp)) as [_ Hup].
  destruct (Hup daveId "dave@example.com" bare eq_refl eq_refl) as [Hcreated _].
  destruct Hcreated as (s & w' & Hrun & Husers & _ & Hid).
  - intros u Hu.
    apply elem_of_cons in Hu as [->|Hu]; [discriminate|].
    apply elem_of_cons in Hu as [->|Hu]; [discriminate|].
    by apply elem_of_nil in Hu.
  - reflexivity.
  - discriminate.
  - discriminate.
  - by exists s, w'.
Defined.

Lemma signInOrSignUp_merge_frame_witness :
  ∃ r, (signInOrSignUp (services := servicesUp) google (Some "g-alice") "alice@example.com"
          (tokens "at" "rt") "Alicia" (Some "https://example.com/a.png") registry).1 = Ok r
       ∧ googleId r = Some "g-alice"
       ∧ displayName r = None ∧ avatarUrl r = None ∧ slug r = "alice" ∧ createdAt r = 0.
Proof.
  pose proof (signInOrSignUp_merge_frame (services := servicesUp) google (Some "g-alice")
                "alice@example.com" (tokens "at" "rt") "Alicia"
                (Some "https://example.com/a.png") registry alice
                eq_refl eq_refl eq_refl registry_ids) as Hframe.
  destruct (signInOrSignUp _ _ _ _ _ _ registry) as [res w'] eqn:Hrun.
  destruct Hframe as [Hres _].
  apply (f_equal fst) in Hrun. vm_compute in Hrun. subst res.
  eexists. split; [reflexivity|].
  destruct (Hres _ eq_refl) as (_ & Hslug & Hat & _ & _ & _ & Hname & Havatar & _).
  by split_and!.
Defined.

(** * Properties of the other methods *)

(** ** Updates by [_id] *)

Lemma updateFirst_None (id : string) (f : User -> User) (coll : list User) :
  List.find (λ u, bool_decide (_id u = id)) coll = None → updateFirst id f coll = coll.
Proof.
  induction coll as [|u coll IH]; simpl; [done|].
  destruct (bool_decide (_id u = id)); [done|]. intros Hfind. by rewrite IH.
Qed.

(** The document found by [_id] is the only one that an update touches. *)
Lemma updateFirst_Some (id : string) (f : User -> User) (coll : list User) (old : User) :
  List.find (λ u, bool_decide (_id u = id)) coll = Some old →
  ∃ pre post,
    coll = pre ++ old :: post
    ∧ (∀ v, v ∈ pre → _id v ≠ id)
    ∧ _id old = id
    ∧ updateFirst id f coll = pre ++ f old :: post.
Proof.
  induction coll as [|u coll IH]; simpl; [done|].
  case_bool_decide as Hid.
  - intros [= <-]. exists [], coll. split_and!; [done| |done..].
    by intros v ?%elem_of_nil.
  - intros Hfind. destruct (IH Hfind) as (pre & post & -> & Hpre & Hold & ->).
    exists (u :: pre), post. split_and!; [done| |done..].
    intros v [->|Hv]%elem_of_cons; [done | by apply Hpre].
Qed.

(** An update that leaves the indexed paths alone is never rejected. *)
Lemma duplicateKey_unmodified (old new : User) (coll : list User) :
  (∀ ix, ix ∈ uniqueIndexes → ix.2 new = ix.2 old) →
  duplicateKey (mkDocument (Some old) new) coll = None.
Proof.
  intros Hsame. apply duplicateKey_None. intros ix Hix Hmod.
  unfold isModified in Hmod. cbn [loaded this] in Hmod.
  rewrite (Hsame ix Hix) in Hmod. by rewrite bool_decide_eq_true_2 in Hmod.
Qed.

Lemma find_by_id (id : string) (u : User) (pre post : list User) :
  (∀ v, v ∈ pre → _id v ≠ id) → _id u = id →
  List.find (λ v, bool_decide (_id v = id)) (pre ++ u :: post) = Some u.
Proof.
  intros Hpre Hid. induction pre as [|a pre IH]; simpl.
  - by rewrite bool_decide_eq_true_2.
  - rewrite bool_decide_eq_false_2 by (apply Hpre; left).
    apply IH. intros v Hv. apply Hpre. by right.
Qed.

(** An update that leaves the indexed paths alone sets no validated path:
    the two required string paths are indexed. *)
Lemma invalidPaths_unindexed (old new : User) :
  (∀ ix, ix ∈ uniqueIndexes → ix.2 new = ix.2 old) →
  invalidPaths (mkDocument (Some old) new) = [].
Proof.
  intros Hsame. apply invalidPaths_unmodified.
  - assert (Hslug : ("slug", λ u : User, Some (slug u)) ∈ uniqueIndexes)
      by (unfold uniqueIndexes; set_solver).
    apply Hsame in Hslug. by injection Hslug.
  - assert (Hemail : ("email", λ u : User, Some (email u)) ∈ uniqueIndexes)
      by (unfold uniqueIndexes; set_solver).
    apply Hsame in Hemail. by injection Hemail.
Qed.

(** The id of a stored record casts. *)
Lemma castsToObjectId_stored `{services : Services} (id : string) (coll : list User)
    (old : User) :
  List.find (λ u, bool_decide (_id u = id)) coll = Some old →
  castsToObjectId id coll = true.
Proof.
  intros Hfind. apply find_some in Hfind as [Hin Hid].
  apply list_elem_of_In in Hin. apply bool_decide_eq_true in Hid.
  unfold castsToObjectId. apply orb_true_iff. right. apply bool_decide_eq_true.
  rewrite <- Hid. by apply list_elem_of_fmap_2.
Qed.

(** For an id that no record has, the cast is that of the string. *)
Lemma castsToObjectId_unknown `{services : Services} (id : string) (coll : list User) :
  (∀ u, u ∈ coll → _id u ≠ id) → castsToObjectId id coll = isObjectId id.
Proof.
  intros Hunknown. unfold castsToObjectId.
  rewrite bool_decide_eq_false_2; [by rewrite orb_false_r|].
  intros (u & Hid & Hu)%list_elem_of_fmap. by destruct (Hunknown u).
Qed.

Lemma findByIdAndUpdate_accepted `{services : Services} (id : string)
    (modifier : User -> User) (w : World) (old : User) :
  List.find (λ u, bool_decide (_id u = id)) (Users w) = Some old →
  invalidPaths (mkDocument (Some old) (modifier old)) = [] →
  duplicateKey (mkDocument (Some old) (modifier old)) (Users w) = None →
  ∃ pre post,
    Users w = pre ++ old :: post
    ∧ (∀ v, v ∈ pre → _id v ≠ id)
    ∧ _id old = id
    ∧ findByIdAndUpdate id modifier w
      = (Ok (Some (modifier old)), set_Users (pre ++ modifier old :: post) w).
Proof.
  intros Hfind Hvalid Hdup. unfold findByIdAndUpdate.
  rewrite (castsToObjectId_stored id (Users w) old Hfind). cbn [negb].
  rewrite Hfind, Hvalid, Hdup.
  destruct (updateFirst_Some id modifier (Users w) old Hfind)
    as (pre & post & Hcoll & Hpre & Hold & ->).
  by exists pre, post.
Qed.

Lemma findById_run `{services : Services} (id : string) (w : World) :
  castsToObjectId id (Users w) = true →
  findById id w
  = (Ok ((λ u, mkDocument (Some u) (decryptFieldsSync u))
           <$> List.find (λ u, bool_decide (_id u = id)) (Users w)),
     emit UserFindOne w).
Proof. intros Hcast. unfold findById. by rewrite Hcast. Qed.

(** [findById] for an id that no record has: [null] when the id casts, a
    [CastError] before the query is sent when it does not. *)
Lemma findById_unknown `{services : Services} (id : string) (w : World) :
  (∀ u, u ∈ Users w → _id u ≠ id) →
  findById id w
  = if isObjectId id then (Ok None, emit UserFindOne w)
    else (Throw (CastError "_id" id), w).
Proof.
  intros Hunknown. unfold findById, findOne.
  rewrite (castsToObjectId_unknown id (Users w) Hunknown).
  destruct (isObjectId id); [|done].
  destruct (List.find _ (Users w)) as [u|] eqn:Hfind; [|done].
  apply find_some in Hfind as [Hin Hu]. apply list_elem_of_In in Hin.
  apply bool_decide_eq_true in Hu. by destruct (Hunknown u).
Qed.

Section ProfileProperties.
Context `{services : Services}.

(** ** [toggleTheme] *)

(** X6: [toggleTheme] does not flip the theme, it sets it. For the id of a
    stored record the call resolves, the user's [darkTheme] becomes the
    boolean of the argument ([false] for [undefined]) whatever the stored
    value was, and no other path and no other record changes. For an id
    that no record has nothing changes: the call resolves when the id casts
    to an ObjectId and rejects with a [CastError] when it does not. A second
    call with the same argument leaves the collection as the first one left
    it. *)
Theorem toggleTheme_sets (userId : string) (darkTheme : option bool) (w : World) :
  let now := Some (default false darkTheme) in
  match List.find (λ u, bool_decide (_id u = userId)) (Users w) with
  | Some old =>
      (toggleTheme userId darkTheme w).1 = Ok ()
      ∧ ∃ pre post,
          Users w = pre ++ old :: post
          ∧ Users (toggleTheme userId darkTheme w).2 = pre ++ set_darkTheme now old :: post
  | None =>
      (toggleTheme userId darkTheme w).1
      = (if isObjectId userId then Ok () else Throw (CastError "_id" userId))
      ∧ Users (toggleTheme userId darkTheme w).2 = Users w
  end
  ∧ Users (toggleTheme userId darkTheme (toggleTheme userId darkTheme w).2).2
    = Users (toggleTheme userId darkTheme w).2.
Proof.
  cbv zeta. unfold toggleTheme, updateOne.
  set (f := set_darkTheme (Some (default false darkTheme))).
  assert (Hidem : ∀ coll, updateFirst userId f (updateFirst userId f coll)
                          = updateFirst userId f coll).
  { induction coll as [|u coll IH]; simpl; [done|].
    case_bool_decide as Hid; simpl.
    - by rewrite bool_decide_eq_true_2.
    - rewrite bool_decide_eq_false_2 by done. by rewrite IH. }
  destruct (List.find _ (Users w)) as [old|] eqn:Hfind.
  - rewrite (castsToObjectId_stored userId (Users w) old Hfind).
    cbn [fst snd Users set_Users].
    destruct (updateFirst_Some userId f (Users w) old Hfind)
      as (pre & post & Hcoll & Hpre & Hold & Hupd).
    split; [split; [done | by exists pre, post]|].
    rewrite (castsToObjectId_stored userId _ (f old)).
    + cbn [snd Users set_Users]. apply Hidem.
    + rewrite Hupd. apply find_by_id; [done|]. unfold f. by destruct old.
  - assert (Hunknown : ∀ u, u ∈ Users w → _id u ≠ userId).
    { intros u Hu Hid. apply (find_None_elem_of _ _ u Hfind) in Hu.
      by apply bool_decide_eq_false in Hu. }
    rewrite (castsToObjectId_unknown userId (Users w) Hunknown).
    destruct (isObjectId userId) eqn:Hcast; cbn [fst snd Users set_Users].
    + rewrite (updateFirst_None userId f (Users w) Hfind).
      split; [done|].
      rewrite (castsToObjectId_unknown userId (Users w) Hunknown), Hcast.
      cbn [snd Users set_Users]. by rewrite (updateFirst_None userId f (Users w) Hfind).
    + split; [done|].
      by rewrite (castsToObjectId_unknown userId (Users w) Hunknown), Hcast.
Qed.

(** ** [updateProfile] *)

(** X3: for a user id that no stored record has, [updateProfile] writes
    nothing: when the id casts to an ObjectId, [findById] resolves to [null]
    and the call throws the [TypeError] of reading [displayName] of [null];
    when it does not cast, [findById] rejects with a [CastError] before any
    query is sent. *)
Theorem updateProfile_unknown (userId name avatarUrl : string) (w : World) :
  (∀ u, u ∈ Users w → _id u ≠ userId) →
  updateProfile userId name avatarUrl w
  = (if isObjectId userId then (Throw (TypeError "displayName"), emit UserFindOne w)
     else (Throw (CastError "_id" userId), w))
  ∧ Users (updateProfile userId name avatarUrl w).2 = Users w.
Proof.
  intros Hunknown. unfold updateProfile, mbind, M_bind.
  rewrite (findById_unknown userId w Hunknown). by destruct (isObjectId userId).
Qed.

(** X4: when the name given is the stored display name, [updateProfile]
    keeps the slug (no new slug is generated) and the display name, and sets
    the avatar URL; every other path of the record and every other record
    stay as they are, and the three selected paths are returned. *)
Theorem updateProfile_same_name (userId name avatarUrl : string) (w : World) (old : User) :
  List.find (λ u, bool_decide (_id u = userId)) (Users w) = Some old →
  displayName_of old = Some name →
  ∃ pre post w',
    Users w = pre ++ old :: post
    ∧ updateProfile userId name avatarUrl w
      = (Ok (Some (mkProfileFields userId (Some name) (Some avatarUrl) (slug old))), w')
    ∧ Users w' = pre ++ set_avatarUrl (Some avatarUrl) old :: post.
Proof.
  intros Hfind Hname. unfold displayName_of in Hname.
  unfold updateProfile. unfold mbind at 1. unfold M_bind at 1.
  rewrite findById_run, Hfind by (by eapply castsToObjectId_stored).
  cbn [fmap option_fmap option_map this].
  assert (Hdn : displayName (decryptFieldsSync old) = Some name) by exact Hname.
  rewrite Hdn. rewrite bool_decide_eq_false_2 by (by intros []).
  unfold mbind at 1. unfold M_bind at 1. cbn [mret M_ret fst snd].
  set (modifier := λ u : User, set_slug _ (set_avatarUrl _ (set_displayName _ u))).
  assert (Hnew : modifier old = set_avatarUrl (Some avatarUrl) old).
  { unfold modifier. destruct old. simpl in *. by rewrite Hname. }
  assert (Hsame : ∀ ix, ix ∈ uniqueIndexes
                        → ix.2 (set_avatarUrl (Some avatarUrl) old) = ix.2 old).
  { intros ix Hix. unfold uniqueIndexes in Hix.
    repeat (apply elem_of_cons in Hix as [->|Hix]); [done..|by apply elem_of_nil in Hix]. }
  destruct (findByIdAndUpdate_accepted userId modifier (emit UserFindOne w) old Hfind)
    as (pre & post & Hcoll & _ & Hid & Hrun).
  { rewrite Hnew. by apply invalidPaths_unindexed. }
  { rewrite Hnew. by apply duplicateKey_unmodified. }
  unfold mbind, M_bind. rewrite Hrun, Hnew. cbn [Users emit] in Hcoll.
  exists pre, post,
    (set_Users (pre ++ set_avatarUrl (Some avatarUrl) old :: post) (emit UserFindOne w)).
  split; [done|]. split; [|reflexivity].
  cbn [fmap option_fmap option_map mret M_ret]. unfold selectProfile.
  destruct old. simpl in *. by rewrite Hid, Hname.
Qed.

Context `{!Contract services}.

(** X5: when the name given differs from the stored display name,
    [updateProfile] generates a new slug, which no record had before. When
    that slug is not empty, it is stored with the name and the avatar URL;
    the update is accepted, the other paths of the record and the other
    records stay as they are. When the generated slug is empty, the update
    validators refuse it: the call throws a [ValidationError] for the slug
    and nothing is written. *)
Theorem updateProfile_new_name (userId name avatarUrl : string) (w : World) (old : User) :
  List.find (λ u, bool_decide (_id u = userId)) (Users w) = Some old →
  displayName_of old ≠ Some name →
  (generateSlug (Users w) name ≠ "" →
   ∃ pre post w',
     Users w = pre ++ old :: post
     ∧ updateProfile userId name avatarUrl w
       = (Ok (Some (mkProfileFields userId (Some name) (Some avatarUrl)
                      (generateSlug (Users w) name))), w')
     ∧ Users w'
       = pre ++ set_slug (generateSlug (Users w) name)
                  (set_avatarUrl (Some avatarUrl) (set_displayName (Some name) old)) :: post
     ∧ ∀ u, u ∈ Users w → slug u ≠ generateSlug (Users w) name)
  ∧ (generateSlug (Users w) name = "" →
     updateProfile userId name avatarUrl w
     = (Throw (ValidationError ["slug"]), emit UserFindOne w)).
Proof.
  intros Hfind Hname. unfold displayName_of in Hname.
  assert (Hin : old ∈ Users w).
  { apply find_some in Hfind as [Hin _]. by apply list_elem_of_In. }
  pose proof (generateSlug_unique (Users w) name old Hin) as Hfresh.
  set (modifier := λ u : User,
         set_slug (generateSlug (Users w) name)
           (set_avatarUrl (Some avatarUrl) (set_displayName (Some name) u))).
  assert (Hrun0 : updateProfile userId name avatarUrl w
                  = (updated ← findByIdAndUpdate userId modifier;
                     mret (selectProfile <$> updated)) (emit UserFindOne w)).
  { unfold updateProfile. unfold mbind at 1. unfold M_bind at 1.
    rewrite findById_run, Hfind by (by eapply castsToObjectId_stored).
    cbn [fmap option_fmap option_map this].
    assert (Hdn : displayName (decryptFieldsSync old) = displayName old) by done.
    rewrite Hdn. rewrite bool_decide_eq_true_2 by (by intros Heq; destruct Hname).
    unfold mbind at 1. unfold M_bind at 1. unfold generateSlug_this.
    unfold mbind at 1. unfold M_bind at 1. by cbn [mret M_ret fst snd Users emit]. }
  rewrite Hrun0. clear Hrun0.
  assert (Hpaths : invalidPaths (mkDocument (Some old) (modifier old))
                   = if String.eqb (generateSlug (Users w) name) "" then ["slug"] else []).
  { unfold invalidPaths, requiredPaths, isModified, modifier. cbn.
    rewrite (bool_decide_eq_false_2 (Some (slug old) = _))
      by (intros [= Heq]; apply Hfresh; rewrite Heq; by destruct old).
    rewrite (bool_decide_eq_true_2 (Some (email old) = _)) by (by destruct old).
    replace (slug (set_slug (generateSlug (Users w) name)
                    (set_avatarUrl (Some avatarUrl) (set_displayName (Some name) old))))
      with (generateSlug (Users w) name) by (by destruct old).
    cbn. by destruct (String.eqb _ ""). }
  split.
  - intros Hslug.
    destruct (findByIdAndUpdate_accepted userId modifier (emit UserFindOne w) old Hfind)
      as (pre & post & Hcoll & _ & Hid & Hrun).
    { rewrite Hpaths. by destruct (String.eqb_spec (generateSlug (Users w) name) ""). }
    { apply duplicateKey_None. intros ix Hix Hmod.
      unfold isModified in Hmod. cbn [loaded this] in Hmod.
      apply negb_true_iff, bool_decide_eq_false in Hmod.
      unfold uniqueIndexes in Hix.
      repeat (apply elem_of_cons in Hix as [->|Hix]); cbn [snd] in *;
        [| |
         apply collides_false; intros v [_ Hv]%list_elem_of_filter [= Heq];
           by apply (generateSlug_unique (Users w) name v)
         | | | by apply elem_of_nil in Hix];
        destruct Hmod; unfold modifier; by destruct old. }
    unfold mbind, M_bind. rewrite Hrun. cbn [Users emit] in Hcoll.
    exists pre, post, (set_Users (pre ++ modifier old :: post) (emit UserFindOne w)).
    split; [done|]. split; [|split; [reflexivity|]].
    + cbn [fmap option_fmap option_map mret M_ret]. unfold selectProfile, modifier.
      destruct old. simpl in *. by rewrite Hid.
    + intros u Hu. by apply generateSlug_unique.
  - intros Hslug. unfold mbind, M_bind, findByIdAndUpdate.
    change (Users (emit UserFindOne w)) with (Users w).
    rewrite (castsToObjectId_stored userId (Users w) old Hfind). cbn [negb].
    rewrite Hfind, Hpaths, Hslug. reflexivity.
Qed.

End ProfileProperties.

(** ** [getTeamMembers] *)

Lemma checkPermissionAndGetTeam_run (userId teamId : option string) (w : World) :
  checkPermissionAndGetTeam userId teamId w
  = if negb (truthy userId) || negb (truthy teamId)
    then (Throw (JsError "Bad data"), w)
    else match List.find (λ t, bool_decide (Some (Team._id t) = teamId)) (Teams w) with
         | Some team =>
             if bool_decide (indexOf (Team.memberIds team) userId = (-1)%Z)
             then (Throw (JsError "Team not found"), emit (TeamFindById teamId) w)
             else (Ok team, emit (TeamFindById teamId) w)
         | None => (Throw (JsError "Team not found"), emit (TeamFindById teamId) w)
         end.
Proof.
  unfold checkPermissionAndGetTeam.
  destruct (negb (truthy userId) || negb (truthy teamId)); [done|].
  unfold mbind, M_bind, Team_findById.
  destruct (List.find _ (Teams w)) as [team|]; [|done].
  cbn [fst snd]. by destruct (bool_decide _).
Qed.

(** X1: [getTeamMembers] discloses nothing to a caller that
    [checkPermissionAndGetTeam] refuses: when the user id or the team id is
    absent, when no team has that id, or when the user is not in the member
    list of the team, it throws and returns no record. *)
Theorem getTeamMembers_refused (userId teamId : option string) (w : World) :
  refused userId teamId w →
  ∃ message, (getTeamMembers userId teamId w).1 = Throw (JsError message).
Proof.
  intros Hrefused. unfold getTeamMembers, mbind, M_bind.
  rewrite checkPermissionAndGetTeam_run.
  destruct (truthy userId) eqn:Hu; [|by eexists].
  destruct (truthy teamId) eqn:Ht; [|by eexists]. cbn [negb orb].
  destruct (List.find _ (Teams w)) as [team|] eqn:Hfind; [|by eexists].
  case_bool_decide as Hidx; [by eexists|].
  destruct Hrefused as [?|[?|[Hnone|(t & Ht' & Hout)]]]; [congruence..| |].
  - apply find_some in Hfind as [Hin Hid]. apply list_elem_of_In in Hin.
    apply bool_decide_eq_true in Hid. by destruct (Hnone team).
  - simplify_eq. destruct Hidx. by apply indexOf_absent.
Qed.

(** X2: for a member of the team, [getTeamMembers] returns the public
    fields of exactly the stored users whose [_id] is in the member list of
    the team found: no record of a non-member is returned, no stored member
    is left out, the caller's own record is among them when it is stored,
    and the collection is not changed. *)
Theorem getTeamMembers_members (userId teamId : option string) (w : World) :
  ¬ refused userId teamId w →
  ∃ (team : Team.Team) (members : list LeanUser) (w' : World),
    List.find (λ t, bool_decide (Some (Team._id t) = teamId)) (Teams w) = Some team
    ∧ getTeamMembers userId teamId w = (Ok members, w')
    ∧ Users w' = Users w
    ∧ (∀ p, p ∈ members
            ↔ ∃ u, u ∈ Users w ∧ _id u ∈ Team.memberIds team ∧ p = selectPublicFields u)
    ∧ (∀ u, u ∈ Users w → Some (_id u) = userId → selectPublicFields u ∈ members).
Proof.
  intros Hallowed. unfold getTeamMembers, mbind, M_bind.
  rewrite checkPermissionAndGetTeam_run.
  destruct (truthy userId) eqn:Hu; [|destruct Hallowed; by left].
  destruct (truthy teamId) eqn:Ht; [|destruct Hallowed; by right; left]. cbn [negb orb].
  destruct (List.find _ (Teams w)) as [team|] eqn:Hfind.
  2: { destruct Hallowed. right; right; left. intros t Hin Hid.
       apply list_elem_of_In in Hin.
       pose proof (find_none _ _ Hfind t Hin) as Hf. simpl in Hf.
       by apply bool_decide_eq_false in Hf. }
  case_bool_decide as Hidx.
  { destruct Hallowed. do 3 right. exists team. split; [done|]. by apply indexOf_absent. }
  assert (Hmembers : ∀ p, p ∈ selectPublicFields
                           <$> List.filter (λ u, bool_decide (_id u ∈ Team.memberIds team))
                                 (Users w)
            ↔ ∃ u, u ∈ Users w ∧ _id u ∈ Team.memberIds team ∧ p = selectPublicFields u).
  { intros p. rewrite list_elem_of_fmap. split.
    - intros (u & -> & Hin). apply list_elem_of_In, filter_In in Hin as [Hin Hmem].
      apply list_elem_of_In in Hin. apply bool_decide_eq_true in Hmem. eauto.
    - intros (u & Hin & Hmem & ->). exists u. split; [done|].
      apply list_elem_of_In, filter_In. split; [by apply list_elem_of_In|].
      by apply bool_decide_eq_true. }
  exists team. eexists _, _. unfold find_lean. split; [done|]. split; [reflexivity|].
  cbn [Users emit]. split; [done|]. split; [exact Hmembers|].
  intros u Hin Hid. apply Hmembers. exists u. split_and!; [done| |done].
  destruct (decide (_id u ∈ Team.memberIds team)) as [|Hout]; [done|].
  destruct Hidx. apply indexOf_absent. intros m Hm Heq. apply Hout. congruence.
Qed.

(** ** The billing methods *)

(** The modifiers of the billing methods touch no indexed path. *)
Lemma unindexed_stripeListOfInvoices (v : option StripeListOfInvoices) (u : User) :
  ∀ ix, ix ∈ uniqueIndexes → ix.2 (set_stripeListOfInvoices v u) = ix.2 u.
Proof.
  intros ix Hix. unfold uniqueIndexes in Hix.
  repeat (apply elem_of_cons in Hix as [->|Hix]); [done..|by apply elem_of_nil in Hix].
Qed.

Lemma unindexed_billing (customerObj : StripeCustomer) (cardObj : StripeCard) (u : User) :
  ∀ ix, ix ∈ uniqueIndexes →
    ix.2 (set_hasCardInformation true
            (set_stripeCard (Some cardObj) (set_stripeCustomer (Some customerObj) u)))
    = ix.2 u.
Proof.
  intros ix Hix. unfold uniqueIndexes in Hix.
  repeat (apply elem_of_cons in Hix as [->|Hix]); [done..|by apply elem_of_nil in Hix].
Qed.

Lemma unindexed_card (cardObj : StripeCard) (customerObj : StripeCustomer) (u : User) :
  ∀ ix, ix ∈ uniqueIndexes →
    ix.2 (set_stripeCard (Some cardObj) (set_stripeCustomer (Some customerObj) u)) = ix.2 u.
Proof.
  intros ix Hix. unfold uniqueIndexes in Hix.
  repeat (apply elem_of_cons in Hix as [->|Hix]); [done..|by apply elem_of_nil in Hix].
Qed.

Section BillingProperties.
Context `{services : Services} `{api : stripe.Api}.

(** An update that touches no indexed path is accepted and replaces the
    first record with the id. *)
Lemma billing_accepted (userId : string) (modifier : User -> User) (w : World) (old : User) :
  List.find (λ u, bool_decide (_id u = userId)) (Users w) = Some old →
  (∀ ix, ix ∈ uniqueIndexes → ix.2 (modifier old) = ix.2 old) →
  ∃ pre post,
    Users w = pre ++ old :: post
    ∧ (∀ v, v ∈ pre → _id v ≠ userId)
    ∧ _id old = userId
    ∧ findByIdAndUpdate userId modifier (emit UserFindOne w)
      = (Ok (Some (modifier old)),
         set_Users (pre ++ modifier old :: post) (emit UserFindOne w)).
Proof.
  intros Hfind Hsame.
  apply (findByIdAndUpdate_accepted userId modifier (emit UserFindOne w) old Hfind).
  - by apply invalidPaths_unindexed.
  - by apply duplicateKey_unmodified.
Qed.

(** X7: for a stored user, [getListOfInvoicesForCustomer] asks the payment
    processor for the invoices of the user's customer id. If the call
    rejects, or resolves to nothing ('There is no payment history.'), the
    method throws and the collection is unchanged; otherwise the list
    becomes the user's [stripeListOfInvoices], is returned, and no other
    path and no other record changes. *)
Theorem getListOfInvoicesForCustomer_spec (userId : string) (w : World) (old : User) :
  List.find (λ u, bool_decide (_id u = userId)) (Users w) = Some old →
  match stripe.getListOfInvoices (customer_id <$> stripeCustomer old) with
  | Throw e =>
      getListOfInvoicesForCustomer userId w = (Throw e, emit UserFindOne w)
  | Ok None =>
      getListOfInvoicesForCustomer userId w
      = (Throw (JsError "There is no payment history."), emit UserFindOne w)
  | Ok (Some invoices) =>
      ∃ pre post,
        Users w = pre ++ old :: post
        ∧ getListOfInvoicesForCustomer userId w
          = (Ok (Some (mkInvoicesFields userId (Some invoices))),
             set_Users (pre ++ set_stripeListOfInvoices (Some invoices) old :: post)
               (emit UserFindOne w))
  end.
Proof.
  intros Hfind.
  pose proof (λ invoices,
    billing_accepted userId (set_stripeListOfInvoices (Some invoices)) w old Hfind
      (unindexed_stripeListOfInvoices _ old)) as Hupdate.
  unfold getListOfInvoicesForCustomer, mbind, M_bind, await, logger_debug.
  rewrite findById_run, Hfind by (by eapply castsToObjectId_stored).
  cbn [fmap option_fmap option_map this fst snd mret M_ret].
  change (stripeCustomer (decryptFieldsSync old)) with (stripeCustomer old).
  destruct (stripe.getListOfInvoices _) as [[invoices|]|e]; [|done..].
  destruct (Hupdate invoices) as (pre & post & Hcoll & _ & Hid & ->).
  exists pre, post. split; [done|]. cbn [fst snd throw].
  unfold selectInvoices. cbn. by rewrite Hid.
Qed.

(** X8: for a stored user, [createCustomer] writes nothing unless both
    calls to the payment processor resolve: if creating the customer or
    retrieving its default card rejects, the error propagates and the
    collection is unchanged; otherwise the customer and the card are
    stored, [hasCardInformation] becomes true, the three paths are returned
    and no other path and no other record changes. *)
Theorem createCustomer_spec (userId : string) (stripeToken : StripeToken) (w : World)
    (old : User) :
  List.find (λ u, bool_decide (_id u = userId)) (Users w) = Some old →
  match stripe.createCustomer (token_id stripeToken) (email_of old) userId with
  | Throw e => createCustomer userId stripeToken w = (Throw e, emit UserFindOne w)
  | Ok customerObj =>
      match stripe.retrieveCard (customer_id customerObj)
              (customer_default_source customerObj) with
      | Throw e => createCustomer userId stripeToken w = (Throw e, emit UserFindOne w)
      | Ok cardObj =>
          ∃ pre post,
            Users w = pre ++ old :: post
            ∧ createCustomer userId stripeToken w
              = (Ok (Some (mkBillingFields userId (Some customerObj) (Some cardObj) true)),
                 set_Users
                   (pre ++ set_hasCardInformation true
                             (set_stripeCard (Some cardObj)
                                (set_stripeCustomer (Some customerObj) old)) :: post)
                   (emit UserFindOne w))
      end
  end.
Proof.
  intros Hfind.
  pose proof (λ customerObj cardObj,
    billing_accepted userId
      (λ u, set_hasCardInformation true
              (set_stripeCard (Some cardObj) (set_stripeCustomer (Some customerObj) u)))
      w old Hfind (unindexed_billing _ _ old)) as Hupdate.
  unfold createCustomer, email_of, mbind, M_bind, await, logger_debug.
  rewrite findById_run, Hfind by (by eapply castsToObjectId_stored).
  cbn [fmap option_fmap option_map this fst snd mret M_ret].
  change (email (decryptFieldsSync old)) with (email old).
  destruct (stripe.createCustomer _ _ _) as [customerObj|e]; [|done].
  cbn [fst snd].
  destruct (stripe.retrieveCard _ _) as [cardObj|e]; [|done].
  destruct (Hupdate customerObj cardObj) as (pre & post & Hcoll & _ & Hid & ->).
  exists pre, post. split; [done|]. cbn [fst snd].
  unfold selectBilling. cbn. by rewrite Hid.
Qed.

(** X9: for a stored user, [createNewCardUpdateCustomer] writes nothing
    unless creating the card and updating the customer both resolve;
    otherwise it stores the new card and the updated customer and returns
    the card. It never sets [hasCardInformation]: the flag keeps the value
    it had, as does every other path and every other record. *)
Theorem createNewCardUpdateCustomer_spec (userId : string) (stripeToken : StripeToken)
    (w : World) (old : User) :
  List.find (λ u, bool_decide (_id u = userId)) (Users w) = Some old →
  match stripe.createNewCard (customer_id <$> stripeCustomer old) (token_id stripeToken) with
  | Throw e =>
      createNewCardUpdateCustomer userId stripeToken w = (Throw e, emit UserFindOne w)
  | Ok newCardObj =>
      match stripe.updateCustomer (customer_id <$> stripeCustomer old)
              (card_id newCardObj) with
      | Throw e =>
          createNewCardUpdateCustomer userId stripeToken w = (Throw e, emit UserFindOne w)
      | Ok updatedCustomerObj =>
          ∃ pre post updated,
            Users w = pre ++ old :: post
            ∧ createNewCardUpdateCustomer userId stripeToken w
              = (Ok (Some (mkCardFields userId (Some newCardObj))),
                 set_Users (pre ++ updated :: post) (emit UserFindOne w))
            ∧ updated = set_stripeCard (Some newCardObj)
                          (set_stripeCustomer (Some updatedCustomerObj) old)
            ∧ hasCardInformation updated = hasCardInformation old
      end
  end.
Proof.
  intros Hfind.
  pose proof (λ newCardObj updatedCustomerObj,
    billing_accepted userId
      (λ u, set_stripeCard (Some newCardObj)
              (set_stripeCustomer (Some updatedCustomerObj) u))
      w old Hfind (unindexed_card _ _ old)) as Hupdate.
  unfold createNewCardUpdateCustomer, mbind, M_bind, await, logger_debug.
  rewrite findById_run, Hfind by (by eapply castsToObjectId_stored).
  cbn [fmap option_fmap option_map this fst snd mret M_ret].
  change (stripeCustomer (decryptFieldsSync old)) with (stripeCustomer old).
  destruct (stripe.createNewCard _ _) as [newCardObj|e]; [|done].
  cbn [fst snd].
  destruct (stripe.updateCustomer _ _) as [updatedCustomerObj|e]; [|done].
  destruct (Hupdate newCardObj updatedCustomerObj) as (pre & post & Hcoll & _ & Hid & ->).
  exists pre, post, (set_stripeCard (Some newCardObj)
                       (set_stripeCustomer (Some updatedCustomerObj) old)).
  split; [done|]. split; [|done]. cbn [fst snd].
  unfold selectCard. cbn. by rewrite Hid.
Qed.

(** X10: every billing method, called for a user id that no stored record
    has, writes nothing and makes no use of what the payment processor
    would answer: when the id casts to an ObjectId, [findById] resolves to
    [null] and the method throws the [TypeError] of reading a property of
    [null]; when it does not cast, [findById] rejects with a [CastError]
    before any query is sent. *)
Theorem billing_unknown_user (userId : string) (stripeToken : StripeToken) (w : World) :
  (∀ u, u ∈ Users w → _id u ≠ userId) →
  createCustomer userId stripeToken w
  = (if isObjectId userId then (Throw (TypeError "email"), emit UserFindOne w)
     else (Throw (CastError "_id" userId), w))
  ∧ createNewCardUpdateCustomer userId stripeToken w
    = (if isObjectId userId then (Throw (TypeError "stripeCustomer"), emit UserFindOne w)
       else (Throw (CastError "_id" userId), w))
  ∧ getListOfInvoicesForCustomer userId w
    = (if isObjectId userId then (Throw (TypeError "stripeCustomer"), emit UserFindOne w)
       else (Throw (CastError "_id" userId), w)).
Proof.
  intros Hunknown.
  unfold createCustomer, createNewCardUpdateCustomer, getListOfInvoicesForCustomer,
    mbind, M_bind.
  rewrite !(findById_unknown userId w Hunknown). by destruct (isObjectId userId).
Qed.

End BillingProperties.

(** * Invariants of the collection *)

(** ** What a write leaves in the collection *)

Lemma write_others (id : string) (u : User) (l : list User) :
  (∀ v, v ∈ l → _id v ≠ id) →
  (λ v, if bool_decide (_id v = id) then u else v) <$> l = l.
Proof.
  induction l as [|a l IH]; intros Hl; csimpl; [done|].
  rewrite bool_decide_eq_false_2 by (apply Hl; left).
  rewrite IH; [done|]. intros v Hv. apply Hl. by right.
Qed.

Lemma write_update (l u : User) (pre post : list User) :
  _id u = _id l →
  (∀ v, v ∈ pre → _id v ≠ _id l) →
  (∀ v, v ∈ post → _id v ≠ _id l) →
  write (mkDocument (Some l) u) (pre ++ l :: post) = pre ++ u :: post.
Proof.
  intros Hid Hpre Hpost. unfold write. cbn [loaded this].
  rewrite fmap_app, fmap_cons, Hid, bool_decide_eq_true_2 by done.
  by rewrite !write_others.
Qed.

(** The ids of a well-indexed collection are distinct: the records before
    and after a stored record do not have its [_id]. *)
Lemma wellIndexed_ids (l : User) (pre post : list User) :
  wellIndexed (pre ++ l :: post) →
  (∀ v, v ∈ pre → _id v ≠ _id l) ∧ (∀ v, v ∈ post → _id v ≠ _id l).
Proof.
  intros Hwell.
  assert (Hids : NoDup (omap (λ u, Some (_id u)) (pre ++ l :: post))).
  { apply (Hwell ("_id", λ u, Some (_id u))). unfold uniqueIndexes. set_solver. }
  rewrite omap_app in Hids. csimpl in Hids.
  apply NoDup_app in Hids as (_ & Hdisj & Hpost).
  apply NoDup_cons in Hpost as [Hpost _].
  split.
  - intros v Hv Heq. apply (Hdisj (_id v)).
    + apply list_elem_of_omap. by exists v.
    + rewrite Heq. left.
  - intros v Hv Heq. apply Hpost. apply list_elem_of_omap. exists v. by rewrite Heq.
Qed.

Lemma duplicateKey_free (d : Document) (coll : list User) :
  duplicateKey d coll = None →
  ∀ ix, ix ∈ uniqueIndexes →
    isModified d ix.2 = true → collides ix.2 (this d) (others d coll) = false.
Proof.
  unfold duplicateKey. intros Hdup ix Hix Hmod.
  destruct (List.find _ uniqueIndexes) eqn:Hfind; [done|].
  apply list_elem_of_In in Hix.
  pose proof (find_none _ _ Hfind ix Hix) as Hfree. simpl in Hfree.
  by rewrite Hmod in Hfree.
Qed.

Lemma collides_absent (key : User -> option string) (u : User) (coll : list User)
    (k : string) :
  collides key u coll = false → key u = Some k → k ∉ omap key coll.
Proof.
  unfold collides. intros Hfree Hk. rewrite Hk in Hfree.
  intros (v & Hv & Hkv)%list_elem_of_omap.
  assert (existsb (holds key k) coll = true); [|congruence].
  apply existsb_exists. exists v. split; [by apply list_elem_of_In|].
  by apply bool_decide_eq_true.
Qed.

Lemma write_elem_of (d : Document) (coll : list User) (v : User) :
  v ∈ write d coll → v ∈ coll ∨ v = this d.
Proof.
  unfold write. destruct (loaded d).
  - intros (x & -> & Hx)%list_elem_of_fmap. case_bool_decide; auto.
  - intros [?|?%list_elem_of_singleton]%elem_of_app; auto.
Qed.

Lemma bind_mret_Users {A B : Type} (m : M A) (f : A -> B) (w : World) :
  Users ((x ← m; mret (f x)) w).2 = Users (m w).2.
Proof. unfold mbind, M_bind. by destruct (m w) as [[a|e] w']. Qed.

(** ** Sealing *)

Lemma encryptField_sealed (f : EncryptedField) :
  (__enc f = Some true → plain f = None) → plain (encryptField f) = None.
Proof.
  destruct f as [p [[]|] d]; destruct p; cbn; naive_solver.
Qed.

Lemma decryptField_marked (f : EncryptedField) :
  plain f = None → __enc (decryptField f) = Some true → plain (decryptField f) = None.
Proof.
  destruct f as [p [[]|] [c|]]; cbn; naive_solver.
Qed.

(** What [save] seals of a record that was loaded sealed and merged. *)
Lemma merged_at_rest (type : Provider) (oauthId : option string) (oauthToken : OAuthToken)
    (found : User) :
  plain (oAuthAccessToken found) = None →
  plain (oAuthRefreshToken found) = None →
  let s := encryptFieldsSync (merged type oauthId oauthToken (decryptFieldsSync found)) in
  plain (oAuthAccessToken s) = None ∧ plain (oAuthRefreshToken s) = None.
Proof.
  intros Ha Hr. cbv zeta.
  unfold merged, withRefreshToken, withAccessToken, backfilled.
  destruct (truthy (get_Id type (decryptFieldsSync found))), type;
    destruct (supplied (accessToken oauthToken)), (supplied (refreshToken oauthToken));
    split;
    first [ reflexivity
          | apply encryptField_sealed; by apply decryptField_marked ].
Qed.

Lemma created_at_rest `{services : Services} (type : Provider) (oauthId : option string)
    (email : string) (oauthToken : OAuthToken) (displayName : string)
    (avatarUrl : option string) (w : World) :
  let s := encryptFieldsSync
             (created type oauthId email oauthToken displayName avatarUrl w) in
  plain (oAuthAccessToken s) = None ∧ plain (oAuthRefreshToken s) = None.
Proof.
  cbv zeta. unfold created.
  destruct type, (supplied (accessToken oauthToken)),
    (supplied (refreshToken oauthToken)); by cbn.
Qed.

Section Invariants.
Context `{services : Services}.

(** What a call of [signInOrSignUp] does to the collection: nothing, an
    accepted update of the record found, or an accepted insert of the record
    made. *)
Lemma signInOrSignUp_Users (type : Provider) (oauthId : option string)
    (email : string) (oauthToken : OAuthToken) (displayName : string)
    (avatarUrl : option string) (w : World) :
  let after :=
    Users (signInOrSignUp type oauthId email oauthToken displayName avatarUrl w).2 in
  after = Users w
  ∨ (∃ found,
       found ∈ Users w
       ∧ duplicateKey
           (mkDocument (Some found)
              (encryptFieldsSync (merged type oauthId oauthToken (decryptFieldsSync found))))
           (Users w) = None
       ∧ after
         = write
             (mkDocument (Some found)
                (encryptFieldsSync
                   (merged type oauthId oauthToken (decryptFieldsSync found))))
             (Users w))
  ∨ (duplicateKey
       (mkDocument None
          (encryptFieldsSync (created type oauthId email oauthToken displayName avatarUrl w)))
       (Users w) = None
     ∧ after
       = Users w
         ++ [encryptFieldsSync
               (created type oauthId email oauthToken displayName avatarUrl w)]).
Proof.
  cbv zeta. destruct (truthy oauthId) eqn:Hid.
  2: { left. unfold signInOrSignUp. by rewrite Hid. }
  destruct (List.find (byEmailOrId type email oauthId) (Users w)) as [found|] eqn:Hfind.
  - destruct (isEmpty oauthToken) eqn:Htok.
    { left. unfold signInOrSignUp. rewrite Hid. simpl.
      unfold mbind, M_bind, findOne. rewrite Hfind. simpl. by rewrite Htok. }
    rewrite (signInOrSignUp_found _ _ _ _ _ _ _ _ Hid Hfind Htok), bind_mret_Users.
    destruct (duplicateKey
                (mkDocument (Some found)
                   (encryptFieldsSync
                      (merged type oauthId oauthToken (decryptFieldsSync found))))
                (Users w)) as [ix|] eqn:Hdup.
    + left. by rewrite (save_rejected (mkDocument _ _) (emit UserFindOne w) ix
                          (merged_valid _ _ _ _) Hdup).
    + right. left. exists found. split_and!; [|done|].
      * apply find_some in Hfind as [Hin _]. by apply list_elem_of_In.
      * by rewrite (save_accepted (mkDocument _ _) (emit UserFindOne w)
                      (merged_valid _ _ _ _) Hdup).
  - rewrite (signInOrSignUp_new _ _ _ _ _ _ _ Hid Hfind).
    destruct (invalidPaths _); [|by left].
    destruct (duplicateKey _ _) eqn:Hdup; [by left|]. right. right. done.
Qed.

(** X11: [signInOrSignUp] never leaves a token in clear in the collection:
    if no stored record holds one before the call, none does after it,
    whichever branch is taken and whether the call returns or throws. The
    tokens reach the collection only through [save], whose hook seals
    them. *)
Theorem signInOrSignUp_sealed_at_rest (type : Provider) (oauthId : option string)
    (email : string) (oauthToken : OAuthToken) (displayName : string)
    (avatarUrl : option string) (w : World) :
  sealedAtRest (Users w) →
  sealedAtRest
    (Users (signInOrSignUp type oauthId email oauthToken displayName avatarUrl w).2).
Proof.
  intros Hsealed.
  destruct (signInOrSignUp_Users type oauthId email oauthToken displayName avatarUrl w)
    as [->|[(found & Hin & _ & ->)|[_ ->]]]; [done| |].
  - intros v [Hv| ->]%write_elem_of; [by apply Hsealed|].
    destruct (Hsealed found Hin). by apply merged_at_rest.
  - intros v [Hv| ->%list_elem_of_singleton]%elem_of_app; [by apply Hsealed|].
    apply created_at_rest.
Qed.

End Invariants.

(** * Calls in sequence *)

Lemma find_app_None {A : Type} (f : A -> bool) (l k : list A) :
  List.find f l = None → List.find f (l ++ k) = List.find f k.
Proof.
  induction l as [|a l IH]; simpl; [done|]. destruct (f a); [done|]. exact IH.
Qed.

Lemma write_length (d : Document) (coll : list User) :
  is_Some (loaded d) → length (write d coll) = length coll.
Proof. unfold write. intros [l ->]. by rewrite length_fmap. Qed.

Section Sequences.
Context `{services : Services} `{!Contract services}.

(** X15: signing in again does not sign up again. Once [signInOrSignUp]
    has stored a new account (nobody matched, and the record passed
    validation: the email and the generated slug are not empty), a second
    call for the same provider id and email, with whatever tokens, name and
    avatar, finds that account: it
    returns it under the [_id], slug, name and avatar of the first call,
    adds no record, and makes no call to the invitation, template, email or
    mailing-list services. This holds even when the first call threw for
    the missing 'welcome' template, because the record was already
    stored. *)
Theorem signInOrSignUp_again (type : Provider) (oauthId : option string)
    (email : string) (oauthToken : OAuthToken) (displayName : string)
    (avatarUrl : option string) (w : World)
    (oauthToken' : OAuthToken) (displayName' : string) (avatarUrl' : option string) :
  truthy oauthId = true →
  List.find (byEmailOrId type email oauthId) (Users w) = None →
  email ≠ "" →
  generateSlug (Users w) displayName ≠ "" →
  let first := signInOrSignUp type oauthId email oauthToken displayName avatarUrl w in
  let again := signInOrSignUp type oauthId email oauthToken' displayName' avatarUrl' in
  ∃ r,
    (again first.2).1 = Ok r
    ∧ _id r = ObjectId (Users w)
    ∧ email_of r = email
    ∧ get_Id type r = oauthId
    ∧ slug r = generateSlug (Users w) displayName
    ∧ displayName_of r = Some displayName
    ∧ avatarUrl_of r = avatarUrl
    ∧ length (Users (again first.2).2) = S (length (Users w))
    ∧ events again first.2
      = UserFindOne :: if isEmpty oauthToken' then [] else [UserSave (ObjectId (Users w))].
Proof.
  intros Hid Hfind Hemail Hslug. cbv zeta.
  rewrite (signInOrSignUp_created _ _ _ _ _ _ _ Hid Hfind Hemail Hslug). cbn [snd].
  set (new := encryptFieldsSync
                (created type oauthId email oauthToken displayName avatarUrl w)).
  set (w1 := set_Users (Users w ++ [new]) _).
  destruct (created_keys type oauthId email oauthToken displayName avatarUrl w)
    as (Hnid & Hnemail & Hnslug & Hntype & _ & _ & _ & Hnname & Hnavatar).
  fold new in Hnid, Hnemail, Hnslug, Hntype, Hnname, Hnavatar.
  assert (Hfind1 : List.find (byEmailOrId type email oauthId) (Users w1) = Some new).
  { change (Users w1) with (Users w ++ [new]). rewrite (find_app_None _ _ _ Hfind).
    simpl. unfold byEmailOrId, byEmail. unfold email_of in Hnemail.
    by rewrite Hnemail, bool_decide_eq_true_2. }
  assert (Hlen1 : length (Users w1) = S (length (Users w))).
  { change (Users w1) with (Users w ++ [new]). rewrite length_app. simpl. lia. }
  rewrite (signInOrSignUp_events type oauthId email oauthToken' displayName' avatarUrl' w1).
  rewrite Hid, Hfind1. cbn [negb].
  destruct (isEmpty oauthToken') eqn:Htok.
  - exists (decryptFieldsSync new). unfold signInOrSignUp. rewrite Hid. simpl.
    unfold mbind, M_bind, findOne. rewrite Hfind1. simpl. rewrite Htok.
    by split_and!.
  - rewrite (signInOrSignUp_found _ _ _ _ _ _ _ _ Hid Hfind1 Htok).
    assert (Hdup : duplicateKey
                     (mkDocument (Some new)
                        (encryptFieldsSync
                           (merged type oauthId oauthToken' (decryptFieldsSync new))))
                     (Users (emit UserFindOne w1)) = None).
    { apply merged_accepted. rewrite Hntype, Hid. discriminate. }
    unfold mbind, M_bind.
    rewrite (save_accepted (mkDocument (Some new) _) (emit UserFindOne w1)
               (merged_valid _ _ _ _) Hdup).
    cbn [fst snd mret M_ret this loaded Users set_Users emit].
    eexists. split; [reflexivity|].
    destruct (merged_frame_view type oauthId oauthToken' new)
      as (Hrid & Hrslug & _ & Hremail & _ & _ & Hrname & Hravatar & _).
    destruct (merged_keys type oauthId oauthToken' new) as (_ & _ & _ & _ & Hrtype).
    rewrite Hntype, Hid in Hrtype.
    split_and!.
    + by rewrite Hrid.
    + unfold email_of. by rewrite Hremail.
    + exact Hrtype.
    + by rewrite Hrslug.
    + unfold displayName_of. by rewrite Hrname.
    + unfold avatarUrl_of. by rewrite Hravatar.
    + rewrite write_length by (by eexists). exact Hlen1.
    + by rewrite Hnid.
Qed.

End Sequences.

(** * Properties of [auth.ts] *)

(** ** The OAuth callbacks *)

(** X16: the [verify] callback of either provider throws the [TypeError]
    of reading [value] of [undefined] exactly when the profile has an empty
    [emails] array, before [signInOrSignUp] is called; for every other
    profile it calls [signInOrSignUp] with the profile's [id] and with a
    token object that [_.isEmpty] never takes for empty, even when the
    provider sent neither token. *)
Theorem verify_arguments (type : Provider) (accessToken refreshToken : option string)
    (profile : Profile.Profile) :
  match Profile.emails profile with
  | Some [] =>
      argumentsOf type accessToken refreshToken profile
      = Throw (TypeError_undefined "value")
  | _ =>
      ∃ args,
        argumentsOf type accessToken refreshToken profile = Ok args
        ∧ Arguments.oauthId args = Profile.id profile
        ∧ Arguments.oauthToken args
          = mkOAuthToken (Some accessToken) (Some refreshToken)
        ∧ isEmpty (Arguments.oauthToken args) = false
  end.
Proof.
  unfold argumentsOf, googleArguments, microsoftArguments, firstEmail.
  destruct type, (Profile.emails profile) as [[|first rest]|]; try done;
    by eexists.
Qed.


Section Callbacks.
Context `{services : Services}.


End Callbacks.

(** ** The redirect after login *)

(** X18: where a login ends. For a signed-in user, the handler of
    [/oauth2<type>], run on the session that the handler of [/auth/<type>]
    prepared from the query, always redirects to [URL_APP] followed by a
    path that starts with a slash: the [next] of the query when that starts
    with a slash, and else '/create-team' for a user without default team
    and the discussions of the default team otherwise. A [next] that does
    not start with a slash is dropped. The user is added to a team exactly
    when the query carried a non-empty invitation token, with that token. *)
Theorem login_redirect (URL_APP : string) (query : option Query) (user : User) :
  let home :=
    if String.eqb (defaultTeamSlug user) "" then "/create-team"
    else "/team/" +:+ defaultTeamSlug user +:+ "/discussions" in
  let path :=
    match query ≫= query_next with
    | Some next => if String.prefix "/" next then next else home
    | None => home
    end in
  let token := query ≫= query_invitationToken in
  callbackHandler URL_APP (Some user) (authHandler query)
  = Ok (mkRedirect (if truthy token then (λ t, (t, user)) <$> token else None)
          (URL_APP +:+ path))
  ∧ String.prefix "/" path = true.
Proof.
  cbv zeta. unfold callbackHandler, authHandler. cbn [next_url invitationToken].
  destruct (query ≫= query_invitationToken) as [[|c t]|];
    destruct (query ≫= query_next) as [[|d n]|];
    destruct (defaultTeamSlug user) as [|e s]; cbn [truthy String.eqb negb andb default];
    try (split; reflexivity);
    destruct (String.prefix "/" (String d n)) eqn:Hn;
    cbn [truthy String.eqb negb andb default fmap option_fmap option_map]; rewrite ?Hn;
    split; reflexivity.
Qed.

(** ** The session *)

Lemma find_by_id_None (id : string) (coll : list User) :
  (∀ v, v ∈ coll → _id v ≠ id) →
  List.find (λ v, bool_decide (_id v = id)) coll = None.
Proof.
  intros Hfree. destruct (List.find _ coll) as [u|] eqn:Hfind; [|done].
  apply find_some in Hfind as [Hin Hu]. apply list_elem_of_In in Hin.
  apply bool_decide_eq_true in Hu. by destruct (Hfree u).
Qed.

Lemma deserializeUser_run `{services : Services} (id : string) (w : World) (u : User) :
  List.find (λ v, bool_decide (_id v = id)) (Users w) = Some u →
  deserializeUser id w
  = (Ok (Some (mkSessionUser (publicFields (decryptedView u)) (googleId u) (microsoftId u))),
     emit UserFindOne w).
Proof.
  intros Hfind. unfold deserializeUser, mbind, M_bind.
  by rewrite findById_run, Hfind by (by eapply castsToObjectId_stored).
Qed.

Section Session.
Context `{services : Services} `{!Contract services}.

(** X19: the session round trip. The user that [signInOrSignUp] returns
    is put in the session by [serializeUser] as its [_id]; on a collection
    with intact unique indexes, [deserializeUser] of that [_id], run after
    the call, finds the account again and yields the public fields and the
    provider ids of the very user that was returned, whether the account
    was found, merged or created. *)
Theorem session_round_trip (type : Provider) (oauthId : option string)
    (email : string) (oauthToken : OAuthToken) (displayName : string)
    (avatarUrl : option string) (w w' : World) (r : User) :
  wellIndexed (Users w) →
  signInOrSignUp type oauthId email oauthToken displayName avatarUrl w = (Ok r, w') →
  deserializeUser (serializeUser r) w'
  = (Ok (Some (mkSessionUser (publicFields r) (googleId r) (microsoftId r))),
     emit UserFindOne w').
Proof.
  intros Hwell Hrun. unfold serializeUser.
  destruct (truthy oauthId) eqn:Hid.
  2: { unfold signInOrSignUp in Hrun. by rewrite Hid in Hrun. }
  destruct (List.find (byEmailOrId type email oauthId) (Users w)) as [found|] eqn:Hfind.
  - assert (Hin : found ∈ Users w).
    { apply find_some in Hfind as [Hin _]. by apply list_elem_of_In. }
    apply list_elem_of_split in Hin as (pre & post & Hcoll).
    rewrite Hcoll in Hwell.
    destruct (wellIndexed_ids found pre post Hwell) as [Hpre Hpost].
    destruct (isEmpty oauthToken) eqn:Htok.
    + unfold signInOrSignUp in Hrun. rewrite Hid in Hrun. simpl in Hrun.
      unfold mbind, M_bind, findOne in Hrun. rewrite Hfind in Hrun. simpl in Hrun.
      rewrite Htok in Hrun. injection Hrun as <- <-.
      apply (deserializeUser_run _ _ found). cbn [Users emit]. rewrite Hcoll.
      by apply find_by_id.
    + rewrite (signInOrSignUp_found _ _ _ _ _ _ _ _ Hid Hfind Htok) in Hrun.
      unfold mbind, M_bind in Hrun.
      destruct (duplicateKey
                  (mkDocument (Some found)
                     (encryptFieldsSync
                        (merged type oauthId oauthToken (decryptFieldsSync found))))
                  (Users (emit UserFindOne w))) as [ix|] eqn:Hdup.
      { by rewrite (save_rejected (mkDocument _ _) (emit UserFindOne w) ix
                      (merged_valid _ _ _ _) Hdup) in Hrun. }
      rewrite (save_accepted (mkDocument _ _) (emit UserFindOne w)
                 (merged_valid _ _ _ _) Hdup) in Hrun.
      cbn [fst snd mret M_ret this loaded Users emit] in Hrun. injection Hrun as <- <-.
      destruct (merged_keys type oauthId oauthToken found) as (Hmid & _).
      set (u := encryptFieldsSync (merged type oauthId oauthToken (decryptFieldsSync found)))
        in *.
      change (_id (decryptedView u)) with (_id u).
      change (googleId (decryptedView u)) with (googleId u).
      change (microsoftId (decryptedView u)) with (microsoftId u).
      apply (deserializeUser_run _ _ u). cbn [Users set_Users]. rewrite Hcoll.
      rewrite (write_update found u pre post Hmid Hpre Hpost).
      apply find_by_id; [|done]. by rewrite Hmid.
  - rewrite (signInOrSignUp_new _ _ _ _ _ _ _ Hid Hfind) in Hrun.
    destruct (invalidPaths _); [|done].
    rewrite (created_accepted type oauthId email oauthToken displayName avatarUrl w Hfind)
      in Hrun.
    destruct (welcomeTemplateOf w); [|done]. injection Hrun as <- <-.
    destruct (created_keys type oauthId email oauthToken displayName avatarUrl w)
      as (Hnid & _).
    set (new := encryptFieldsSync
                  (created type oauthId email oauthToken displayName avatarUrl w)) in *.
    change (_id (decryptedView new)) with (_id new).
    change (googleId (decryptedView new)) with (googleId new).
    change (microsoftId (decryptedView new)) with (microsoftId new).
    apply (deserializeUser_run _ _ new). cbn [Users set_Users].
    rewrite find_app_None.
    + simpl. by rewrite bool_decide_eq_true_2.
    + apply find_by_id_None. intros v Hv. rewrite Hnid. by apply ObjectId_fresh.
Qed.

End Session.

(** ** The passwordless login *)

Section PasswordlessProperties.
Context `{services : Services} `{tokenStore : mongoStore.Api}.

(** X20: the passwordless round trip. Once [signUpByEmail] has returned a
    user for [uid] and [email], a login request for that email is answered
    with [uid] from the User collection, without asking the token store;
    and the middleware that replaces a [req.user] string by a record loads,
    for a non-empty [uid], the public fields that [signUpByEmail]
    returned. *)
Theorem passwordless_round_trip (uid email : string) (w w' : World) (p : PublicUser) :
  signUpByEmail uid email w = (Ok p, w') →
  requestToken email w' = (Ok uid, emit UserFindOne w')
  ∧ (truthy (Some uid) = true →
     loadRequestUser (Uid uid) w' = (Ok (Loaded (Some p)), emit UserFindOne w')).
Proof.
  intros Hrun.
  destruct (List.find (byEmail email) (Users w)) as [u|] eqn:Hfind.
  { by rewrite (signUpByEmail_exists uid email w u Hfind) in Hrun. }
  rewrite (signUpByEmail_new uid email w Hfind) in Hrun.
  destruct (signedUpErrors uid email w); [|done].
  destruct (duplicateKey _ _) eqn:Hdup; [done|].
  destruct (welcomeTemplateOf w); [|done]. injection Hrun as <- <-.
  split.
  - unfold requestToken, mbind, M_bind, findOne_lean. cbn [Users set_Users].
    rewrite (find_app_None _ _ _ Hfind). simpl.
    unfold byEmail. simpl. by rewrite bool_decide_eq_true_2.
  - intros Huid. unfold loadRequestUser. rewrite Huid.
    assert (Hstored : List.find (λ v, bool_decide (_id v = uid))
                        (Users w ++ [signedUp uid email w])
                      = Some (signedUp uid email w)).
    { rewrite find_app_None.
      - simpl. by rewrite bool_decide_eq_true_2.
      - apply find_by_id_None. intros v Hv Heq.
        pose proof (duplicateKey_free _ _ Hdup ("_id", λ u, Some (_id u))) as Hfree.
        cbn [this others loaded snd] in Hfree.
        eapply (collides_absent _ _ _ uid
                  (Hfree ltac:(unfold uniqueIndexes; set_solver) eq_refl)).
        + done.
        + apply list_elem_of_omap. exists v. by rewrite Heq. }
    unfold mbind, M_bind.
    rewrite findById_run by (by eapply castsToObjectId_stored).
    cbn [Users set_Users]. by rewrite Hstored.
Qed.

End PasswordlessProperties.

(** * Runs of the other methods on concrete stores *)

(** Splits [H : u ∈ coll] for a concrete collection in one goal per record. *)
Ltac stored H :=
  unfold registry, profiles, club, store in H; cbn [Users] in H;
  repeat (apply elem_of_cons in H as [->|H]); [..|by apply elem_of_nil in H].

Lemma registry_wellIndexed : wellIndexed (Users registry).
Proof.
  intros ix Hix. unfold uniqueIndexes in Hix.
  repeat (apply elem_of_cons in Hix as [->|Hix]); [..|by apply elem_of_nil in Hix];
    by apply (bool_decide_unpack _).
Qed.

Lemma registry_sealedAtRest : sealedAtRest (Users registry).
Proof. intros u Hu. stored Hu; done. Qed.

(** Bob is not a member of the team: he gets no member list. *)
Lemma getTeamMembers_refused_witness :
  ∃ message, (getTeamMembers (Some "u2") (Some "t1") club).1 = Throw (JsError message).
Proof.
  apply getTeamMembers_refused.
  do 3 right. exists (Team.mkTeam "t1" ["u1"; "u3"]). split; [reflexivity|].
  intros m Hm.
  repeat (apply elem_of_cons in Hm as [->|Hm]; [discriminate|]).
  by apply elem_of_nil in Hm.
Defined.

(** Alice is: she gets her own record, the only stored member, and not
    Bob's. *)
Lemma getTeamMembers_members_witness :
  ∃ members,
    (getTeamMembers (Some "u1") (Some "t1") club).1 = Ok members
    ∧ selectPublicFields alice ∈ members
    ∧ selectPublicFields bob ∉ members.
Proof.
  destruct (getTeamMembers_members (Some "u1") (Some "t1") club)
    as (team & members & w' & Hteam & Hrun & _ & Hiff & Hself).
  { intros [Habsent|[Habsent|[Hnone|(t & Hfound & Hout)]]].
    - discriminate Habsent.
    - discriminate Habsent.
    - by apply (Hnone (Team.mkTeam "t1" ["u1"; "u3"])); [left|].
    - injection Hfound as <-. by apply (Hout "u1"); [left|]. }
  injection Hteam as <-.
  exists members. rewrite Hrun. split; [reflexivity|]. split.
  - apply (Hself alice); [left | reflexivity].
  - intros (u & Hu & Hmem & Heq)%Hiff. stored Hu; [discriminate Heq|].
    cbn in Hmem.
    repeat (apply elem_of_cons in Hmem as [Hmem|Hmem]; [discriminate Hmem|]).
    by apply elem_of_nil in Hmem.
Defined.

(** A uid that casts and one that does not, neither of them stored. *)
Lemma updateProfile_unknown_witness :
  updateProfile (services := servicesUp) daveId "Nobody" "" registry
  = (Throw (TypeError "displayName"), emit UserFindOne registry)
  ∧ updateProfile (services := servicesUp) "u9" "Nobody" "" registry
    = (Throw (CastError "_id" "u9"), registry).
Proof.
  split.
  - apply (updateProfile_unknown (services := servicesUp) daveId "Nobody" "" registry).
    intros u Hu. stored Hu; discriminate.
  - apply (updateProfile_unknown (services := servicesUp) "u9" "Nobody" "" registry).
    intros u Hu. stored Hu; discriminate.
Defined.

(** Robert changes his avatar only: his slug stays. *)
Lemma updateProfile_same_name_witness :
  ∃ pre post w',
    Users profiles = pre ++ robert :: post
    ∧ updateProfile (services := servicesUp) "u2" "Robert" "https://example.com/r.png"
        profiles
      = (Ok (Some (mkProfileFields "u2" (Some "Robert") (Some "https://example.com/r.png")
                     "bob")), w')
    ∧ Users w'
      = pre ++ set_avatarUrl (Some "https://example.com/r.png") robert :: post.
Proof.
  apply (updateProfile_same_name (services := servicesUp) "u2" "Robert"
           "https://example.com/r.png" profiles robert); reflexivity.
Defined.

(** Robert takes the name Bob: the slug 'bob' is his own already, so he
    gets a new one. *)
Lemma updateProfile_new_name_witness :
  ∃ pre post w',
    Users profiles = pre ++ robert :: post
    ∧ updateProfile (services := servicesUp) "u2" "bob" "" profiles
      = (Ok (Some (mkProfileFields "u2" (Some "bob") (Some "") "bob-alicebob")), w')
    ∧ Users w'
      = pre ++ set_slug "bob-alicebob"
                 (set_avatarUrl (Some "") (set_displayName (Some "bob") robert)) :: post
    ∧ ∀ u, u ∈ Users profiles → slug u ≠ "bob-alicebob".
Proof.
  apply (updateProfile_new_name (services := servicesUp) "u2" "bob" "" profiles robert);
    [reflexivity | discriminate | discriminate].
Defined.

Lemma getListOfInvoicesForCustomer_spec_witness :
  ∃ pre post,
    Users registry = pre ++ alice :: post
    ∧ getListOfInvoicesForCustomer (services := servicesUp) (api := stripeUp) "u1" registry
      = (Ok (Some (mkInvoicesFields "u1" (Some history))),
         set_Users (pre ++ set_stripeListOfInvoices (Some history) alice :: post)
           (emit UserFindOne registry)).
Proof.
  exact (getListOfInvoicesForCustomer_spec (services := servicesUp) (api := stripeUp) "u1" registry alice eq_refl).
Defined.

Lemma createCustomer_spec_witness :
  ∃ pre post,
    Users registry = pre ++ alice :: post
    ∧ createCustomer (services := servicesUp) (api := stripeUp) "u1" (mkStripeToken "tok_1") registry
      = (Ok (Some (mkBillingFields "u1" (Some (customer "cus-u1" "tok_1"))
                     (Some (card "tok_1")) true)),
         set_Users
           (pre ++ set_hasCardInformation true
                     (set_stripeCard (Some (card "tok_1"))
                        (set_stripeCustomer (Some (customer "cus-u1" "tok_1")) alice))
                :: post)
           (emit UserFindOne registry)).
Proof.
  exact (createCustomer_spec (services := servicesUp) (api := stripeUp) "u1" (mkStripeToken "tok_1") registry alice
           eq_refl).
Defined.

Lemma createNewCardUpdateCustomer_spec_witness :
  ∃ pre post updated,
    Users registry = pre ++ alice :: post
    ∧ createNewCardUpdateCustomer (services := servicesUp) (api := stripeUp) "u1" (mkStripeToken "tok_2") registry
      = (Ok (Some (mkCardFields "u1" (Some (card "tok_2")))),
         set_Users (pre ++ updated :: post) (emit UserFindOne registry))
    ∧ updated = set_stripeCard (Some (card "tok_2"))
                  (set_stripeCustomer (Some (customer "cus" "tok_2")) alice)
    ∧ hasCardInformation updated = hasCardInformation alice.
Proof.
  exact (createNewCardUpdateCustomer_spec (services := servicesUp) (api := stripeUp) "u1" (mkStripeToken "tok_2")
           registry alice eq_refl).
Defined.

Lemma billing_unknown_user_witness :
  createCustomer (services := servicesUp) (api := stripeUp) daveId (mkStripeToken "tok_1")
    registry
  = (Throw (TypeError "email"), emit UserFindOne registry)
  ∧ getListOfInvoicesForCustomer (services := servicesUp) (api := stripeUp) "u9" registry
    = (Throw (CastError "_id" "u9"), registry).
Proof.
  split.
  - apply (billing_unknown_user (services := servicesUp) (api := stripeUp) daveId
             (mkStripeToken "tok_1") registry).
    intros u Hu. stored Hu; discriminate.
  - apply (billing_unknown_user (services := servicesUp) (api := stripeUp) "u9"
             (mkStripeToken "tok_1") registry).
    intros u Hu. stored Hu; discriminate.
Defined.

(** Carol signs up with both tokens: nothing in the collection is in
    clear. *)
Lemma signInOrSignUp_sealed_at_rest_witness :
  Forall (λ u, plain (oAuthAccessToken u) = None ∧ plain (oAuthRefreshToken u) = None)
    (Users (signInOrSignUp (services := servicesUp) google (Some "g-carol")
              "carol@example.com" (tokens "at" "rt") "Carol" None registry).2).
Proof.
  apply Forall_forall.
  apply (signInOrSignUp_sealed_at_rest (services := servicesUp)).
  intros u Hu. stored Hu; split; reflexivity.
Defined.

(** Carol signs up on a store without the 'welcome' template, and signs in
    again under another name and without tokens. *)
Lemma signInOrSignUp_again_witness :
  ∃ r,
    (signInOrSignUp (services := servicesUp) google (Some "g-carol") "carol@example.com"
       (mkOAuthToken None None) "Caroline" (Some "https://example.com/c.png")
       (signInOrSignUp (services := servicesUp) google (Some "g-carol")
          "carol@example.com" (tokens "at" "rt") "Carol" None bare).2).1 = Ok r
    ∧ _id r = "oid-u1u2"
    ∧ slug r = "Carol"
    ∧ displayName r = Some "Carol"
    ∧ avatarUrl r = None.
Proof.
  destruct (signInOrSignUp_again (services := servicesUp) google (Some "g-carol")
              "carol@example.com" (tokens "at" "rt") "Carol" None bare
              (mkOAuthToken None None) "Caroline" (Some "https://example.com/c.png")
              eq_refl eq_refl ltac:(discriminate) ltac:(discriminate))
    as (r & Hrun & Hrid & _ & _ & Hslug & Hname & Havatar & _).
  exists r. by split_and!.
Defined.


Lemma session_round_trip_witness :
  ∃ r,
    (signInOrSignUp (services := servicesUp) google (Some "g-alice") "alice@example.com"
       (tokens "at" "rt") "Alice" None registry).1 = Ok r
    ∧ (deserializeUser (services := servicesUp) (serializeUser r)
         (signInOrSignUp (services := servicesUp) google (Some "g-alice")
            "alice@example.com" (tokens "at" "rt") "Alice" None registry).2).1
      = Ok (Some (mkSessionUser (publicFields r) (Some "g-alice") None)).
Proof.
  destruct (signInOrSignUp (services := servicesUp) google (Some "g-alice")
              "alice@example.com" (tokens "at" "rt") "Alice" None registry)
    as [[r|e] w'] eqn:Hrun.
  - exists r. split; [reflexivity|]. cbn [fst snd].
    rewrite (session_round_trip (services := servicesUp) _ _ _ _ _ _ _ _ _
               registry_wellIndexed Hrun).
    apply (f_equal fst) in Hrun. vm_compute in Hrun. injection Hrun as <-. reflexivity.
  - apply (f_equal fst) in Hrun. vm_compute in Hrun. discriminate Hrun.
Defined.

Lemma passwordless_round_trip_witness :
  ∃ p w',
    signUpByEmail (services := servicesUp) daveId "carol@example.com" registry = (Ok p, w')
    ∧ requestToken (tokenStore := tokenStoreDown) "carol@example.com" w'
      = (Ok daveId, emit UserFindOne w')
    ∧ loadRequestUser (services := servicesUp) (Uid daveId) w'
      = (Ok (Loaded (Some p)), emit UserFindOne w').
Proof.
  destruct (signUpByEmail (services := servicesUp) daveId "carol@example.com" registry)
    as [[p|e] w'] eqn:Hrun.
  - exists p, w'. split; [reflexivity|].
    destruct (passwordless_round_trip (services := servicesUp)
                (tokenStore := tokenStoreDown) _ _ _ _ _ Hrun) as [Hrequest Hload].
    split; [exact Hrequest | exact (Hload eq_refl)].
  - apply (f_equal fst) in Hrun. vm_compute in Hrun. discriminate Hrun.
Defined.
